(** * OCR_Tools: request normalisation and multi-provider dispatch

    A shallow embedding of the serverless handlers and client services of
    the repository:

    - [Dispatcher]          the OCR dispatch handler and its four vendor
                            adapters
    - [Prober]              [api/ocr/test.ts], the connectivity prober
    - [Facade]              [cloudOcrService.ts], [performCloudOcr]
    - [GeminiService]       [services/geminiService.ts], the analysis adapter
    - [CloudGeminiService]  the variant of the analysis adapter that reads
                            its key through [getGeminiApiKey]:
                            [parseTerminologyFromText]

    The functions are asynchronous JavaScript.  They are embedded as
    programs of a small free monad, [prog], whose effects are the outbound
    calls ([fetch] and the generative model SDK) and thrown exceptions.
    Running a program against a [world], which answers the calls, yields the
    trace of outbound calls together with the outcome, so that "no vendor
    call is made" and "exactly two calls are made" are statements about
    that trace.

    Requests and vendor responses are untyped at run time (the TypeScript
    annotations are erased), so the model keeps them as JSON values and
    follows JavaScript's conversions: ToBoolean for the guards, ToString for
    the template literals, optional chaining for the accessor paths.

    Not modelled: what is written with [console.error], and the frames of
    [error.stack]. *)

From Stdlib Require Import String Ascii ZArith NArith List Lia Bool Arith.
From Stdlib Require Import DecimalString.
Import ListNotations.

Open Scope string_scope.

(* ================================================================= *)
(** * JavaScript values as far as the handlers use them *)
(* ================================================================= *)

Module JS.

(** Strings are sequences of bytes holding the UTF-8 form of the source's
    string constants.  [length] is applied by the source only to the base64
    payload, whose characters are ASCII; on other strings it counts bytes,
    never fewer than the source's count of UTF-16 units. *)

(** The double quote character, U+0022. *)
Definition dq : string := String (ascii_of_nat 34) EmptyString.

(** The line feed character, written [\n] in the source. *)
Definition nl : string := String (ascii_of_nat 10) EmptyString.

(** A number is kept as an exact decimal [mant / 10 ^ scale].  The vendors'
    codes and counters are integers ([scale = 0]). *)
Record number : Type := Num { mant : Z; scale : nat }.

#[warnings="-register-all"]
Inductive json : Type :=
| JNull
| JBool (b : bool)
| JNum (n : number)
| JStr (s : string)
| JArr (items : list json)
| JObj (fields : list (string * json)).

Definition JInt (z : Z) : json := JNum (Num z 0).

(** A JavaScript value read out of a request or a vendor response:
    [None] is [undefined]. *)
Definition value : Type := option json.
Definition undefined : value := None.

(** A [string | undefined] as a value. *)
Definition str_value (s : option string) : value :=
  match s with
  | Some t => Some (JStr t)
  | None => undefined
  end.

(** Thrown values.  Everything the code throws or receives as a rejection
    is an [Error] object; only [name], [message] and [stack] are read. *)
Record exn : Type := Exn { ename : string; message : string }.

Definition Error (msg : string) : exn := Exn "Error" msg.
Definition TypeError (msg : string) : exn := Exn "TypeError" msg.
Definition SyntaxError (msg : string) : exn := Exn "SyntaxError" msg.
Definition URIError (msg : string) : exn := Exn "URIError" msg.

(** [error.stack]: the frames are the engine's; the model keeps the
    heading line. *)
Definition stack (e : exn) : string := ename e ++ ": " ++ message e.

(* ----------------------------------------------------------------- *)
(** ** Numbers to strings *)

Definition digits (n : N) : string := NilEmpty.string_of_uint (N.to_uint n).

Fixpoint zeros (k : nat) : string :=
  match k with
  | O => ""
  | S k' => "0" ++ zeros k'
  end.

(** Number::toString for a decimal written in plain notation. *)
Definition number_to_string (n : number) : string :=
  let sign := if (mant n <? 0)%Z then "-" else "" in
  let ds := digits (Z.abs_N (mant n)) in
  match scale n with
  | O => sign ++ ds
  | S _ =>
      let padded := zeros (S (scale n) - String.length ds) ++ ds in
      let k := String.length padded - scale n in
      sign ++ substring 0 k padded ++ "." ++ substring k (scale n) padded
  end.

(** The member [k] of an object's own. *)
Fixpoint lookup (k : string) (fields : list (string * json)) : value :=
  match fields with
  | [] => None
  | (k', v) :: rest => if String.eqb k k' then Some v else lookup k rest
  end.

(* ----------------------------------------------------------------- *)
(** ** ToBoolean, ToString, [||] *)

Definition is_empty (s : string) : bool :=
  match s with
  | EmptyString => true
  | String _ _ => false
  end.

(** ToBoolean. *)
Definition truthy (v : value) : bool :=
  match v with
  | None => false
  | Some JNull => false
  | Some (JBool b) => b
  | Some (JNum n) => negb (mant n =? 0)%Z
  | Some (JStr s) => negb (is_empty s)
  | Some (JArr _) => true
  | Some (JObj _) => true
  end.

(** The text ToString gives for a value that came out of JSON, where it
    gives one.  An array prints its elements separated by commas, [null]
    elements as nothing. *)
Fixpoint json_to_string (j : json) : string :=
  match j with
  | JNull => "null"
  | JBool true => "true"
  | JBool false => "false"
  | JNum n => number_to_string n
  | JStr s => s
  | JArr items =>
      String.concat ","
        (map (fun x => match x with
                       | JNull => ""
                       | _ => json_to_string x
                       end) items)
  | JObj _ => "[object Object]"
  end.

(** The text of a value, [undefined] printing as its name. *)
Definition to_string (v : value) : string :=
  match v with
  | None => "undefined"
  | Some j => json_to_string j
  end.

(** Whether ToString gives a text at all.  An object is converted through
    its [toString] member: the inherited one prints [[object Object]], but
    a member of the object's own by that name, which in data is never a
    function, hides it, and [valueOf] only gives the object back, so the
    conversion ends in a TypeError.  An array converts each of its
    elements. *)
Fixpoint converts (j : json) : bool :=
  match j with
  | JArr items => forallb converts items
  | JObj fields =>
      match lookup "toString" fields with
      | Some _ => false
      | None => true
      end
  | _ => true
  end.

Definition converts_value (v : value) : bool :=
  match v with
  | None => true
  | Some j => converts j
  end.

Definition cannot_convert : exn :=
  TypeError "Cannot convert object to primitive value".

(** ToString, as applied by a template literal [`${v}`], by a property
    key [o[v]] and by the functions that take a string. *)
Definition ToString (v : value) : exn + string :=
  if converts_value v then inr (to_string v) else inl cannot_convert.

(** [a || b] *)
Definition or_else (a b : value) : value := if truthy a then a else b.

(** [Array.prototype.join(sep)]: every element is converted, [undefined]
    and [null] to nothing. *)
Definition joined (sep : string) (l : list value) : string :=
  String.concat sep
    (map (fun v => match v with
                   | None => ""
                   | Some JNull => ""
                   | Some j => json_to_string j
                   end) l).

Definition join (sep : string) (l : list value) : exn + string :=
  if forallb converts_value l then inr (joined sep l) else inl cannot_convert.

(** [a === b] against a string constant. *)
Definition strict_eq_str (v : value) (s : string) : bool :=
  match v with
  | Some (JStr t) => String.eqb t s
  | _ => false
  end.

(* ----------------------------------------------------------------- *)
(** ** Property access *)

(** [o[k] = v] on an object: an existing key keeps its place. *)
Fixpoint obj_set (k : string) (v : json) (fields : list (string * json))
  : list (string * json) :=
  match fields with
  | [] => [(k, v)]
  | (k', v') :: rest =>
      if String.eqb k k' then (k', v) :: rest
      else (k', v') :: obj_set k v rest
  end.

Definition cannot_read (of_ k : string) : exn :=
  TypeError ("Cannot read properties of " ++ of_ ++ " (reading '" ++ k ++ "')").

(** [v.k] for a data key [k] (none of the keys the code reads is a member
    of a built-in prototype; [length], [map] and indexing are separate
    operations below).  Reading a property of [undefined] or [null]
    throws. *)
Definition get_prop (v : value) (k : string) : exn + value :=
  match v with
  | None => inl (cannot_read "undefined" k)
  | Some JNull => inl (cannot_read "null" k)
  | Some (JObj fields) => inr (lookup k fields)
  | Some _ => inr undefined
  end.

(** [v?.k] *)
Definition get_prop_opt (v : value) (k : string) : value :=
  match v with
  | Some (JObj fields) => lookup k fields
  | _ => undefined
  end.

(** [v?.[0]] *)
Definition get_index0_opt (v : value) : value :=
  match v with
  | Some (JArr (x :: _)) => Some x
  | Some (JStr (String c _)) => Some (JStr (String c EmptyString))
  | Some (JObj fields) => lookup "0" fields
  | _ => undefined
  end.

(** [v.length] of a value that is neither [undefined] nor [null]. *)
Definition get_length (v : json) : value :=
  match v with
  | JStr s => Some (JInt (Z.of_nat (String.length s)))
  | JArr l => Some (JInt (Z.of_nat (List.length l)))
  | JObj fields => lookup "length" fields
  | _ => undefined
  end.

(** [v > n] for an integer constant [n].  [undefined] converts to NaN and
    compares false; [null] and booleans convert to 0 and 1.  The operand is
    the [length] of the payload: a number, or [undefined] when the payload
    has none.  A [length] property that is itself a string, an array or an
    object (ToNumber of its text) is outside the model and compares
    false. *)
Definition gt_const (v : value) (n : Z) : bool :=
  match v with
  | Some (JNum x) =>
      match scale x with
      | O => (n <? mant x)%Z
      | S _ => (n * 10 ^ Z.of_nat (scale x) <? mant x)%Z
      end
  | Some (JBool true) => (n <? 1)%Z
  | Some (JBool false) => (n <? 0)%Z
  | Some JNull => (n <? 0)%Z
  | _ => false
  end.

(** An object literal handed to a serialiser: properties whose value is
    [undefined] are left out. *)
Fixpoint obj (props : list (string * value)) : list (string * json) :=
  match props with
  | [] => []
  | (k, Some v) :: rest => (k, v) :: obj rest
  | (_, None) :: rest => obj rest
  end.

(* ----------------------------------------------------------------- *)
(** ** [String.prototype.includes] *)

Fixpoint includes (s sub : string) : bool :=
  prefix sub s
  || match s with
     | EmptyString => false
     | String _ rest => includes rest sub
     end.

(** The relation [includes] decides. *)
Definition Contains (s sub : string) : Prop :=
  exists a b, s = a ++ sub ++ b.

(* ----------------------------------------------------------------- *)
(** ** [encodeURIComponent] *)

Definition hex_digit (upper : bool) (n : N) : ascii :=
  if (n <? 10)%N then ascii_of_N (48 + n)%N
  else ascii_of_N ((if upper then 55 else 87) + n)%N.

Definition hex2 (upper : bool) (c : ascii) : string :=
  let n := N_of_ascii c in
  String (hex_digit upper (n / 16)%N)
    (String (hex_digit upper (n mod 16)%N) "").

Definition in_range (lo hi : N) (c : ascii) : bool :=
  let n := N_of_ascii c in ((lo <=? n) && (n <=? hi))%N.

Definition is_digit (c : ascii) : bool := in_range 48 57 c.

(** The characters [encodeURIComponent] leaves alone: letters, digits and
    [- _ . ! ~ * ' ( )]. *)
Definition uri_unreserved (c : ascii) : bool :=
  in_range 65 90 c || in_range 97 122 c || is_digit c
  || existsb (Ascii.eqb c)
       ["-"; "_"; "."; "!"; "~"; "*"; "'"; "("; ")"]%char.

(** Every other character is replaced by the escapes of its UTF-8 bytes,
    which are the bytes of the model's string. *)
Fixpoint uri_escape (s : string) : string :=
  match s with
  | EmptyString => ""
  | String c rest =>
      (if uri_unreserved c then String c "" else "%" ++ hex2 true c)
      ++ uri_escape rest
  end.

(** A surrogate that stands alone has no UTF-8 form.  In the model's
    strings it is kept in the three-byte form its number would have, which
    starts with [ED] followed by a byte from [A0] up; no character's bytes
    do. *)
Fixpoint well_formed (s : string) : bool :=
  match s with
  | String c rest =>
      match rest with
      | String d _ =>
          negb ((N_of_ascii c =? 237)%N && (160 <=? N_of_ascii d)%N)
      | EmptyString => true
      end
      && well_formed rest
  | EmptyString => true
  end.

(** [encodeURIComponent(v)]: the argument is converted to a string, and a
    string holding a lone surrogate is refused with a URIError. *)
Definition encodeURIComponent (v : value) : exn + string :=
  match ToString v with
  | inl e => inl e
  | inr s =>
      if well_formed s then inr (uri_escape s)
      else inl (URIError "URI malformed")
  end.

(* ----------------------------------------------------------------- *)
(** ** [JSON.stringify] *)

(** QuoteJSONString: the quote, the backslash and the control characters
    are escaped. *)
Definition quote_char (c : ascii) : string :=
  let n := N_of_ascii c in
  if (n =? 34)%N then "\" ++ dq
  else if (n =? 92)%N then "\\"
  else if (n =? 8)%N then "\b"
  else if (n =? 12)%N then "\f"
  else if (n =? 10)%N then "\n"
  else if (n =? 13)%N then "\r"
  else if (n =? 9)%N then "\t"
  else if (n <? 32)%N then "\u00" ++ hex2 false c
  else String c "".

Fixpoint quote_chars (s : string) : string :=
  match s with
  | EmptyString => ""
  | String c rest => quote_char c ++ quote_chars rest
  end.

Definition quote (s : string) : string := dq ++ quote_chars s ++ dq.

Fixpoint JSON_stringify (j : json) : string :=
  match j with
  | JNull => "null"
  | JBool true => "true"
  | JBool false => "false"
  | JNum n => number_to_string n
  | JStr s => quote s
  | JArr items => "[" ++ String.concat "," (map JSON_stringify items) ++ "]"
  | JObj fields =>
      "{" ++ String.concat ","
               (map (fun kv => quote (fst kv) ++ ":" ++ JSON_stringify (snd kv))
                    fields)
      ++ "}"
  end.

(* ----------------------------------------------------------------- *)
(** ** [JSON.parse] *)

(** A recursive-descent reader of the JSON grammar (ECMA-404).  The
    recursion is on a fuel that [JSON_parse] takes from the length of the
    text. *)

Definition is_ws (c : ascii) : bool :=
  existsb (N.eqb (N_of_ascii c)) [32; 9; 10; 13]%N.

Fixpoint skip_ws (s : string) : string :=
  match s with
  | String c rest => if is_ws c then skip_ws rest else s
  | EmptyString => s
  end.

(** The UTF-8 bytes of a code point (a lone surrogate is written in the
    same three-byte form). *)
Definition utf8_encode (cp : N) : string :=
  let b (n : N) := ascii_of_N n in
  if (cp <? 128)%N then String (b cp) ""
  else if (cp <? 2048)%N then
    String (b (192 + cp / 64)%N) (String (b (128 + cp mod 64)%N) "")
  else if (cp <? 65536)%N then
    String (b (224 + cp / 4096)%N)
      (String (b (128 + (cp / 64) mod 64)%N)
         (String (b (128 + cp mod 64)%N) ""))
  else
    String (b (240 + cp / 262144)%N)
      (String (b (128 + (cp / 4096) mod 64)%N)
         (String (b (128 + (cp / 64) mod 64)%N)
            (String (b (128 + cp mod 64)%N) ""))).

Definition hex_value (c : ascii) : option N :=
  let n := N_of_ascii c in
  if is_digit c then Some (n - 48)%N
  else if in_range 65 70 c then Some (n - 55)%N
  else if in_range 97 102 c then Some (n - 87)%N
  else None.

(** Four hexadecimal digits, as after [\u]. *)
Definition hex4 (s : string) : option (N * string) :=
  match s with
  | String a (String b (String c (String d rest))) =>
      match hex_value a, hex_value b, hex_value c, hex_value d with
      | Some x, Some y, Some z, Some w =>
          Some (((x * 16 + y) * 16 + z) * 16 + w, rest)%N
      | _, _, _, _ => None
      end
  | _ => None
  end.

(** A [\uXXXX] escape whose digits start [s]; a high surrogate followed by
    an escaped low surrogate makes one code point. *)
Definition unicode_escape (s : string) : option (N * string) :=
  match hex4 s with
  | None => None
  | Some (hi, rest) =>
      if ((55296 <=? hi) && (hi <=? 56319))%N then
        match rest with
        | String bs (String u rest') =>
            if ((N_of_ascii bs =? 92) && (N_of_ascii u =? 117))%N then
              match hex4 rest' with
              | Some (lo, rest'') =>
                  if ((56320 <=? lo) && (lo <=? 57343))%N
                  then Some (65536 + (hi - 55296) * 1024 + (lo - 56320),
                             rest'')%N
                  else Some (hi, rest)
              | None => Some (hi, rest)
              end
            else Some (hi, rest)
        | _ => Some (hi, rest)
        end
      else Some (hi, rest)
  end.

(** The characters of a string up to its closing quote; [s] starts after
    the opening quote. *)
Fixpoint parse_chars (fuel : nat) (s : string) : option (string * string) :=
  match fuel with
  | O => None
  | S fuel' =>
      match s with
      | EmptyString => None
      | String c rest =>
          let n := N_of_ascii c in
          if (n =? 34)%N then Some ("", rest)
          else if (n <? 32)%N then None
          else if (n =? 92)%N then
            match rest with
            | EmptyString => None
            | String e rest' =>
                let m := N_of_ascii e in
                let plain (x : N) :=
                  match parse_chars fuel' rest' with
                  | Some (t, r) => Some (String (ascii_of_N x) t, r)
                  | None => None
                  end in
                if (m =? 34)%N then plain 34%N
                else if (m =? 92)%N then plain 92%N
                else if (m =? 47)%N then plain 47%N
                else if (m =? 98)%N then plain 8%N
                else if (m =? 102)%N then plain 12%N
                else if (m =? 110)%N then plain 10%N
                else if (m =? 114)%N then plain 13%N
                else if (m =? 116)%N then plain 9%N
                else if (m =? 117)%N then
                  match unicode_escape rest' with
                  | Some (cp, r0) =>
                      match parse_chars fuel' r0 with
                      | Some (t, r) => Some (utf8_encode cp ++ t, r)
                      | None => None
                      end
                  | None => None
                  end
                else None
            end
          else
            match parse_chars fuel' rest with
            | Some (t, r) => Some (String c t, r)
            | None => None
            end
      end
  end.

(** A run of decimal digits: its value, its length and the rest. *)
Fixpoint take_digits (s : string) (acc : N) (len : nat) : N * nat * string :=
  match s with
  | String c rest =>
      if is_digit c
      then take_digits rest (acc * 10 + (N_of_ascii c - 48))%N (S len)
      else (acc, len, s)
  | EmptyString => (acc, len, s)
  end.

(** [mant * 10 ^ e] as a number in lowest terms. *)
Fixpoint strip_zeros (fuel : nat) (m : Z) (sc : nat) : number :=
  match fuel, sc with
  | S fuel', S sc' =>
      if (m mod 10 =? 0)%Z then strip_zeros fuel' (m / 10)%Z sc'
      else Num m sc
  | _, _ => Num m sc
  end.

Definition make_number (neg : bool) (m : N) (e : Z) : number :=
  let z := if neg then (- Z.of_N m)%Z else Z.of_N m in
  if (m =? 0)%N then Num 0 0
  else if (0 <=? e)%Z then Num (z * 10 ^ e)%Z 0
  else strip_zeros (Z.to_nat (- e)) z (Z.to_nat (- e)).

(** number = [-] int [frac] [exp]; [s] starts at the first digit. *)
Definition parse_number (neg : bool) (s : string) : option (json * string) :=
  match s with
  | String c rest =>
      if negb (is_digit c) then None
      else
        let '(ip, _, r1) :=
          if (N_of_ascii c =? 48)%N then (0%N, 1%nat, rest)
          else take_digits s 0%N 0%nat in
        let frac :=
          match r1 with
          | String d r2 =>
              if (N_of_ascii d =? 46)%N then
                match take_digits r2 ip 0%nat with
                | (_, O, _) => None
                | (m, k, r3) => Some (m, k, r3)
                end
              else Some (ip, 0%nat, r1)
          | EmptyString => Some (ip, 0%nat, r1)
          end in
        match frac with
        | None => None
        | Some (m, k, r3) =>
            let finish (e : Z) (r : string) :=
              Some (JNum (make_number neg m (e - Z.of_nat k)), r) in
            match r3 with
            | String x r4 =>
                if ((N_of_ascii x =? 101) || (N_of_ascii x =? 69))%N then
                  let '(eneg, r5) :=
                    match r4 with
                    | String sg r' =>
                        if (N_of_ascii sg =? 45)%N then (true, r')
                        else if (N_of_ascii sg =? 43)%N then (false, r')
                        else (false, r4)
                    | EmptyString => (false, r4)
                    end in
                  match take_digits r5 0%N 0%nat with
                  | (_, O, _) => None
                  | (ev, _, r6) =>
                      finish (if eneg then - Z.of_N ev else Z.of_N ev)%Z r6
                  end
                else finish 0%Z r3
            | EmptyString => finish 0%Z r3
            end
        end
  | EmptyString => None
  end.

Definition after_prefix (p s : string) : option string :=
  if prefix p s
  then Some (substring (String.length p) (String.length s - String.length p) s)
  else None.

Fixpoint parse_value (fuel : nat) (s : string) : option (json * string) :=
  match fuel with
  | O => None
  | S fuel' =>
      match skip_ws s with
      | EmptyString => None
      | String c rest as s' =>
          let n := N_of_ascii c in
          if (n =? 123)%N then
            match skip_ws rest with
            | String c' rest' as body =>
                if (N_of_ascii c' =? 125)%N then Some (JObj [], rest')
                else
                  match parse_members fuel' body [] with
                  | Some (fs, r) => Some (JObj fs, r)
                  | None => None
                  end
            | EmptyString => None
            end
          else if (n =? 91)%N then
            match skip_ws rest with
            | String c' rest' as body =>
                if (N_of_ascii c' =? 93)%N then Some (JArr [], rest')
                else
                  match parse_elements fuel' body with
                  | Some (xs, r) => Some (JArr xs, r)
                  | None => None
                  end
            | EmptyString => None
            end
          else if (n =? 34)%N then
            match parse_chars (S (String.length rest)) rest with
            | Some (t, r) => Some (JStr t, r)
            | None => None
            end
          else if (n =? 45)%N then parse_number true rest
          else if is_digit c then parse_number false s'
          else
            match after_prefix "true" s', after_prefix "false" s',
                  after_prefix "null" s' with
            | Some r, _, _ => Some (JBool true, r)
            | _, Some r, _ => Some (JBool false, r)
            | _, _, Some r => Some (JNull, r)
            | None, None, None => None
            end
      end
  end

(** value *( , value ) ] *)
with parse_elements (fuel : nat) (s : string) : option (list json * string) :=
  match fuel with
  | O => None
  | S fuel' =>
      match parse_value fuel' s with
      | None => None
      | Some (x, r) =>
          match skip_ws r with
          | String c rest =>
              if (N_of_ascii c =? 93)%N then Some ([x], rest)
              else if (N_of_ascii c =? 44)%N then
                match parse_elements fuel' rest with
                | Some (xs, r') => Some (x :: xs, r')
                | None => None
                end
              else None
          | EmptyString => None
          end
      end
  end

(** string : value *( , string : value ) }; a repeated key keeps the place
    of its first occurrence and the value of its last. *)
with parse_members (fuel : nat) (s : string) (acc : list (string * json))
  : option (list (string * json) * string) :=
  match fuel with
  | O => None
  | S fuel' =>
      match skip_ws s with
      | String q rest =>
          if negb (N_of_ascii q =? 34)%N then None
          else
            match parse_chars (S (String.length rest)) rest with
            | None => None
            | Some (k, r1) =>
                match skip_ws r1 with
                | String colon r2 =>
                    if negb (N_of_ascii colon =? 58)%N then None
                    else
                      match parse_value fuel' r2 with
                      | None => None
                      | Some (v, r3) =>
                          let acc' := obj_set k v acc in
                          match skip_ws r3 with
                          | String c r4 =>
                              if (N_of_ascii c =? 125)%N then Some (acc', r4)
                              else if (N_of_ascii c =? 44)%N
                              then parse_members fuel' r4 acc'
                              else None
                          | EmptyString => None
                          end
                      end
                | EmptyString => None
                end
            end
      | EmptyString => None
      end
  end.

(** [JSON.parse]: the whole text must be one value; anything else is a
    [SyntaxError] (its message is the engine's). *)
Definition JSON_parse (text : string) : exn + json :=
  match parse_value (2 * String.length text + 2) text with
  | Some (j, rest) =>
      match skip_ws rest with
      | EmptyString => inr j
      | String _ _ => inl (SyntaxError "Unexpected token in JSON")
      end
  | None => inl (SyntaxError "Unexpected token in JSON")
  end.

End JS.

(* ================================================================= *)
(** * Programs with outbound calls *)
(* ================================================================= *)

Module Eff.
Import JS.

(** An outbound HTTP request as handed to [fetch]. *)
Record request : Type := Request {
  url : string;
  method : string;
  headers : list (string * string);
  body : option string
}.

(** What [fetch] resolves to: the [ok] flag and the outcome of
    [response.json()], which rejects when the body is not JSON. *)
Record response : Type := Response {
  ok : bool;
  json_body : exn + json
}.

(** A request through the generative model SDK,
    [ai.models.generateContent({model, contents, config})]. *)
Inductive part : Type :=
| InlineData (mimeType data : string)
| TextPart (text : string).

Inductive contents : Type :=
| Prompt (text : string)
| Parts (parts : list part).

Record gen_request : Type := GenRequest {
  gen_apiKey : value;
  gen_model : string;
  gen_contents : contents;
  gen_config : json
}.

(** The SDK's response object, of which the code reads [text]: a string
    or [undefined]. *)
Record gen_response : Type := GenResponse { text : option string }.

(** An asynchronous function: it returns, throws, or awaits an outbound
    call and goes on with what the call resolved or rejected to. *)
Inductive prog (A : Type) : Type :=
| Ret (a : A)
| Throw (e : exn)
| Fetch (r : request) (k : exn + response -> prog A)
| Generate (g : gen_request) (k : exn + gen_response -> prog A).

Arguments Ret {A} a.
Arguments Throw {A} e.
Arguments Fetch {A} r k.
Arguments Generate {A} g k.

Fixpoint bind {A B : Type} (p : prog A) (f : A -> prog B) : prog B :=
  match p with
  | Ret a => f a
  | Throw e => Throw e
  | Fetch r k => Fetch r (fun x => bind (k x) f)
  | Generate g k => Generate g (fun x => bind (k x) f)
  end.

(** [try { p } catch (error) { h error }] *)
Fixpoint try_catch {A : Type} (p : prog A) (h : exn -> prog A) : prog A :=
  match p with
  | Ret a => Ret a
  | Throw e => h e
  | Fetch r k => Fetch r (fun x => try_catch (k x) h)
  | Generate g k => Generate g (fun x => try_catch (k x) h)
  end.

(** A step that may throw. *)
Definition lift {A : Type} (r : exn + A) : prog A :=
  match r with
  | inl e => Throw e
  | inr a => Ret a
  end.

(** [await fetch(url, init)] *)
Definition fetch (r : request) : prog response := Fetch r lift.

(** [await response.json()] *)
Definition response_json (r : response) : prog json := lift (json_body r).

(** [await ai.models.generateContent(...)] *)
Definition generateContent (g : gen_request) : prog gen_response :=
  Generate g lift.

Declare Scope prog_scope.
Delimit Scope prog_scope with prog.
Bind Scope prog_scope with prog.

Notation "x <- p ;; q" := (bind p (fun x => q))
  (at level 61, p at next level, right associativity) : prog_scope.

(** The world a program runs in answers the [n]-th outbound call. *)
Record world : Type := World {
  net : nat -> request -> exn + response;
  llm : nat -> gen_request -> exn + gen_response
}.

Inductive event : Type :=
| EFetch (r : request)
| EGenerate (g : gen_request).

Inductive outcome (A : Type) : Type :=
| Returned (a : A)
| Thrown (e : exn).

Arguments Returned {A} a.
Arguments Thrown {A} e.

(** Running a program: the outbound calls it made, in order, and how it
    ended.  [n] counts the calls made before. *)
Fixpoint run {A : Type} (w : world) (n : nat) (p : prog A)
  : list event * outcome A :=
  match p with
  | Ret a => ([], Returned a)
  | Throw e => ([], Thrown e)
  | Fetch r k =>
      let '(tr, o) := run w (S n) (k (net w n r)) in (EFetch r :: tr, o)
  | Generate g k =>
      let '(tr, o) := run w (S n) (k (llm w n g)) in (EGenerate g :: tr, o)
  end.

Definition calls {A : Type} (w : world) (p : prog A) : list event :=
  fst (run w 0 p).

Definition result {A : Type} (w : world) (p : prog A) : outcome A :=
  snd (run w 0 p).

(** [process.env] *)
Definition env : Type := string -> option string.

(** An environment variable read as a value. *)
Definition env_value (v : option string) : value := str_value v.

(** The serverless request and response objects, as far as they are
    used: [request.method], [request.body]; the status, the headers set
    and the JSON body sent ([None] after [end()]). *)
Record http_request : Type := HttpRequest {
  req_method : string;
  req_body : value
}.

Record http_response : Type := HttpResponse {
  status : Z;
  resp_headers : list (string * string);
  resp_body : option json
}.

End Eff.

(* ================================================================= *)
(** * The dispatcher and its provider adapters *)
(* ================================================================= *)

Module Dispatcher.
Import JS Eff.
Local Open Scope prog_scope.

(** [type OcrProvider = 'baidu' | 'aliyun' | 'wechat' | 'gemini'] *)
Inductive OcrProvider : Type := baidu | aliyun | wechat | gemini.

Definition provider_name (p : OcrProvider) : string :=
  match p with
  | baidu => "baidu"
  | aliyun => "aliyun"
  | wechat => "wechat"
  | gemini => "gemini"
  end.

Record BaiduKeys : Type := { apiKey : value; secretKey : value }.
Record AliyunKeys : Type := { accessKeyId : value; accessKeySecret : value }.
Record WechatKeys : Type := { appId : value; appSecret : value }.
Record GeminiKeys : Type := { geminiApiKey : value }.

Record ApiKeys : Type := {
  baiduKeys : BaiduKeys;
  aliyunKeys : AliyunKeys;
  wechatKeys : WechatKeys;
  geminiKeys : GeminiKeys
}.

Definition getApiKeys (e : env) : ApiKeys :=
  {| baiduKeys :=
       {| apiKey := env_value (e "BAIDU_OCR_API_KEY");
          secretKey := env_value (e "BAIDU_OCR_SECRET_KEY") |};
     aliyunKeys :=
       {| accessKeyId := env_value (e "ALIYUN_OCR_ACCESS_KEY_ID");
          accessKeySecret := env_value (e "ALIYUN_OCR_ACCESS_KEY_SECRET") |};
     wechatKeys :=
       {| appId := env_value (e "WECHAT_OCR_APP_ID");
          appSecret := env_value (e "WECHAT_OCR_APP_SECRET") |};
     geminiKeys :=
       {| geminiApiKey := env_value (e "GEMINI_API_KEY") |} |}.

(** The normalised result of an adapter. *)
Record OcrResult : Type := {
  result_text : value;
  result_provider : string;
  rawResult : json
}.

(** [items.map(item => item[k])] *)
Fixpoint map_prop (items : list json) (k : string) : exn + list value :=
  match items with
  | [] => inr []
  | item :: rest =>
      match get_prop (Some item) k with
      | inl e => inl e
      | inr v =>
          match map_prop rest k with
          | inl e => inl e
          | inr vs => inr (v :: vs)
          end
      end
  end.

(** [field?.map((item: any) => item[k]).join('\n')]: the chain stops at an
    absent or [null] field; a field that is not an array has no [map]. *)
Definition map_prop_join (name : string) (field : value) (k : string)
  : exn + value :=
  match field with
  | None => inr undefined
  | Some JNull => inr undefined
  | Some (JArr items) =>
      match map_prop items k with
      | inl e => inl e
      | inr vs =>
          match join nl vs with
          | inl e => inl e
          | inr text => inr (Some (JStr text))
          end
      end
  | Some _ => inl (TypeError (name ++ "?.map is not a function"))
  end.

Definition baidu_token_url (apiKey secretKey : string) : string :=
  "https://aip.baidubce.com/oauth/2.0/token?grant_type=client_credentials&client_id="
  ++ apiKey ++ "&client_secret=" ++ secretKey.

Definition getBaiduAccessToken (apiKey secretKey : string) : prog value :=
  response <- fetch (Request (baidu_token_url apiKey secretKey) "POST" [] None) ;;
  data <- response_json response ;;
  error <- lift (get_prop (Some data) "error") ;;
  if truthy error then
    description <- lift (get_prop (Some data) "error_description") ;;
    diagnostic <- lift (ToString description) ;;
    Throw (Error ("百度OCR认证失败: " ++ diagnostic))
  else
    lift (get_prop (Some data) "access_token").

Definition callBaiduOcr (e : env) (imageBase64 : json) (language : value)
  : prog OcrResult :=
  let language := match language with
                  | None => Some (JStr "CHN_ENG")
                  | Some _ => language
                  end in
  let keys := baiduKeys (getApiKeys e) in
  if negb (truthy (apiKey keys)) || negb (truthy (secretKey keys)) then
    Throw (Error "百度OCR API密钥未配置")
  else
    accessToken <-
      getBaiduAccessToken (to_string (apiKey keys)) (to_string (secretKey keys)) ;;
    token <- lift (ToString accessToken) ;;
    image <- lift (encodeURIComponent (Some imageBase64)) ;;
    language_type <- lift (ToString language) ;;
    response <-
      fetch (Request
               ("https://aip.baidubce.com/rest/2.0/ocr/v1/general_basic?access_token="
                ++ token)
               "POST"
               [("Content-Type", "application/x-www-form-urlencoded")]
               (Some ("image=" ++ image ++ "&language_type=" ++ language_type))) ;;
    data <- response_json response ;;
    error_code <- lift (get_prop (Some data) "error_code") ;;
    if truthy error_code then
      error_msg <- lift (get_prop (Some data) "error_msg") ;;
      diagnostic <- lift (ToString error_msg) ;;
      Throw (Error ("百度OCR识别失败: " ++ diagnostic))
    else
      words_result <- lift (get_prop (Some data) "words_result") ;;
      lines <- lift (map_prop_join "data.words_result" words_result "words") ;;
      Ret {| result_text := or_else lines (Some (JStr ""));
             result_provider := "baidu";
             rawResult := data |}.

Definition callAliyunOcr (e : env) (imageBase64 : json) : prog OcrResult :=
  let keys := aliyunKeys (getApiKeys e) in
  if negb (truthy (accessKeyId keys)) || negb (truthy (accessKeySecret keys)) then
    Throw (Error "阿里云OCR API密钥未配置")
  else
    response <-
      fetch (Request
               "https://ocr.cn-shanghai.aliyuncs.com"
               "POST"
               [("Content-Type", "application/json");
                ("Authorization",
                 "Bearer " ++ to_string (accessKeyId keys) ++ ":"
                 ++ to_string (accessKeySecret keys))]
               (Some (JSON_stringify
                        (JObj [("ImageBase64", imageBase64);
                               ("Scene", JStr "general")])))) ;;
    data <- response_json response ;;
    Code <- lift (get_prop (Some data) "Code") ;;
    if negb (strict_eq_str Code "200") then
      Message <- lift (get_prop (Some data) "Message") ;;
      diagnostic <- lift (ToString Message) ;;
      Throw (Error ("阿里云OCR识别失败: " ++ diagnostic))
    else
      Data <- lift (get_prop (Some data) "Data") ;;
      Ret {| result_text := or_else (get_prop_opt Data "Content") (Some (JStr ""));
             result_provider := "aliyun";
             rawResult := data |}.

Definition wechat_token_url (appId appSecret : string) : string :=
  "https://api.weixin.qq.com/cgi-bin/token?grant_type=client_credential&appid="
  ++ appId ++ "&secret=" ++ appSecret.

Definition callWechatOcr (e : env) (imageBase64 : json) : prog OcrResult :=
  let keys := wechatKeys (getApiKeys e) in
  if negb (truthy (appId keys)) || negb (truthy (appSecret keys)) then
    Throw (Error "微信OCR API密钥未配置")
  else
    tokenResponse <-
      fetch (Request
               (wechat_token_url (to_string (appId keys)) (to_string (appSecret keys)))
               "GET" [] None) ;;
    tokenData <- response_json tokenResponse ;;
    errcode <- lift (get_prop (Some tokenData) "errcode") ;;
    if truthy errcode then
      errmsg <- lift (get_prop (Some tokenData) "errmsg") ;;
      diagnostic <- lift (ToString errmsg) ;;
      Throw (Error ("微信OCR认证失败: " ++ diagnostic))
    else
      accessToken <- lift (get_prop (Some tokenData) "access_token") ;;
      token <- lift (ToString accessToken) ;;
      ocrResponse <-
        fetch (Request
                 ("https://api.weixin.qq.com/cv/ocr/comm?access_token="
                  ++ token)
                 "POST"
                 [("Content-Type", "application/json")]
                 (Some (JSON_stringify
                          (JObj [("img", imageBase64);
                                 ("scene", JStr "general")])))) ;;
      ocrData <- response_json ocrResponse ;;
      errcode <- lift (get_prop (Some ocrData) "errcode") ;;
      if truthy errcode then
        errmsg <- lift (get_prop (Some ocrData) "errmsg") ;;
        diagnostic <- lift (ToString errmsg) ;;
        Throw (Error ("微信OCR识别失败: " ++ diagnostic))
      else
        items <- lift (get_prop (Some ocrData) "items") ;;
        lines <- lift (map_prop_join "ocrData.items" items "text") ;;
        Ret {| result_text := or_else lines (Some (JStr ""));
               result_provider := "wechat";
               rawResult := ocrData |}.

Definition gemini_default_prompt : string :=
  "请提取图片中的所有文字，按原始格式输出。".

Definition callGeminiOcr (e : env) (imageBase64 : json) (prompt : value)
  : prog OcrResult :=
  let keys := geminiKeys (getApiKeys e) in
  if negb (truthy (geminiApiKey keys)) then
    Throw (Error "Gemini API密钥未配置")
  else
    response <-
      fetch (Request
               ("https://generativelanguage.googleapis.com/v1beta/models/gemini-1.5-flash:generateContent?key="
                ++ to_string (geminiApiKey keys))
               "POST"
               [("Content-Type", "application/json")]
               (Some (JSON_stringify
                  (JObj
                     [("contents",
                       JArr [JObj [("parts",
                         JArr [JObj [("inlineData",
                                      JObj [("mimeType", JStr "image/png");
                                            ("data", imageBase64)])];
                               JObj (obj [("text",
                                           or_else prompt
                                             (Some (JStr gemini_default_prompt)))])])]]);
                      ("generationConfig",
                       JObj [("temperature", JNum (Num 1 1));
                             ("maxOutputTokens", JInt 2048)])])))) ;;
    data <- response_json response ;;
    error <- lift (get_prop (Some data) "error") ;;
    if truthy error then
      msg <- lift (get_prop error "message") ;;
      diagnostic <- lift (ToString msg) ;;
      Throw (Error ("Gemini识别失败: " ++ diagnostic))
    else
      candidates <- lift (get_prop (Some data) "candidates") ;;
      Ret {| result_text :=
               or_else
                 (get_prop_opt
                    (get_index0_opt
                       (get_prop_opt
                          (get_prop_opt (get_index0_opt candidates) "content")
                          "parts"))
                    "text")
                 (Some (JStr ""));
             result_provider := "gemini";
             rawResult := data |}.

Definition cors_headers : list (string * string) :=
  [("Access-Control-Allow-Credentials", "true");
   ("Access-Control-Allow-Origin", "*");
   ("Access-Control-Allow-Methods", "GET,OPTIONS,PATCH,DELETE,POST,PUT");
   ("Access-Control-Allow-Headers",
    "X-CSRF-Token, X-Requested-With, Accept, Accept-Version, Content-Length, Content-MD5, Content-Type, Date, X-Api-Version")].

(** [response.status(code).json(body)] *)
Definition respond (code : Z) (props : list (string * value)) : http_response :=
  HttpResponse code cors_headers (Some (JObj (obj props))).

(** The adapter's result as the [data] of the success envelope. *)
Definition result_json (r : OcrResult) : json :=
  JObj (obj [("text", result_text r);
             ("provider", Some (JStr (result_provider r)));
             ("rawResult", Some (rawResult r))]).

Definition max_encoded_length : Z := 7 * 1024 * 1024.

Definition handler (e : env) (request : http_request) : prog http_response :=
  if String.eqb (req_method request) "OPTIONS" then
    Ret (HttpResponse 200 cors_headers None)
  else if negb (String.eqb (req_method request) "POST") then
    Ret (respond 405 [("success", Some (JBool false));
                      ("error", Some (JStr "只支持POST请求"))])
  else
    try_catch
      (let body := req_body request in
       let missing :=
         Ret (respond 400
                [("success", Some (JBool false));
                 ("error", Some (JStr "缺少必要参数: provider 和 imageBase64"))]) in
       if negb (truthy body) then missing
       else
         provider <- lift (get_prop body "provider") ;;
         if negb (truthy provider) then missing
         else
           imageBase64 <- lift (get_prop body "imageBase64") ;;
           match imageBase64 with
           | None => missing
           | Some image =>
               if negb (truthy imageBase64) then missing
               else if gt_const (get_length image) max_encoded_length then
                 Ret (respond 400
                        [("success", Some (JBool false));
                         ("error", Some (JStr "图片过大，请压缩后重试（限制5MB）"))])
               else
                 let success (result : OcrResult) :=
                   Ret (respond 200 [("success", Some (JBool true));
                                     ("data", Some (result_json result))]) in
                 if strict_eq_str provider "baidu" then
                   language <- lift (get_prop body "language") ;;
                   result <- callBaiduOcr e image language ;;
                   success result
                 else if strict_eq_str provider "aliyun" then
                   result <- callAliyunOcr e image ;;
                   success result
                 else if strict_eq_str provider "wechat" then
                   result <- callWechatOcr e image ;;
                   success result
                 else if strict_eq_str provider "gemini" then
                   options <- lift (get_prop body "options") ;;
                   result <- callGeminiOcr e image (get_prop_opt options "prompt") ;;
                   success result
                 else
                   name <- lift (ToString provider) ;;
                   Ret (respond 400
                          [("success", Some (JBool false));
                           ("error",
                            Some (JStr ("不支持的OCR提供商: " ++ name)))])
           end)
      (fun error =>
         Ret (respond 500
                [("success", Some (JBool false));
                 ("error",
                  or_else (Some (JStr (message error))) (Some (JStr "OCR处理失败")));
                 ("details",
                  if strict_eq_str (env_value (e "NODE_ENV")) "development"
                  then Some (JStr (stack error))
                  else undefined)])).

End Dispatcher.

(* ================================================================= *)
(** * The connectivity prober, [api/ocr/test.ts] *)
(* ================================================================= *)

Module Prober.
Import JS Eff.
Local Open Scope prog_scope.

Definition cors_headers : list (string * string) :=
  [("Access-Control-Allow-Origin", "*");
   ("Access-Control-Allow-Methods", "POST, OPTIONS");
   ("Access-Control-Allow-Headers", "Content-Type")].

(** [response.status(code).json(body)]; [response.json(body)] leaves the
    status at its default, 200. *)
Definition respond (code : Z) (props : list (string * value)) : http_response :=
  HttpResponse code cors_headers (Some (JObj (obj props))).

Definition default_status : Z := 200.

(** The members every object literal inherits from [Object.prototype]:
    functions and the prototype itself, none of which has an enumerable
    property of its own. *)
Definition object_prototype_members : list string :=
  ["constructor"; "__defineGetter__"; "__defineSetter__"; "hasOwnProperty";
   "__lookupGetter__"; "__lookupSetter__"; "isPrototypeOf";
   "propertyIsEnumerable"; "toString"; "valueOf"; "__proto__";
   "toLocaleString"].

(** [Object.entries(envVars[key])], or [None] where [envVars[key]] is
    [undefined]. *)
Definition envVars (e : env) (key : string) : option (list (string * value)) :=
  if String.eqb key "baidu" then
    Some [("apiKey", env_value (e "BAIDU_OCR_API_KEY"));
          ("secretKey", env_value (e "BAIDU_OCR_SECRET_KEY"))]
  else if String.eqb key "aliyun" then
    Some [("accessKeyId", env_value (e "ALIYUN_OCR_ACCESS_KEY_ID"));
          ("accessKeySecret", env_value (e "ALIYUN_OCR_ACCESS_KEY_SECRET"))]
  else if String.eqb key "wechat" then
    Some [("appId", env_value (e "WECHAT_OCR_APP_ID"));
          ("appSecret", env_value (e "WECHAT_OCR_APP_SECRET"))]
  else if String.eqb key "gemini" then
    Some [("apiKey", env_value (e "GEMINI_API_KEY"))]
  else if existsb (String.eqb key) object_prototype_members then Some []
  else None.

(** The [forEach] over the entries: [(allConfigured, missingFields)]. *)
Fixpoint check_fields (entries : list (string * value))
                      (state : bool * list string) : bool * list string :=
  match entries with
  | [] => state
  | (key, v) :: rest =>
      check_fields rest
        (if negb (truthy v) then (false, (snd state ++ [key])%list) else state)
  end.

Definition field (entries : list (string * value)) (k : string) : value :=
  match find (fun kv => String.eqb k (fst kv)) entries with
  | Some (_, v) => v
  | None => undefined
  end.

Definition handler (e : env) (request : http_request) : prog http_response :=
  if String.eqb (req_method request) "OPTIONS" then
    Ret (HttpResponse 200 cors_headers None)
  else if negb (String.eqb (req_method request) "POST") then
    Ret (respond 405 [("success", Some (JBool false));
                      ("error", Some (JStr "只支持POST请求"))])
  else
    try_catch
      (let body := req_body request in
       let missing :=
         Ret (respond 400 [("success", Some (JBool false));
                           ("error", Some (JStr "缺少提供商参数"))]) in
       if negb (truthy body) then missing
       else
         provider <- lift (get_prop body "provider") ;;
         if negb (truthy provider) then missing
         else
           name <- lift (ToString provider) ;;
           match envVars e name with
           | None => Throw (TypeError "Cannot convert undefined or null to object")
           | Some providerVars =>
               let '(allConfigured, missingFields) :=
                 check_fields providerVars (true, []) in
               if negb allConfigured then
                 Ret (respond 400
                        [("success", Some (JBool false));
                         ("error",
                          Some (JStr (name ++ " OCR 环境变量未配置完整")));
                         ("missingFields", Some (JArr (map JStr missingFields)));
                         ("message",
                          Some (JStr ("请在Vercel环境变量中配置: "
                                      ++ String.concat ", " missingFields)))])
               else if strict_eq_str provider "baidu" then
                 let testUrl :=
                   "https://aip.baidubce.com/oauth/2.0/token?grant_type=client_credentials&client_id="
                   ++ to_string (field providerVars "apiKey")
                   ++ "&client_secret="
                   ++ to_string (field providerVars "secretKey") in
                 testResponse <- fetch (Request testUrl "POST" [] None) ;;
                 data <- response_json testResponse ;;
                 error <- lift (get_prop (Some data) "error") ;;
                 if truthy error then
                   description <- lift (get_prop (Some data) "error_description") ;;
                   diagnostic <- lift (ToString description) ;;
                   Ret (respond default_status
                          [("success", Some (JBool false));
                           ("error",
                            Some (JStr ("百度OCR认证失败: " ++ diagnostic)))])
                 else
                   expires_in <- lift (get_prop (Some data) "expires_in") ;;
                   Ret (respond default_status
                          [("success", Some (JBool true));
                           ("message", Some (JStr "百度OCR连接测试成功"));
                           ("expiresIn", expires_in)])
               else
                 Ret (respond default_status
                        [("success", Some (JBool true));
                         ("message",
                          Some (JStr (name ++ " OCR 配置验证通过")));
                         ("configured", Some (JBool true))])
           end)
      (fun error =>
         Ret (respond 500
                [("success", Some (JBool false));
                 ("error",
                  or_else (Some (JStr (message error)))
                          (Some (JStr "连接测试失败")))])).

End Prober.

(* ================================================================= *)
(** * The client-side facade, [cloudOcrService.ts] *)
(* ================================================================= *)

Module Facade.
Import JS Eff.
Local Open Scope prog_scope.

(** Modelled from the spec: the enumeration [OCRProvider] of [types.ts],
    which is not among the sources.  Its members are the keys of the
    provider map, which is a total record over the enumeration. *)
Inductive OCRProvider : Type := GEMINI | BAIDU | WECHAT | ALIBABA | LOCAL | ESEARCH.

Record CloudOcrResult : Type := {
  text : value;
  provider : value;
  rawResult : value
}.

Definition providerMap (p : OCRProvider) : string :=
  match p with
  | GEMINI => "gemini"
  | BAIDU => "baidu"
  | WECHAT => "wechat"
  | ALIBABA => "aliyun"
  | LOCAL => "local"
  | ESEARCH => "local"
  end.

Definition is_local (p : OCRProvider) : bool :=
  match p with
  | LOCAL | ESEARCH => true
  | _ => false
  end.

Definition local_message : string := "本地OCR请直接调用本地服务，无需通过云函数".
Definition network_message : string := "网络连接失败，请检查网络后重试".
Definition failure_prefix : string := "OCR识别失败: ".

Definition performCloudOcr (p : OCRProvider) (imageBase64 : string)
    (language : option string) (options : value) : prog CloudOcrResult :=
  let cloudProvider := providerMap p in
  if is_local p then
    Throw (Error local_message)
  else
    try_catch
      (response <-
         fetch (Request "/api/ocr" "POST"
                  [("Content-Type", "application/json")]
                  (Some (JSON_stringify
                           (JObj (obj [("provider", Some (JStr cloudProvider));
                                       ("imageBase64", Some (JStr imageBase64));
                                       ("language", str_value language);
                                       ("options", options)]))))) ;;
       data <- response_json response ;;
       failed <-
         (if negb (ok response) then Ret true
          else success <- lift (get_prop (Some data) "success") ;;
               Ret (negb (truthy success))) ;;
       if (failed : bool) then
         error <- lift (get_prop (Some data) "error") ;;
         Throw (Error (to_string (or_else error (Some (JStr "OCR请求失败")))))
       else
         inner <- lift (get_prop (Some data) "data") ;;
         text <- lift (get_prop inner "text") ;;
         provider <- lift (get_prop inner "provider") ;;
         rawResult <- lift (get_prop inner "rawResult") ;;
         Ret {| text := text; provider := provider; rawResult := rawResult |})
      (fun error =>
         if includes (message error) "NetworkError"
            || includes (message error) "Failed to fetch"
         then Throw (Error network_message)
         else Throw (Error (failure_prefix ++ message error))).

End Facade.

(* ================================================================= *)
(** * The analysis adapter, [services/geminiService.ts] *)
(* ================================================================= *)

Module GeminiService.
Import JS Eff.
Local Open Scope prog_scope.

(** Modelled from the spec: the record [SecurityTerm] of [types.ts], which
    is not among the sources: a term, its category, its definition and an
    optional preferred alternative. *)
Record SecurityTerm : Type := {
  term : string;
  category : string;
  definition : string;
  preferredAlternative : option string
}.

Definition term_json (t : SecurityTerm) : json :=
  JObj (obj [("term", Some (JStr (term t)));
             ("category", Some (JStr (category t)));
             ("definition", Some (JStr (definition t)));
             ("preferredAlternative", str_value (preferredAlternative t))]).

(** The members of the SDK's [Type] enumeration. *)
Definition Type_STRING : json := JStr "STRING".
Definition Type_NUMBER : json := JStr "NUMBER".
Definition Type_BOOLEAN : json := JStr "BOOLEAN".
Definition Type_ARRAY : json := JStr "ARRAY".
Definition Type_OBJECT : json := JStr "OBJECT".

(** The instruction of [analyzePosterImage]. *)
Definition analysis_prompt (terminology : list SecurityTerm)
    (preExtractedText : option string) : string :=
  "
    角色：资深安防行业外贸设计师及国际化技术翻译专家。
    背景：我们是一家领先的安防外贸公司，正在进行 2026 年度旗舰产品的全球海报校对工作。
    
    任务：
    1. **内容分析**：请结合提供的图片内容"
  ++ (if truthy (str_value preExtractedText)
      then "以及下方给出的【预识别文本参考】" else "")
  ++ "进行高精度分析。
    2. **强制性词库比对 (核心任务)**：
       你必须检查文本中涉及的所有技术术语是否符合下方的【公司标准词库】。
       - 如果文本中出现了词库中的 " ++ dq ++ "term" ++ dq ++ "，但词库建议了 " ++ dq ++ "preferredAlternative" ++ dq ++ " (优选词)，必须将其标记为 'terminology' 类型错误，并给出该优选词。
       - 如果文本中出现了与词库定义相同但表达不规范的非专业词汇，必须根据词库定义进行纠正。
       - 标准词库数据："
  ++ JSON_stringify (JArr (map term_json terminology))
  ++ "
    
    3. **全方位质量分析与定位**：
       - **拼写与语法**：检查国际安防买家关注的拼写错误。
       - **技术参数表现**：确保参数表达（如 4K, 30fps, IP67, IK10）符合行业规范。
       - **品牌语调**：评估其是否具备高端、安全、可靠的安防品牌感觉。
       - **视觉定位 (极重要)**：对于每个发现的问题，必须在提供的原始图片中找到其所在的像素坐标。
         - 使用 [ymin, xmin, ymax, xmax] 格式。
         - 坐标系为 0-1000 归一化（0,0 是左上角，1000,1000 是右下角）。
         - 必须确保定位框能够准确且紧凑地包裹住图片中该错误文本对应的视觉区域。
    
    4. **结果输出**：
       - 解释说明 (explanation) 请务必使用中文。
       - 综合评分：基于术语准确度、语言专业度和设计排版逻辑。

    "
  ++ (if truthy (str_value preExtractedText)
      then "【预识别文本参考】：" ++ nl ++ dq ++ dq ++ dq ++ nl
           ++ to_string (str_value preExtractedText)
           ++ nl ++ dq ++ dq ++ dq ++ nl ++ "(请注意：预识别文本可能存在识别误差，请以图像中的实际像素内容为准进行最终裁定和定位)"
      else "")
  ++ "
  ".

Definition errors_item_schema : json :=
  JObj
    [("type", Type_OBJECT);
     ("properties",
      JObj
        [("text",
          JObj [("type", Type_STRING);
                ("description", JStr "发现问题的原始短语或单词")]);
         ("type",
          JObj [("type", Type_STRING);
                ("enum", JArr [JStr "spelling"; JStr "grammar";
                               JStr "terminology"; JStr "style"])]);
         ("suggestion",
          JObj [("type", Type_STRING);
                ("description", JStr "建议的更正方案")]);
         ("alternatives",
          JObj [("type", Type_ARRAY);
                ("items", JObj [("type", Type_STRING)]);
                ("description", JStr "其他可能的表达方式")]);
         ("explanation",
          JObj [("type", Type_STRING);
                ("description", JStr "修正理由（需包含词库引用说明，中文）")]);
         ("location",
          JObj [("type", Type_ARRAY);
                ("items", JObj [("type", Type_NUMBER)]);
                ("description", JStr "[ymin, xmin, ymax, xmax] 归一化坐标")])]);
     ("required",
      JArr [JStr "text"; JStr "type"; JStr "suggestion"; JStr "alternatives";
            JStr "explanation"; JStr "location"])].

Definition analysis_config : json :=
  JObj
    [("responseMimeType", JStr "application/json");
     ("responseSchema",
      JObj
        [("type", Type_OBJECT);
         ("properties",
          JObj
            [("text",
              JObj [("type", Type_STRING);
                    ("description", JStr "最终提取出的完整海报文本内容")]);
             ("analysis",
              JObj
                [("type", Type_OBJECT);
                 ("properties",
                  JObj
                    [("originalText", JObj [("type", Type_STRING)]);
                     ("isProfessional", JObj [("type", Type_BOOLEAN)]);
                     ("score",
                      JObj [("type", Type_NUMBER);
                            ("description", JStr "专业性评分 (0-100)")]);
                     ("errors",
                      JObj [("type", Type_ARRAY);
                            ("items", errors_item_schema)])]);
                 ("required",
                  JArr [JStr "originalText"; JStr "isProfessional";
                        JStr "score"; JStr "errors"])])]);
         ("required", JArr [JStr "text"; JStr "analysis"])])].

(** What [analyzePosterImage] returns: the parsed value, or, when the
    parsed value is an array that was given a [text] property, that array
    with the property. *)
Inductive parsed_value : Type :=
| Plain (j : json)
| ArrayWithText (items : list json) (text : string).

(** [result.text] of a returned value. *)
Definition text_of (r : parsed_value) : value :=
  match r with
  | Plain (JObj fields) => lookup "text" fields
  | Plain _ => undefined
  | ArrayWithText _ t => Some (JStr t)
  end.

Definition type_name (j : json) : string :=
  match j with
  | JBool _ => "boolean"
  | JNum _ => "number"
  | JStr _ => "string"
  | _ => "object"
  end.

(** [parsed.text = s], in a module (strict mode): a primitive takes no
    property. *)
Definition assign_text (parsed : json) (s : string) : exn + parsed_value :=
  match parsed with
  | JObj fields => inr (Plain (JObj (obj_set "text" (JStr s) fields)))
  | JArr items => inr (ArrayWithText items s)
  | JNull => inl (TypeError "Cannot set properties of null (setting 'text')")
  | _ => inl (TypeError ("Cannot create property 'text' on " ++ type_name parsed
                         ++ " '" ++ json_to_string parsed ++ "'"))
  end.

Definition analyzePosterImage (e : env) (base64Image : string)
    (terminology : list SecurityTerm) (preExtractedText : option string)
  : prog parsed_value :=
  let apiKey := env_value (e "API_KEY") in
  let prompt := analysis_prompt terminology preExtractedText in
  let contents := Parts [InlineData "image/png" base64Image; TextPart prompt] in
  response <-
    generateContent (GenRequest apiKey "gemini-3-pro-preview" contents analysis_config) ;;
  let resultText := Eff.text response in
  if negb (truthy (str_value resultText)) then
    Throw (Error "Analysis engine returned empty response.")
  else
    parsed <- lift (JSON_parse (to_string (str_value resultText))) ;;
    if truthy (str_value preExtractedText) then
      text <- lift (get_prop (Some parsed) "text") ;;
      if negb (truthy text)
      then lift (assign_text parsed (to_string (str_value preExtractedText)))
      else Ret (Plain parsed)
    else Ret (Plain parsed).

(** The instruction of [parseTerminologyFromText]. *)
Definition terminology_prompt (rawText : string) : string :=
  "
    你是一个安防行业标准委员会专家。请从以下非结构化文本中，精准提取并整理出具有行业价值的专业术语。
    
    原始文本：
    " ++ dq ++ dq ++ dq ++ "
    "
  ++ rawText
  ++ "
    " ++ dq ++ dq ++ dq ++ "
    
    提取原则：
    1. 聚焦硬件规格 (NVR, PTZ)、智能算法 (Deep Learning, SMD)、接口标准 (PoE, ONVIF) 等。
    2. 如果文本中有推荐的写法或行业通用缩写，请放入 preferredAlternative。
    3. 分类必须清晰（如：存储、视觉感知、传输协议）。
  ".

Definition terminology_config : json :=
  JObj
    [("responseMimeType", JStr "application/json");
     ("responseSchema",
      JObj
        [("type", Type_ARRAY);
         ("items",
          JObj
            [("type", Type_OBJECT);
             ("properties",
              JObj [("term", JObj [("type", Type_STRING)]);
                    ("category", JObj [("type", Type_STRING)]);
                    ("definition", JObj [("type", Type_STRING)]);
                    ("preferredAlternative", JObj [("type", Type_STRING)])]);
             ("required",
              JArr [JStr "term"; JStr "category"; JStr "definition"])])])].

Definition parseTerminologyFromText (e : env) (rawText : string) : prog json :=
  let apiKey := env_value (e "API_KEY") in
  let prompt := terminology_prompt rawText in
  response <-
    generateContent
      (GenRequest apiKey "gemini-3-pro-preview" (Prompt prompt) terminology_config) ;;
  let resultText := Eff.text response in
  if negb (truthy (str_value resultText)) then Ret (JArr [])
  else lift (JSON_parse (to_string (str_value resultText))).

End GeminiService.

(* ================================================================= *)
(** * The analysis adapter behind the cloud functions *)
(* ================================================================= *)

Module CloudGeminiService.
Import JS Eff.
Local Open Scope prog_scope.

(** What the browser side of [getGeminiApiKey] reads: whether there is a
    [window] and, if so, its [__GUARDVISION_CONFIG__]; and the build-time
    variable [import.meta.env.VITE_GEMINI_API_KEY]. *)
Record client_env : Type := {
  window_config : option value;
  VITE_GEMINI_API_KEY : value
}.

Definition getGeminiApiKey (c : client_env) : value :=
  let fallback := or_else (VITE_GEMINI_API_KEY c) (Some (JStr "")) in
  match window_config c with
  | Some config =>
      if truthy (get_prop_opt config "geminiApiKey")
      then get_prop_opt config "geminiApiKey"
      else fallback
  | None => fallback
  end.

Definition terminology_prompt (rawText : string) : string :=
  "
    你是一个安防行业标准委员会专家。请从以下文本中提取专业术语：
    "
  ++ rawText
  ++ "
  ".

Definition parseTerminologyFromText (c : client_env) (rawText : string)
  : prog json :=
  let apiKey := getGeminiApiKey c in
  if negb (truthy apiKey) then
    Throw (Error "Gemini API Key 未配置。")
  else
    let prompt := terminology_prompt rawText in
    try_catch
      (response <-
         generateContent
           (GenRequest apiKey "gemini-1.5-flash" (Prompt prompt)
              GeminiService.terminology_config) ;;
       let resultText := Eff.text response in
       if negb (truthy (str_value resultText)) then Ret (JArr [])
       else lift (JSON_parse (to_string (str_value resultText))))
      (fun _ => Ret (JArr [])).

End CloudGeminiService.

(* ================================================================= *)
(** * Vocabulary of the properties *)
(* ================================================================= *)

Module Obs.
Import JS Eff.

(** The JSON body an outbound call was answered with, if it was. *)
Definition json_of (res : exn + response) : option json :=
  match res with
  | inr resp =>
      match json_body resp with
      | inr j => Some j
      | inl _ => None
      end
  | inl _ => None
  end.

(** The world answers its [n]-th outbound call with the JSON body
    [data]. *)
Definition answers (w : world) (n : nat) (data : json) : Prop :=
  forall r, json_of (net w n r) = Some data.

(** [data.k] of a response body that is not [null]. *)
Definition member (data : json) (k : string) : value :=
  get_prop_opt (Some data) k.

(** A property of the JSON body of a handler's response. *)
Definition response_field (r : http_response) (k : string) : value :=
  match resp_body r with
  | Some body => member body k
  | None => undefined
  end.

(** A list-valued field that is absent, [null] or the empty list. *)
Definition absent_or_empty_list (v : value) : bool :=
  match v with
  | None => true
  | Some JNull => true
  | Some (JArr []) => true
  | Some _ => false
  end.

(** A text-valued field that is absent, [null] or the empty string. *)
Definition absent_or_empty_text (v : value) : bool :=
  match v with
  | None => true
  | Some JNull => true
  | Some (JStr EmptyString) => true
  | Some _ => false
  end.

(** ** Adapters *)

Import Dispatcher.

(** The adapter the dispatcher's [switch] selects for a provider. *)
Definition adapter (p : OcrProvider) (e : env) (image : json)
    (language prompt : value) : prog OcrResult :=
  match p with
  | baidu => callBaiduOcr e image language
  | aliyun => callAliyunOcr e image
  | wechat => callWechatOcr e image
  | gemini => callGeminiOcr e image prompt
  end.

(** All the credentials of a provider are set. *)
Definition configured (p : OcrProvider) (e : env) : bool :=
  let keys := getApiKeys e in
  match p with
  | baidu => truthy (apiKey (baiduKeys keys)) && truthy (secretKey (baiduKeys keys))
  | aliyun =>
      truthy (accessKeyId (aliyunKeys keys))
      && truthy (accessKeySecret (aliyunKeys keys))
  | wechat => truthy (appId (wechatKeys keys)) && truthy (appSecret (wechatKeys keys))
  | gemini => truthy (geminiApiKey (geminiKeys keys))
  end.

Definition uses_token_exchange (p : OcrProvider) : bool :=
  match p with
  | baidu | wechat => true
  | aliyun | gemini => false
  end.

(** The error field of a token response, and the field holding the
    vendor's diagnostic. *)
Definition token_error_field (p : OcrProvider) : string :=
  match p with
  | baidu => "error"
  | _ => "errcode"
  end.



(** The position of the recognition call among the outbound calls. *)
Definition ocr_call_index (p : OcrProvider) : nat :=
  if uses_token_exchange p then 1 else 0.

(** The token exchange, where there is one, is answered without an
    error and with an access token that can be written into an address:
    one that converts to a string. *)
Definition token_granted (p : OcrProvider) (w : world) : Prop :=
  if uses_token_exchange p then
    exists token, answers w 0 token /\ token <> JNull
                  /\ truthy (member token (token_error_field p)) = false
                  /\ converts_value (member token "access_token") = true
  else True.

(** The recognition request can be built from the payload and the
    language.  Baidu's adapter escapes the payload into a form body and
    writes the language behind it, so the payload has to convert to a
    string without a lone surrogate and the language has to convert; the
    other adapters serialise the payload as JSON, which takes any data. *)
Definition request_builds (p : OcrProvider) (image : json) (language : value)
  : bool :=
  match p with
  | baidu =>
      converts image && well_formed (json_to_string image)
      && converts_value language
  | _ => true
  end.

(** The recognition response carries no error code: Baidu's [error_code],
    WeChat's [errcode] and Gemini's [error] are unset; Aliyun's [Code] is
    its success code. *)
Definition has_no_error_code (p : OcrProvider) (data : json) : bool :=
  match p with
  | baidu => negb (truthy (member data "error_code"))
  | aliyun => strict_eq_str (member data "Code") "200"
  | wechat => negb (truthy (member data "errcode"))
  | gemini => negb (truthy (member data "error"))
  end.

(** [data.candidates?.[0]?.content?.parts?.[0]?.text] *)
Definition gemini_text_path (data : json) : value :=
  get_prop_opt
    (get_index0_opt
       (get_prop_opt (get_prop_opt (get_index0_opt (member data "candidates"))
                        "content")
          "parts"))
    "text".

(** The text-bearing field of the response is absent or empty. *)
Definition text_field_absent_or_empty (p : OcrProvider) (data : json) : bool :=
  match p with
  | baidu => absent_or_empty_list (member data "words_result")
  | aliyun => absent_or_empty_text (get_prop_opt (member data "Data") "Content")
  | wechat => absent_or_empty_list (member data "items")
  | gemini =>
      absent_or_empty_list (member data "candidates")
      || absent_or_empty_text (gemini_text_path data)
  end.

(** The provider value is one the dispatcher's [switch] has a case for. *)
Definition supported (provider : value) : bool :=
  existsb (strict_eq_str provider) ["baidu"; "aliyun"; "wechat"; "gemini"].

(** ** The prober *)

(** The names of the entries whose value is not set, in order. *)
Definition missing (entries : list (string * value)) : list string :=
  map fst (filter (fun kv => negb (truthy (snd kv))) entries).

(** ** Sample environments and worlds *)

(** A [process.env] given by its bindings. *)
Fixpoint env_of (bindings : list (string * string)) : env :=
  fun k =>
    match bindings with
    | [] => None
    | (k', v) :: rest => if String.eqb k k' then Some v else env_of rest k
    end.

Definition json_reply (j : json) : exn + response := inr (Response true (inr j)).

(** A world that answers the [n]-th outbound call with the [n]-th entry
    of a script and fails every call after the script's end. *)
Definition scripted (replies : list (exn + response))
    (generated : list (exn + gen_response)) : world :=
  World (fun n _ => nth n replies (inl (TypeError "fetch failed")))
        (fun n _ => nth n generated (inl (Error "model unavailable"))).

Definition sample_env : env :=
  env_of [("BAIDU_OCR_API_KEY", "ak"); ("BAIDU_OCR_SECRET_KEY", "sk");
          ("ALIYUN_OCR_ACCESS_KEY_ID", "id");
          ("ALIYUN_OCR_ACCESS_KEY_SECRET", "secret");
          ("WECHAT_OCR_APP_ID", "wx"); ("WECHAT_OCR_APP_SECRET", "ws");
          ("GEMINI_API_KEY", "gk"); ("API_KEY", "gk")].

(** A 1x1 transparent PNG in base64. *)
Definition sample_image : string :=
  "iVBORw0KGgoAAAANSUhEUgAAAAEAAAABCAYAAAAfFcSJAAAADUlEQVR42mNkYPhfDwAChwGA60e6kgAAAABJRU5ErkJggg==".

Definition granted_token : json :=
  JObj [("access_token", JStr "T0"); ("expires_in", JInt 2592000)].

Definition refused_token_baidu : json :=
  JObj [("error", JStr "invalid_client");
        ("error_description", JStr "unknown client id")].


(** Data that does not convert to a string: an object with a [toString]
    member of its own. *)
Definition unprintable : json := JObj [("toString", JInt 1)].

(** The string holding the lone surrogate U+D800. *)
Definition lone_surrogate : string :=
  String (ascii_of_nat 237) (String (ascii_of_nat 160)
    (String (ascii_of_nat 128) EmptyString)).

(** Vendor responses reporting that no text was found. *)
Definition no_text (p : OcrProvider) : json :=
  match p with
  | baidu => JObj [("words_result", JArr []); ("words_result_num", JInt 0)]
  | aliyun => JObj [("Code", JStr "200"); ("Data", JObj [("Content", JStr "")])]
  | wechat => JObj [("errcode", JInt 0); ("errmsg", JStr "ok"); ("items", JArr [])]
  | gemini => JObj [("candidates", JArr [])]
  end.

Definition no_text_world (p : OcrProvider) : world :=
  if uses_token_exchange p
  then scripted [json_reply granted_token; json_reply (no_text p)] []
  else scripted [json_reply (no_text p)] [].

(** A string of [n] copies of a character. *)
Fixpoint replicate (n : nat) (c : ascii) : string :=
  match n with
  | O => EmptyString
  | S n' => String c (replicate n' c)
  end.

(** A payload one character over the limit. *)
Definition oversized_image : string :=
  replicate (N.to_nat 7340033) "A"%char.

Definition post (fields : list (string * json)) : http_request :=
  HttpRequest "POST" (Some (JObj fields)).

(** The model answers its [n]-th call with [reply]. *)
Definition generates (w : world) (n : nat) (reply : exn + gen_response) : Prop :=
  forall g, llm w n g = reply.

(** The term list in a reply of the model: the parsed body; the empty
    list when the call was rejected, when the body is empty and when the
    body does not parse. *)
Definition terms_of_reply (reply : exn + gen_response) : json :=
  match reply with
  | inl _ => JArr []
  | inr response =>
      match Eff.text response with
      | None => JArr []
      | Some EmptyString => JArr []
      | Some body =>
          match JSON_parse body with
          | inr parsed => parsed
          | inl _ => JArr []
          end
      end
  end.

(** A browser environment with a key in the page configuration. *)
Definition sample_client : CloudGeminiService.client_env :=
  {| CloudGeminiService.window_config :=
       Some (Some (JObj [("geminiApiKey", JStr "gk")]));
     CloudGeminiService.VITE_GEMINI_API_KEY := undefined |}.

(** The JSON text of a one-entry term list. *)
Definition sample_terms_text : string :=
  "[{" ++ dq ++ "term" ++ dq ++ ":" ++ dq ++ "NVR" ++ dq ++ ","
  ++ dq ++ "category" ++ dq ++ ":" ++ dq ++ "storage" ++ dq ++ ","
  ++ dq ++ "definition" ++ dq ++ ":" ++ dq ++ "Network Video Recorder" ++ dq
  ++ "}]".

Definition sample_terms : json :=
  JArr [JObj [("term", JStr "NVR"); ("category", JStr "storage");
              ("definition", JStr "Network Video Recorder")]].

(** The JSON text of an analysis whose [text] is empty. *)
Definition sample_analysis_text : string :=
  "{" ++ dq ++ "text" ++ dq ++ ":" ++ dq ++ dq ++ ","
  ++ dq ++ "analysis" ++ dq ++ ":{"
  ++ dq ++ "originalText" ++ dq ++ ":" ++ dq ++ dq ++ ","
  ++ dq ++ "isProfessional" ++ dq ++ ":true,"
  ++ dq ++ "score" ++ dq ++ ":90,"
  ++ dq ++ "errors" ++ dq ++ ":[]}}".

Definition sample_analysis : list (string * json) :=
  [("text", JStr "");
   ("analysis",
    JObj [("originalText", JStr ""); ("isProfessional", JBool true);
          ("score", JInt 90); ("errors", JArr [])])].

End Obs.


(* ================================================================= *)
(** * The connection tests of the client: [cloudOcrService.ts] and the
      test service built on it *)
(* ================================================================= *)

Module ConnectionTest.
Import JS Eff.
Local Open Scope prog_scope.

(** What [testCloudOcrConnection] returns is either an object it builds,
    [{success, message}], or the body of the prober's response as it
    came. *)
Definition test_result (success : bool) (message : value) : json :=
  JObj (obj [("success", Some (JBool success)); ("message", message)]).

Definition testCloudOcrConnection (p : Facade.OCRProvider) : prog json :=
  let cloudProvider := Facade.providerMap p in
  if Facade.is_local p then
    Ret (test_result true (Some (JStr "本地OCR无需云函数连接测试")))
  else
    try_catch
      (response <-
         fetch (Request "/api/ocr/test" "POST"
                  [("Content-Type", "application/json")]
                  (Some (JSON_stringify
                           (JObj (obj [("provider", Some (JStr cloudProvider))]))))) ;;
       data <- response_json response ;;
       if negb (ok response) then
         error <- lift (get_prop (Some data) "error") ;;
         Ret (test_result false (or_else error (Some (JStr "连接测试失败"))))
       else
         Ret data)
      (fun error =>
         Ret (test_result false
                (Some (JStr ("连接测试失败: "
                             ++ to_string (or_else (Some (JStr (message error)))
                                                   (Some (JStr "网络错误")))))))).

(** What the test service reads of its surroundings: whether there is a
    [window], and the value of each member of the enumeration
    [OCRProvider], which [types.ts] declares (the members have distinct
    values). *)
Record browser : Type := {
  has_window : bool;
  member_value : Facade.OCRProvider -> json
}.

(** [await import(url)]: the module is loaded over the network, an
    outbound call for its address that resolves or rejects.  Of the module
    itself the test service reads nothing. *)
Definition import_module (url : string) : prog unit :=
  Fetch (Request url "GET" [] None)
        (fun loaded => match loaded with
                       | inl e => Throw e
                       | inr _ => Ret tt
                       end).

Definition engine_url : string := "https://esm.sh/tesseract.js@5.1.1".

Definition is_cloud (p : Facade.OCRProvider) : bool :=
  match p with
  | Facade.BAIDU | Facade.ALIBABA | Facade.WECHAT | Facade.GEMINI => true
  | Facade.LOCAL | Facade.ESEARCH => false
  end.

Definition testOcrConnection (b : browser) (provider : Facade.OCRProvider)
  : prog json :=
  if Facade.is_local provider then
    try_catch
      (if negb (has_window b) then
         Ret (test_result false (Some (JStr "本地OCR只能在浏览器环境中使用。")))
       else
         _ <- import_module engine_url ;;
         Ret (test_result true
                (Some (JStr ((match provider with
                              | Facade.LOCAL => "本地离线"
                              | _ => "eSearch 内置"
                              end)
                             ++ " OCR 模式：WASM 引擎就绪，隐私安全。注意：首次使用需要加载WASM文件，可能需要较长时间。")))))
      (fun _ =>
         Ret (test_result false
                (Some (JStr "本地OCR测试失败，可能由于WASM加载问题或浏览器兼容性问题。"))))
  else if is_cloud provider then
    testCloudOcrConnection provider
  else
    Ret (test_result false
           (Some (JStr ("未知的服务商: " ++ json_to_string (member_value b provider))))).

End ConnectionTest.

(* ================================================================= *)
(** * The analysis adapter behind the cloud functions: recognition
      first, then analysis *)
(* ================================================================= *)

Module CloudAnalysis.
Import JS Eff.
Local Open Scope prog_scope.

(** What this file takes from modules that are not among the sources:
    [performLocalOcr] of the local recognition service, and the values of
    the members of [OCRProvider]. *)
Record platform : Type := {
  performLocalOcr : string -> option string -> prog value;
  member_value : Facade.OCRProvider -> json
}.

Definition performOcr (P : platform) (provider : Facade.OCRProvider)
    (base64Data : string) (language : option string) : prog value :=
  if Facade.is_local provider then
    performLocalOcr P base64Data language
  else
    result <- Facade.performCloudOcr provider base64Data language undefined ;;
    Ret (Facade.text result).

Definition is_gemini (p : Facade.OCRProvider) : bool :=
  match p with
  | Facade.GEMINI => true
  | _ => false
  end.

(** The instruction of [analyzePosterImage]. *)
Definition analysis_prompt (terminology : list GeminiService.SecurityTerm)
    (ocrText : value) : string :=
  "
    角色：资深安防行业外贸设计师及国际化技术翻译专家。
    背景：我们是一家领先的安防外贸公司，正在进行 2026 年度旗舰产品的全球海报校对工作。
    
    任务：
    1. **内容分析**：请结合提供的图片内容"
  ++ (if truthy ocrText then "以及下方给出的【预识别文本参考】" else "")
  ++ "进行高精度分析。
    2. **强制性词库比对 (核心任务)**：
       你必须检查文本中涉及的所有技术术语是否符合下方的【公司标准词库】。
       - 如果文本中出现了词库中的 " ++ dq ++ "term" ++ dq ++ "，但词库建议了 " ++ dq ++ "preferredAlternative" ++ dq ++ " (优选词)，必须将其标记为 'terminology' 类型错误，并给出该优选词。
       - 如果文本中出现了与词库定义相同但表达不规范的非专业词汇，必须根据词库定义进行纠正。
       - 标准词库数据："
  ++ JSON_stringify (JArr (map GeminiService.term_json terminology))
  ++ "
    
    3. **全方位质量分析与定位**：
       - **拼写与语法**：检查国际安防买家关注的拼写错误。
       - **技术参数表现**：确保参数表达（如 4K, 30fps, IP67, IK10）符合行业规范。
       - **品牌语调**：评估其是否具备高端、安全、可靠的安防品牌感觉。
       - **视觉定位 (极重要)**：对于每个发现的问题，必须在提供的原始图片中找到其所在的像素坐标。
         - 使用 [ymin, xmin, ymax, xmax] 格式。
         - 坐标系为 0-1000 归一化。
    
    4. **结果输出**：使用中文进行解释。

    "
  ++ (if truthy ocrText
      then "【预识别文本参考】：" ++ nl ++ dq ++ dq ++ dq ++ nl
           ++ to_string ocrText
           ++ nl ++ "multiline" ++ nl ++ dq ++ dq ++ dq ++ nl
      else "")
  ++ "
  ".

Definition error_properties (location : list (string * json))
  : list (string * json) :=
  [("text", JObj [("type", GeminiService.Type_STRING)]);
   ("type",
    JObj [("type", GeminiService.Type_STRING);
          ("enum", JArr [JStr "spelling"; JStr "grammar";
                         JStr "terminology"; JStr "style"])]);
   ("suggestion", JObj [("type", GeminiService.Type_STRING)]);
   ("alternatives",
    JObj [("type", GeminiService.Type_ARRAY);
          ("items", JObj [("type", GeminiService.Type_STRING)])]);
   ("explanation", JObj [("type", GeminiService.Type_STRING)]);
   ("location",
    JObj ([("type", GeminiService.Type_ARRAY);
           ("items", JObj [("type", GeminiService.Type_NUMBER)])]
          ++ location)%list)].

(** The schema of a detection result, with the properties of one error
    entry. *)
Definition detection_schema (location : list (string * json))
  : list (string * json) :=
  [("type", GeminiService.Type_OBJECT);
   ("properties",
    JObj
      [("originalText", JObj [("type", GeminiService.Type_STRING)]);
       ("isProfessional", JObj [("type", GeminiService.Type_BOOLEAN)]);
       ("score", JObj [("type", GeminiService.Type_NUMBER)]);
       ("errors",
        JObj [("type", GeminiService.Type_ARRAY);
              ("items",
               JObj [("type", GeminiService.Type_OBJECT);
                     ("properties", JObj (error_properties location));
                     ("required",
                      JArr [JStr "text"; JStr "type"; JStr "suggestion";
                            JStr "alternatives"; JStr "explanation";
                            JStr "location"])])])]);
   ("required",
    JArr [JStr "originalText"; JStr "isProfessional"; JStr "score";
          JStr "errors"])].

Definition analysis_config : json :=
  JObj
    [("thinkingConfig", JObj [("thinkingBudget", JInt 16000)]);
     ("responseMimeType", JStr "application/json");
     ("responseSchema",
      JObj
        [("type", GeminiService.Type_OBJECT);
         ("properties",
          JObj
            [("text",
              JObj [("type", GeminiService.Type_STRING);
                    ("description", JStr "提取出的完整海报文本内容")]);
             ("analysis",
              JObj (detection_schema
                      [("description", JStr "[ymin, xmin, ymax, xmax]")]))]);
         ("required", JArr [JStr "text"; JStr "analysis"])])].

Definition key_missing_message : string :=
  "Gemini API Key 未配置。请在OCR配置中设置Gemini API Key。".
Definition key_invalid_message : string :=
  "Gemini API Key 无效或已过期。请在配置中检查并更新。".
Definition quota_message : string :=
  "API 调用次数超限或配额不足。请稍后重试或检查API配额。".
Definition network_message : string := "网络连接失败，请检查网络后重试。".
Definition analysis_failure_prefix : string := "分析失败: ".

(** The [catch] of [analyzePosterImage]: the error it throws for an
    error it caught. *)
Definition translate (error : exn) : exn :=
  if includes (message error) "API_KEY_INVALID"
     || includes (message error) "authentication"
  then Error key_invalid_message
  else if includes (message error) "quota"
          || includes (message error) "rate limit"
  then Error quota_message
  else if includes (message error) "network"
          || includes (message error) "fetch"
  then Error network_message
  else Error (analysis_failure_prefix
              ++ to_string (or_else (Some (JStr (message error)))
                                    (Some (JStr "未知错误")))).

Definition analyzePosterImage (P : platform)
    (c : CloudGeminiService.client_env) (base64Image : string)
    (terminology : list GeminiService.SecurityTerm)
    (preExtractedText : option string)
    (ocrProvider : option Facade.OCRProvider) : prog json :=
  let preExtracted := str_value preExtractedText in
  ocrText <-
    (match ocrProvider with
     | Some provider =>
         if negb (truthy preExtracted)
            && truthy (Some (member_value P provider))
            && negb (is_gemini provider)
         then try_catch (performOcr P provider base64Image (Some "CHN_ENG"))
                        (fun _ => Ret preExtracted)
         else Ret preExtracted
     | None => Ret preExtracted
     end) ;;
  let apiKey := CloudGeminiService.getGeminiApiKey c in
  if negb (truthy apiKey) then
    Throw (Error key_missing_message)
  else
    let prompt := analysis_prompt terminology ocrText in
    let contents := Parts [InlineData "image/png" base64Image; TextPart prompt] in
    try_catch
      (response <-
         generateContent
           (GenRequest apiKey "gemini-1.5-flash" contents analysis_config) ;;
       let resultText := Eff.text response in
       if negb (truthy (str_value resultText)) then
         Throw (Error "Analysis engine returned empty response.")
       else
         lift (JSON_parse (to_string (str_value resultText))))
      (fun error => Throw (translate error)).

(** The instruction of [analyzeSecurityText]. *)
Definition text_prompt (inputText : string)
    (terminology : list GeminiService.SecurityTerm) : string :=
  "
    角色：资深安防行业技术翻译官与品牌文案专家。
    任务：分析下方的安防产品文案。
    
    要求：
    1. **术语合规性**：对比下方提供的【标准词库】，纠正任何非标表达。
    2. **语法与改写**：提升文案的专业度，使其符合 2026 年国际安防展会的高端语调。
    3. **输出格式**：返回详细的纠错清单，由于没有图片，location 字段请统一返回 [0, 0, 0, 0]。
    
    标准词库数据："
  ++ JSON_stringify (JArr (map GeminiService.term_json terminology))
  ++ "
    待分析文案：
    " ++ dq ++ dq ++ dq ++ "
    "
  ++ inputText
  ++ "
    " ++ dq ++ dq ++ dq ++ "
  ".

Definition text_config : json :=
  JObj
    [("thinkingConfig", JObj [("thinkingBudget", JInt 12000)]);
     ("responseMimeType", JStr "application/json");
     ("responseSchema", JObj (detection_schema []))].

Definition text_failure_prefix : string := "文本分析失败: ".

Definition analyzeSecurityText (c : CloudGeminiService.client_env)
    (inputText : string) (terminology : list GeminiService.SecurityTerm)
  : prog json :=
  let apiKey := CloudGeminiService.getGeminiApiKey c in
  if negb (truthy apiKey) then
    Throw (Error "Gemini API Key 未配置。")
  else
    let prompt := text_prompt inputText terminology in
    try_catch
      (response <-
         generateContent
           (GenRequest apiKey "gemini-1.5-flash" (Prompt prompt) text_config) ;;
       let resultText := Eff.text response in
       if negb (truthy (str_value resultText)) then
         Throw (Error "Text analysis engine returned empty response.")
       else
         lift (JSON_parse (to_string (str_value resultText))))
      (fun error =>
         Throw (Error (text_failure_prefix
                       ++ to_string (or_else (Some (JStr (message error)))
                                             (Some (JStr "未知错误")))))).

End CloudAnalysis.

(* ================================================================= *)
(** * More vocabulary *)
(* ================================================================= *)

Module Cases.
Import JS Eff Obs Dispatcher.

(** ** The dispatcher and its adapters *)

(** The error of an adapter whose credentials are not all set. *)
Definition config_message (p : OcrProvider) : string :=
  match p with
  | baidu => "百度OCR API密钥未配置"
  | aliyun => "阿里云OCR API密钥未配置"
  | wechat => "微信OCR API密钥未配置"
  | gemini => "Gemini API密钥未配置"
  end.

(** The error of an adapter whose recognition call the vendor refused:
    its heading and the vendor's diagnostic. *)
Definition request_failure_prefix (p : OcrProvider) : string :=
  match p with
  | baidu => "百度OCR识别失败: "
  | aliyun => "阿里云OCR识别失败: "
  | wechat => "微信OCR识别失败: "
  | gemini => "Gemini识别失败: "
  end.

Definition vendor_diagnostic (p : OcrProvider) (data : json) : value :=
  match p with
  | baidu => member data "error_msg"
  | aliyun => member data "Message"
  | wechat => member data "errmsg"
  | gemini => get_prop_opt (member data "error") "message"
  end.

(** The field holding the recognised lines and the key of a line's text,
    for the vendors that answer line by line. *)
Definition lines_field (p : OcrProvider) : string :=
  match p with
  | baidu => "words_result"
  | _ => "items"
  end.

Definition line_key (p : OcrProvider) : string :=
  match p with
  | baidu => "words"
  | _ => "text"
  end.

(** The text of the response, for the vendors that answer with one
    text: Aliyun's [Data.Content] and the first part of Gemini's first
    candidate. *)
Definition text_field (p : OcrProvider) (data : json) : value :=
  match p with
  | aliyun => get_prop_opt (member data "Data") "Content"
  | _ => gemini_text_path data
  end.

(** The address of the recognition call, up to the access token. *)
Definition ocr_url_prefix (p : OcrProvider) : string :=
  match p with
  | baidu => "https://aip.baidubce.com/rest/2.0/ocr/v1/general_basic?access_token="
  | _ => "https://api.weixin.qq.com/cv/ocr/comm?access_token="
  end.

(** The world rejects its [n]-th outbound call with [err]. *)
Definition rejects (w : world) (n : nat) (err : exn) : Prop :=
  forall r, net w n r = inl err.

(** The world answers its [n]-th outbound call with the response
    [resp]. *)
Definition replies (w : world) (n : nat) (resp : response) : Prop :=
  forall r, net w n r = inr resp.

(** The envelopes of the dispatcher. *)
Definition success_envelope (r : OcrResult) : http_response :=
  Dispatcher.respond 200
    [("success", Some (JBool true)); ("data", Some (result_json r))].

Definition failure_envelope (e : env) (err : exn) : http_response :=
  Dispatcher.respond 500
    [("success", Some (JBool false));
     ("error", or_else (Some (JStr (message err))) (Some (JStr "OCR处理失败")));
     ("details",
      if strict_eq_str (env_value (e "NODE_ENV")) "development"
      then Some (JStr (stack err))
      else undefined)].

Definition rejection_envelope (code : Z) (msg : string) : http_response :=
  Dispatcher.respond code
    [("success", Some (JBool false)); ("error", Some (JStr msg))].

(** What the dispatcher can answer. *)
Inductive dispatcher_response (e : env) : http_response -> Prop :=
| answer_options :
    dispatcher_response e (HttpResponse 200 Dispatcher.cors_headers None)
| answer_method :
    dispatcher_response e (rejection_envelope 405 "只支持POST请求")
| answer_invalid (msg : string) :
    dispatcher_response e (rejection_envelope 400 msg)
| answer_success (r : OcrResult) :
    dispatcher_response e (success_envelope r)
| answer_failure (err : exn) :
    dispatcher_response e (failure_envelope e err).

(** A recognition response of a line-by-line vendor holding the given
    lines. *)
Definition lines_response (p : OcrProvider) (lines : list string) : json :=
  JObj [(lines_field p,
         JArr (map (fun s => JObj [(line_key p, JStr s)]) lines))].

(** Vendor responses refusing the recognition call. *)
Definition refused (p : OcrProvider) : json :=
  match p with
  | baidu => JObj [("error_code", JInt 17);
                   ("error_msg", JStr "Open api daily request limit reached")]
  | aliyun => JObj [("Code", JInt 200); ("Message", JStr "numeric code")]
  | wechat => JObj [("errcode", JInt 45009); ("errmsg", JStr "reach max api daily quota limit")]
  | gemini => JObj [("error", JObj [("code", JInt 400);
                                    ("message", JStr "API key not valid")])]
  end.

Definition refused_world (p : OcrProvider) : world :=
  if uses_token_exchange p
  then scripted [json_reply granted_token; json_reply (refused p)] []
  else scripted [json_reply (refused p)] [].

(** ** The facade *)


(** The result of an adapter as the facade hands it on. *)
Definition facade_result (r : OcrResult) : Facade.CloudOcrResult :=
  {| Facade.text := result_text r;
     Facade.provider := Some (JStr (result_provider r));
     Facade.rawResult := Some (Dispatcher.rawResult r) |}.

(** ** The analysis behind the cloud functions *)

(** The messages [analyzePosterImage] lets out of its [catch]. *)
Definition analysis_message (msg : string) : Prop :=
  msg = CloudAnalysis.key_invalid_message
  \/ msg = CloudAnalysis.quota_message
  \/ msg = CloudAnalysis.network_message
  \/ exists detail, msg = CloudAnalysis.analysis_failure_prefix ++ detail.

(** The recognition step of [analyzePosterImage] is taken: no text was
    handed in, a provider was, and it is not the model itself. *)
Definition recognises (P : CloudAnalysis.platform)
    (preExtractedText : option string) (p : Facade.OCRProvider) : bool :=
  negb (truthy (str_value preExtractedText))
  && truthy (Some (CloudAnalysis.member_value P p))
  && negb (CloudAnalysis.is_gemini p).

(** The request [analyzePosterImage] sends to the model, for the text it
    has at that point. *)
Definition analysis_request (key : value) (image : string)
    (terminology : list GeminiService.SecurityTerm) (ocrText : value)
  : gen_request :=
  GenRequest key "gemini-1.5-flash"
    (Parts [InlineData "image/png" image;
            TextPart (CloudAnalysis.analysis_prompt terminology ocrText)])
    CloudAnalysis.analysis_config.

(** A platform whose local recognition always reads the same line, and
    whose enumeration has the provider names as values. *)
Definition sample_platform : CloudAnalysis.platform :=
  {| CloudAnalysis.performLocalOcr := fun _ _ => Ret (Some (JStr "4K NVR"));
     CloudAnalysis.member_value :=
       fun p =>
         match p with
         | Facade.GEMINI => JStr "GEMINI"
         | Facade.BAIDU => JStr "BAIDU"
         | Facade.WECHAT => JStr "WECHAT"
         | Facade.ALIBABA => JStr "ALIBABA"
         | Facade.LOCAL => JStr "LOCAL"
         | Facade.ESEARCH => JStr "ESEARCH"
         end |}.

(** A client with no key at all. *)
Definition keyless_client : CloudGeminiService.client_env :=
  {| CloudGeminiService.window_config := None;
     CloudGeminiService.VITE_GEMINI_API_KEY := undefined |}.

End Cases.
(* ================================================================= *)
(** * Properties *)
(* ================================================================= *)

Import JS Eff Obs.

(** ** Tactics for running programs *)

(** One step of a program: unfold the monad's operations where a
    constructor shows, and pass a lifted result to what follows it. *)
Ltac exec_step :=
  repeat
    (progress
       (cbn [bind run lift try_catch fst snd json_body ok Eff.text];
        repeat match goal with
               | |- context C [bind (lift (inr ?a)) ?f] =>
                   let g := context C [f a] in change g
               | |- context C [bind (lift (@inl ?E ?A ?e)) ?f] =>
                   let g := context C [bind (@Throw A e) f] in change g
               end;
        cbv beta)).

Ltac split_on t := let E := fresh "E" in destruct t eqn:E.

(** Case analysis on whatever the program waits for next. *)
Ltac exec_split :=
  match goal with
  | |- context [lift ?x] =>
      lazymatch x with
      | inl _ => fail
      | inr _ => fail
      | _ => split_on x
      end
  | |- context [bind (if ?x then _ else _) _] => split_on x
  | |- context [run _ _ (if ?x then _ else _)] => split_on x
  | |- context [try_catch (if ?x then _ else _) _] => split_on x
  end.

(** All the runs of a program. *)
Ltac exec :=
  unfold fetch, response_json, generateContent;
  repeat (exec_step; try discriminate; exec_split);
  exec_step.

(** Use the JSON body the world is known to answer the next call with. *)
Ltac answer H :=
  unfold fetch, response_json, generateContent; exec_step;
  match goal with
  | |- context [net ?w ?n ?r] =>
      let H' := fresh "H" in
      pose proof (H r) as H'; unfold json_of in H';
      destruct (net w n r) as [? | [? [? | ?]]]; cbn [json_body] in H';
      try discriminate H'; injection H' as ->
  end;
  exec_step.

(** Use the reply the model is known to give to the next call. *)
Ltac generate H :=
  unfold generateContent; exec_step;
  match goal with
  | |- context [llm ?w ?n ?g] => rewrite (H g)
  end;
  exec_step.

(** A handler on a POST request: past the method checks, reading the
    provider out of the body. *)
Ltac post_request handler :=
  unfold handler, post;
  cbn [req_method req_body];
  change (String.eqb "POST" "OPTIONS") with false;
  change (String.eqb "POST" "POST") with true;
  cbv zeta;
  match goal with
  | |- context [truthy (Some (JObj ?fields))] =>
      change (truthy (Some (JObj fields))) with true;
      change (get_prop (Some (JObj fields)) "provider")
        with (@inr exn value (lookup "provider" fields))
  end;
  cbn [negb]; exec_step.

(** ** The model on sample inputs *)

Example JSON_parse_terms : JSON_parse sample_terms_text = inr sample_terms.
Proof. vm_compute. reflexivity. Qed.

Example JSON_parse_numbers :
  JSON_parse "[1, -2.50, 1e2, 0.001, -0]"
  = inr (JArr [JInt 1; JNum (Num (-25) 1); JInt 100; JNum (Num 1 3); JInt 0]).
Proof. vm_compute. reflexivity. Qed.

Example JSON_parse_escapes :
  JSON_parse (dq ++ "a\n中" ++ dq) = inr (JStr ("a" ++ nl ++ "中")).
Proof. vm_compute. reflexivity. Qed.

Example JSON_parse_trailing_comma :
  JSON_parse "[1,]" = inl (SyntaxError "Unexpected token in JSON").
Proof. vm_compute. reflexivity. Qed.

Example JSON_parse_empty_text :
  JSON_parse "" = inl (SyntaxError "Unexpected token in JSON").
Proof. vm_compute. reflexivity. Qed.

Example JSON_parse_stringify :
  JSON_parse (JSON_stringify (JObj sample_analysis)) = inr (JObj sample_analysis).
Proof. vm_compute. reflexivity. Qed.

Example JSON_stringify_number : JSON_stringify (JNum (Num (-5) 3)) = "-0.005".
Proof. vm_compute. reflexivity. Qed.

Example encodeURIComponent_base64 :
  encodeURIComponent (Some (JStr "a b+c/d=")) = inr "a%20b%2Bc%2Fd%3D".
Proof. vm_compute. reflexivity. Qed.

(** A lone surrogate, as an escape can put it into a payload, is
    refused. *)
Example JSON_parse_lone_surrogate :
  JSON_parse (dq ++ "\ud800" ++ dq) = inr (JStr lone_surrogate).
Proof. vm_compute. reflexivity. Qed.

Example encodeURIComponent_lone_surrogate :
  encodeURIComponent (Some (JStr lone_surrogate))
  = inl (URIError "URI malformed").
Proof. vm_compute. reflexivity. Qed.

Example ToString_array :
  ToString (Some (JArr [JInt 1; JNull; JStr "b"; JArr [JBool true]]))
  = inr "1,,b,true".
Proof. vm_compute. reflexivity. Qed.

Example ToString_object : ToString (Some (JObj [("a", JInt 1)])) = inr "[object Object]".
Proof. vm_compute. reflexivity. Qed.

(** An object with a [toString] member of its own does not convert, nor
    does an array that holds one. *)
Example ToString_unprintable :
  ToString (Some unprintable) = inl cannot_convert
  /\ ToString (Some (JArr [JStr "a"; unprintable])) = inl cannot_convert.
Proof. split; vm_compute; reflexivity. Qed.

(** A recognition through the dispatcher: Baidu grants the token and
    finds two lines. *)
Example dispatcher_baidu_two_lines :
  result
    (scripted
       [json_reply granted_token;
        json_reply (JObj [("words_result",
                           JArr [JObj [("words", JStr "IP67")];
                                 JObj [("words", JStr "4K NVR")]])])] [])
    (Dispatcher.handler sample_env
       (post [("provider", JStr "baidu"); ("imageBase64", JStr sample_image)]))
  = Returned
      (HttpResponse 200 Dispatcher.cors_headers
         (Some (JObj
            [("success", JBool true);
             ("data",
              JObj [("text", JStr ("IP67" ++ nl ++ "4K NVR"));
                    ("provider", JStr "baidu");
                    ("rawResult",
                     JObj [("words_result",
                            JArr [JObj [("words", JStr "IP67")];
                                  JObj [("words", JStr "4K NVR")]])])])]))).
Proof. vm_compute. reflexivity. Qed.

(** Without credentials the adapter throws and the dispatcher answers
    500 with the adapter's message. *)
Example dispatcher_unconfigured :
  run (scripted [] [])  0
    (Dispatcher.handler (env_of [])
       (post [("provider", JStr "aliyun"); ("imageBase64", JStr sample_image)]))
  = ([], Returned
           (Dispatcher.respond 500
              [("success", Some (JBool false));
               ("error", Some (JStr "阿里云OCR API密钥未配置"))])).
Proof. vm_compute. reflexivity. Qed.

(** A provider the prober has no entry for is a server error. *)
Example prober_unknown_provider :
  run (scripted [] []) 0
      (Prober.handler sample_env (post [("provider", JStr "tesseract")]))
  = ([], Returned
           (Prober.respond 500
              [("success", Some (JBool false));
               ("error",
                Some (JStr "Cannot convert undefined or null to object"))])).
Proof. vm_compute. reflexivity. Qed.

(** The facade turns a failed fetch into its network message, and a
    failure envelope of the dispatcher into a recognition failure. *)
Example facade_network_failure :
  run (scripted [inl (TypeError "Failed to fetch")] []) 0
      (Facade.performCloudOcr Facade.BAIDU sample_image None undefined)
  = ([EFetch (Request "/api/ocr" "POST" [("Content-Type", "application/json")]
                (Some ("{" ++ dq ++ "provider" ++ dq ++ ":" ++ dq ++ "baidu" ++ dq
                       ++ "," ++ dq ++ "imageBase64" ++ dq ++ ":" ++ dq
                       ++ sample_image ++ dq ++ "}")))],
     Thrown (Error "网络连接失败，请检查网络后重试")).
Proof. vm_compute. reflexivity. Qed.

Example facade_dispatcher_failure :
  result
    (scripted
       [inr (Response false
               (inr (JObj [("success", JBool false);
                           ("error", JStr "百度OCR API密钥未配置")])))] [])
    (Facade.performCloudOcr Facade.BAIDU sample_image None undefined)
  = Thrown (Error "OCR识别失败: 百度OCR API密钥未配置").
Proof. vm_compute. reflexivity. Qed.

(** The analysis adapter fails on an empty body, and keeps the model's
    text when there is one. *)
Example analysis_empty_body :
  result (scripted [] [inr (GenResponse None)])
         (GeminiService.analyzePosterImage sample_env sample_image []
            (Some "4K NVR"))
  = Thrown (Error "Analysis engine returned empty response.").
Proof. vm_compute. reflexivity. Qed.

Example analysis_keeps_model_text :
  result
    (scripted []
       [inr (GenResponse
               (Some ("{" ++ dq ++ "text" ++ dq ++ ":" ++ dq ++ "IP67" ++ dq ++ "}")))])
    (GeminiService.analyzePosterImage sample_env sample_image []
       (Some "4K NVR"))
  = Returned (GeminiService.Plain (JObj [("text", JStr "IP67")])).
Proof. vm_compute. reflexivity. Qed.

(** ** Sequencing and catching *)

Section RunLaws.

Context {A : Type}.
Variable w : world.

(** A sequence runs its first part and, if that returned, the rest on
    the calls that follow. *)
Lemma run_bind {B : Type} (p : prog A) (f : A -> prog B) (n : nat) :
  run w n (bind p f) =
  match run w n p with
  | (calls, Returned a) =>
      let '(calls', o) := run w (n + List.length calls) (f a) in
      ((calls ++ calls')%list, o)
  | (calls, Thrown err) => (calls, Thrown err)
  end.
Proof.
  revert n; induction p as [a | err | r k IH | g k IH]; intros n; cbn.
  - rewrite Nat.add_0_r. destruct (run w n (f a)); reflexivity.
  - reflexivity.
  - rewrite IH. destruct (run w (S n) (k (net w n r))) as [calls [a | err]]; cbn.
    + rewrite Nat.add_succ_r. destruct (run w _ (f a)); reflexivity.
    + reflexivity.
  - rewrite IH. destruct (run w (S n) (k (llm w n g))) as [calls [a | err]]; cbn.
    + rewrite Nat.add_succ_r. destruct (run w _ (f a)); reflexivity.
    + reflexivity.
Qed.

(** A [try] block runs its body and, if that threw, the handler. *)
Lemma run_try_catch (p : prog A) (h : exn -> prog A) (n : nat) :
  run w n (try_catch p h) =
  match run w n p with
  | (calls, Returned a) => (calls, Returned a)
  | (calls, Thrown err) =>
      let '(calls', o) := run w (n + List.length calls) (h err) in
      ((calls ++ calls')%list, o)
  end.
Proof.
  revert n; induction p as [a | err | r k IH | g k IH]; intros n; cbn.
  - reflexivity.
  - rewrite Nat.add_0_r. destruct (run w n (h err)); reflexivity.
  - rewrite IH. destruct (run w (S n) (k (net w n r))) as [calls [a | err]]; cbn.
    + reflexivity.
    + rewrite Nat.add_succ_r. destruct (run w _ (h err)); reflexivity.
  - rewrite IH. destruct (run w (S n) (k (llm w n g))) as [calls [a | err]]; cbn.
    + reflexivity.
    + rewrite Nat.add_succ_r. destruct (run w _ (h err)); reflexivity.
Qed.

End RunLaws.

(** ** Values *)

Lemma get_prop_member (data : json) (k : string) :
  data <> JNull -> get_prop (Some data) k = inr (member data k).
Proof. destruct data; intros H; try reflexivity. now elim H. Qed.

Lemma truthy_not_null (data : json) (k : string) :
  truthy (member data k) = true -> data <> JNull.
Proof. intros H ->. discriminate. Qed.

Lemma nonempty_truthy (s : string) :
  s <> "" -> truthy (Some (JStr s)) = true.
Proof. destruct s; [intros H; now elim H | reflexivity]. Qed.

Lemma JSON_parse_nonempty (body : string) (v : json) :
  JSON_parse body = inr v -> truthy (Some (JStr body)) = true.
Proof.
  destruct body; [ | reflexivity]. vm_compute. discriminate.
Qed.

(** ** Conversions *)

Lemma ToString_converts (v : value) :
  converts_value v = true -> ToString v = inr (to_string v).
Proof. unfold ToString. now intros ->. Qed.

Lemma ToString_string (s : string) : ToString (Some (JStr s)) = inr s.
Proof. reflexivity. Qed.

Lemma ToString_fails (v : value) :
  converts_value v = false -> ToString v = inl cannot_convert.
Proof. unfold ToString. now intros ->. Qed.

(** The language Baidu's adapter falls back to converts. *)
Lemma language_converts (language : value) :
  converts_value language = true ->
  ToString (match language with
            | None => Some (JStr "CHN_ENG")
            | Some _ => language
            end)
  = inr (to_string (match language with
                    | None => Some (JStr "CHN_ENG")
                    | Some _ => language
                    end)).
Proof.
  destruct language; intros H; [now apply ToString_converts | reflexivity].
Qed.

Lemma encodeURIComponent_converts (image : json) :
  converts image = true ->
  well_formed (json_to_string image) = true ->
  encodeURIComponent (Some image) = inr (uri_escape (json_to_string image)).
Proof.
  intros Hc Hw. unfold encodeURIComponent, ToString.
  cbn [converts_value to_string]. now rewrite Hc, Hw.
Qed.

Lemma lookup_obj_set (k : string) (v : json) (fields : list (string * json)) :
  lookup k (obj_set k v fields) = Some v.
Proof.
  induction fields as [ | [k' v'] rest IH]; cbn.
  - now rewrite String.eqb_refl.
  - destruct (String.eqb k k') eqn:E; cbn; now rewrite E.
Qed.

Lemma length_replicate (n : nat) (c : ascii) :
  String.length (replicate n c) = n.
Proof. induction n; cbn; congruence. Qed.

(** ** Substrings *)

Lemma prefix_app (p s : string) : prefix p (p ++ s) = true.
Proof.
  induction p as [ | c p IH]; cbn; [now destruct s | ].
  destruct (ascii_dec c c) as [_ | N]; [exact IH | now elim N].
Qed.

Lemma prefix_inv (p s : string) :
  prefix p s = true -> exists rest, s = p ++ rest.
Proof.
  revert s; induction p as [ | c p IH]; intros s H.
  - now exists s.
  - destruct s as [ | d s]; cbn in H; [discriminate | ].
    destruct (ascii_dec c d) as [<- | _]; [ | discriminate].
    destruct (IH s H) as [rest ->]. now exists rest.
Qed.

Lemma includes_unfold (s sub : string) :
  includes s sub =
  (prefix sub s
   || match s with
      | EmptyString => false
      | String _ rest => includes rest sub
      end).
Proof. destruct s; reflexivity. Qed.

(** [includes] decides [Contains]. *)
Lemma includes_Contains (s sub : string) :
  includes s sub = true <-> Contains s sub.
Proof.
  split.
  - induction s as [ | c s IH]; rewrite includes_unfold; intros H;
      apply orb_true_iff in H as [H | H]; try discriminate.
    + destruct (prefix_inv _ _ H) as [rest ->]. now exists "", rest.
    + destruct (prefix_inv _ _ H) as [rest ->]. now exists "", rest.
    + destruct (IH H) as (a & b & ->). now exists (String c a), b.
  - intros (a & b & ->). induction a as [ | c a IH]; rewrite includes_unfold.
    + cbn [append]. now rewrite prefix_app.
    + cbn [append]. rewrite IH. apply orb_true_r.
Qed.

Lemma Contains_suffix (a b : string) : Contains (a ++ b) b.
Proof.
  exists a, "". f_equal. induction b as [ | c b IH]; cbn; congruence.
Qed.

(** ** Defaults of the text accessors *)

Import Dispatcher.

Lemma map_prop_join_empty (name : string) (v : value) (k : string) :
  absent_or_empty_list v = true ->
  exists lines, map_prop_join name v k = inr lines
                /\ or_else lines (Some (JStr "")) = Some (JStr "").
Proof.
  destruct v as [[ | b | n | s | [ | x l] | fs] | ]; cbn; intros H;
    try discriminate; eauto.
Qed.

Lemma or_else_empty_text (v : value) :
  absent_or_empty_text v = true -> or_else v (Some (JStr "")) = Some (JStr "").
Proof.
  destruct v as [[ | b | n | [ | c s] | l | fs] | ]; cbn; intros H;
    try discriminate; reflexivity.
Qed.

Lemma gemini_text_path_no_candidates (data : json) :
  absent_or_empty_list (member data "candidates") = true ->
  gemini_text_path data = undefined.
Proof.
  unfold gemini_text_path.
  destruct (member data "candidates") as [[ | b | n | s | [ | x l] | fs] | ];
    cbn; intros H; try discriminate; reflexivity.
Qed.

Lemma gemini_text_default (data : json) :
  text_field_absent_or_empty gemini data = true ->
  or_else (gemini_text_path data) (Some (JStr "")) = Some (JStr "").
Proof.
  cbn. intros H. apply orb_true_iff in H as [H | H].
  - now rewrite gemini_text_path_no_candidates.
  - now apply or_else_empty_text.
Qed.

(** ** The adapters *)

Lemma request_builds_baidu (image : json) (language : value) :
  request_builds baidu image language = true ->
  converts image = true
  /\ well_formed (json_to_string image) = true
  /\ converts_value language = true.
Proof.
  unfold request_builds. intros H.
  apply andb_true_iff in H as [H Hl]. apply andb_true_iff in H as [Hc Hw].
  auto.
Qed.

(** The token exchange, granted: past the token call and the conversion
    of the access token. *)
Ltac granted Ht Htn Hte Hta :=
  answer Ht;
  rewrite !(get_prop_member _ _ Htn); exec_step; rewrite Hte; exec_step;
  rewrite (ToString_converts _ Hta); exec_step.

(** The form body of Baidu's recognition request, built. *)
Ltac built Hb :=
  let Hi := fresh "Hi" in
  let Hw := fresh "Hw" in
  let Hl := fresh "Hl" in
  destruct (request_builds_baidu _ _ Hb) as (Hi & Hw & Hl);
  rewrite (encodeURIComponent_converts _ Hi Hw); exec_step;
  rewrite (language_converts _ Hl); exec_step.

(** An adapter with two credentials, past its check of them. *)
Ltac with_credentials Hc :=
  let Hc1 := fresh "Hc" in
  let Hc2 := fresh "Hc" in
  unfold configured in Hc; apply andb_true_iff in Hc as [Hc1 Hc2];
  unfold callBaiduOcr, getBaiduAccessToken, callAliyunOcr, callWechatOcr;
  rewrite Hc1, Hc2; cbn [negb orb].

Section Adapters.

Variables (e : env) (image : json) (w : world).

(** *** On a response without text *)

Lemma callBaiduOcr_no_text (language : value) (token data : json) :
  configured baidu e = true ->
  answers w 0 token -> token <> JNull -> truthy (member token "error") = false ->
  converts_value (member token "access_token") = true ->
  request_builds baidu image language = true ->
  answers w 1 data -> data <> JNull ->
  truthy (member data "error_code") = false ->
  absent_or_empty_list (member data "words_result") = true ->
  exists t o,
    run w 0 (callBaiduOcr e image language) =
    ([EFetch t; EFetch o],
     Returned {| result_text := Some (JStr ""); result_provider := "baidu";
                 rawResult := data |}).
Proof.
  intros Hc Ht Htn Hte Hta Hb Hd Hdn Hde Hw.
  with_credentials Hc. granted Ht Htn Hte Hta. built Hb.
  answer Hd.
  rewrite !(get_prop_member data) by assumption. exec_step. rewrite Hde.
  exec_step.
  destruct (map_prop_join_empty "data.words_result" _ "words" Hw)
    as (l & Hl' & Hor).
  rewrite Hl'. exec_step. rewrite Hor. eauto.
Qed.

Lemma callAliyunOcr_no_text (data : json) :
  configured aliyun e = true ->
  answers w 0 data -> data <> JNull ->
  strict_eq_str (member data "Code") "200" = true ->
  absent_or_empty_text (get_prop_opt (member data "Data") "Content") = true ->
  exists o,
    run w 0 (callAliyunOcr e image) =
    ([EFetch o],
     Returned {| result_text := Some (JStr ""); result_provider := "aliyun";
                 rawResult := data |}).
Proof.
  intros Hc Hd Hdn Hcode Hcontent.
  with_credentials Hc.
  answer Hd.
  rewrite !(get_prop_member data) by assumption. exec_step. rewrite Hcode.
  cbn [negb]. exec_step.
  rewrite (or_else_empty_text _ Hcontent). eauto.
Qed.

Lemma callWechatOcr_no_text (token data : json) :
  configured wechat e = true ->
  answers w 0 token -> token <> JNull -> truthy (member token "errcode") = false ->
  converts_value (member token "access_token") = true ->
  answers w 1 data -> data <> JNull ->
  truthy (member data "errcode") = false ->
  absent_or_empty_list (member data "items") = true ->
  exists t o,
    run w 0 (callWechatOcr e image) =
    ([EFetch t; EFetch o],
     Returned {| result_text := Some (JStr ""); result_provider := "wechat";
                 rawResult := data |}).
Proof.
  intros Hc Ht Htn Hte Hta Hd Hdn Hde Hitems.
  with_credentials Hc. granted Ht Htn Hte Hta.
  answer Hd.
  rewrite !(get_prop_member data) by assumption. exec_step. rewrite Hde.
  exec_step.
  destruct (map_prop_join_empty "ocrData.items" _ "text" Hitems)
    as (l & Hl & Hor).
  rewrite Hl. exec_step. rewrite Hor. eauto.
Qed.

Lemma callGeminiOcr_no_text (prompt : value) (data : json) :
  configured gemini e = true ->
  answers w 0 data -> data <> JNull ->
  truthy (member data "error") = false ->
  text_field_absent_or_empty gemini data = true ->
  exists o,
    run w 0 (callGeminiOcr e image prompt) =
    ([EFetch o],
     Returned {| result_text := Some (JStr ""); result_provider := "gemini";
                 rawResult := data |}).
Proof.
  intros Hc Hd Hdn Herr Htext.
  unfold configured in Hc.
  unfold callGeminiOcr. rewrite Hc. cbn [negb].
  answer Hd.
  rewrite !(get_prop_member data) by assumption. exec_step. rewrite Herr.
  exec_step.
  fold (member data "candidates"). fold (gemini_text_path data).
  rewrite (gemini_text_default _ Htext). eauto.
Qed.

(** *** The token exchange *)





(** *** An adapter that ran shows *)

(** Every adapter either makes an outbound call or throws, in which
    case the dispatcher answers 500. *)
Lemma adapter_calls_or_throws (p : OcrProvider) (language prompt : value) :
  calls w (adapter p e image language prompt) <> []
  \/ exists err, result w (adapter p e image language prompt) = Thrown err.
Proof.
  unfold calls, result.
  destruct p; cbn [adapter];
    unfold callBaiduOcr, callAliyunOcr, callWechatOcr, callGeminiOcr,
      getBaiduAccessToken, fetch;
    match goal with
    | |- context [if ?c then Throw _ else _] => destruct c
    end;
    try (right; eexists; reflexivity);
    left; cbn [bind run];
    match goal with
    | |- context [run ?w ?n ?p] => destruct (run w n p)
    end; discriminate.
Qed.

End Adapters.

(** ** The dispatcher's switch *)

(** On a request that passes validation and names a supported provider,
    the dispatcher runs that provider's adapter and wraps what it did:
    the result in the success envelope, an exception in the 500
    envelope. *)
Lemma dispatcher_runs_adapter
    (p : OcrProvider) (e : env) (w : world)
    (fields : list (string * json)) (image : json) :
  lookup "provider" fields = Some (JStr (provider_name p)) ->
  lookup "imageBase64" fields = Some image ->
  truthy (Some image) = true ->
  gt_const (get_length image) max_encoded_length = false ->
  run w 0 (Dispatcher.handler e (post fields)) =
  match run w 0 (adapter p e image (lookup "language" fields)
                   (get_prop_opt (lookup "options" fields) "prompt")) with
  | (calls, Returned r) =>
      (calls,
       Returned (Dispatcher.respond 200
                   [("success", Some (JBool true));
                    ("data", Some (result_json r))]))
  | (calls, Thrown err) =>
      (calls,
       Returned (Dispatcher.respond 500
                   [("success", Some (JBool false));
                    ("error",
                     or_else (Some (JStr (message err)))
                             (Some (JStr "OCR处理失败")));
                    ("details",
                     if strict_eq_str (env_value (e "NODE_ENV")) "development"
                     then Some (JStr (stack err))
                     else undefined)]))
  end.
Proof.
  intros Hp Himage Htruthy Hsize.
  unfold Dispatcher.handler, post. cbn [req_method req_body].
  change (String.eqb "POST" "OPTIONS") with false.
  change (String.eqb "POST" "POST") with true.
  cbv zeta. cbn [negb truthy get_prop]. rewrite run_try_catch.
  exec_step. rewrite Hp.
  replace (truthy (Some (JStr (provider_name p)))) with true
    by (destruct p; reflexivity).
  cbn [negb]. exec_step. rewrite Himage, Htruthy, Hsize. cbn [negb].
  destruct p; cbn [provider_name adapter];
    repeat match goal with
           | |- context [strict_eq_str (Some (JStr ?a)) ?b] =>
               let v := eval vm_compute in (strict_eq_str (Some (JStr a)) b) in
               change (strict_eq_str (Some (JStr a)) b) with v
           end;
    cbv iota; exec_step; rewrite run_bind;
    match goal with
    | |- context [run w 0 ?a] => destruct (run w 0 a) as [calls [r | err]]
    end;
    cbn [run]; rewrite ?app_nil_r; reflexivity.
Qed.

(** ** Adapter results *)

(** C1, as amended.  Every provider adapter, on a recognition response
    that reports success (Baidu's [error_code], WeChat's [errcode] and
    Gemini's [error] unset; Aliyun's [Code] the string 200) and whose
    text-bearing field ([words_result], [Data.Content], [items], the
    [candidates] path) is absent or empty, returns a result whose text is
    the empty string: not [null], not [undefined].  The adapter gets to
    that response when its credentials are set, the token of Baidu and
    WeChat was granted with an access token that converts to a string, and
    Baidu's form body can be built from the payload and the language. *)
Theorem adapter_text_defaults_to_empty_string
    (p : OcrProvider) (e : env) (image : json) (language prompt : value)
    (w : world) (data : json) :
  configured p e = true ->
  token_granted p w ->
  request_builds p image language = true ->
  answers w (ocr_call_index p) data ->
  data <> JNull ->
  has_no_error_code p data = true ->
  text_field_absent_or_empty p data = true ->
  exists calls,
    run w 0 (adapter p e image language prompt) =
    (calls,
     Returned {| result_text := Some (JStr "");
                 result_provider := provider_name p;
                 rawResult := data |}).
Proof.
  intros Hc Ht Hb Hd Hdn Hne Hempty.
  destruct p; cbn in Ht, Hd, Hne, Hempty |- *.
  - destruct Ht as (token & Ht & Htn & Hte & Hta).
    apply negb_true_iff in Hne.
    destruct (callBaiduOcr_no_text e image w language token data)
      as (t & o & ->); eauto.
  - destruct (callAliyunOcr_no_text e image w data) as (o & ->); eauto.
  - destruct Ht as (token & Ht & Htn & Hte & Hta).
    apply negb_true_iff in Hne.
    destruct (callWechatOcr_no_text e image w token data)
      as (t & o & ->); eauto.
  - apply negb_true_iff in Hne.
    destruct (callGeminiOcr_no_text e image w prompt data) as (o & ->); eauto.
Qed.

Lemma no_text_world_answers (p : OcrProvider) :
  answers (no_text_world p) (ocr_call_index p) (no_text p).
Proof. destruct p; intros r; reflexivity. Qed.

Lemma no_text_world_token (p : OcrProvider) : token_granted p (no_text_world p).
Proof.
  destruct p; cbn; try exact I;
    (exists granted_token;
     split; [intros r; reflexivity
            | split; [discriminate | split; reflexivity]]).
Qed.

Lemma adapter_text_defaults_to_empty_string_witness :
  Forall
    (fun p =>
       exists calls,
         run (no_text_world p) 0
             (adapter p sample_env (JStr sample_image) undefined undefined) =
         (calls,
          Returned {| result_text := Some (JStr "");
                      result_provider := provider_name p;
                      rawResult := no_text p |}))
    [baidu; aliyun; wechat; gemini].
Proof.
  repeat constructor;
    match goal with
    | |- context [adapter ?p] =>
        apply (adapter_text_defaults_to_empty_string p sample_env
                 (JStr sample_image) undefined undefined
                 (no_text_world p) (no_text p));
        [ reflexivity
        | apply no_text_world_token
        | reflexivity
        | apply no_text_world_answers
        | discriminate
        | reflexivity
        | reflexivity ]
    end.
Defined.

(** C1, as stated, fails.  An Aliyun response without any [Code], whose
    [Data.Content] is the empty string, carries no error code and an empty
    text, and the adapter throws: only the string 200 passes its check.
    And Baidu's adapter, handed a payload with a lone surrogate, throws
    after the token call and never sees the vendor's empty response. *)
Lemma adapter_without_error_code_throws :
  member (JObj [("Data", JObj [("Content", JStr "")])]) "Code" = undefined
  /\ text_field_absent_or_empty aliyun
       (JObj [("Data", JObj [("Content", JStr "")])]) = true
  /\ result (scripted
               [json_reply (JObj [("Data", JObj [("Content", JStr "")])])] [])
            (adapter aliyun sample_env (JStr sample_image) undefined undefined)
     = Thrown (Error "阿里云OCR识别失败: undefined")
  /\ exists token_call,
       run (no_text_world baidu) 0
           (adapter baidu sample_env (JStr lone_surrogate) undefined undefined)
       = ([EFetch token_call], Thrown (URIError "URI malformed")).
Proof.
  split; [reflexivity | ]. split; [reflexivity | ].
  split; [vm_compute; reflexivity | ].
  eexists. vm_compute. reflexivity.
Qed.

(** C2, as amended.  The Gemini adapter, on a vendor response with no
    error field and an absent or empty candidates list, does not fail: after
    its one outbound call it returns a result whose text is the empty
    string, whose provider is gemini and whose raw payload is the
    response. *)
Theorem gemini_empty_candidates_returns_empty_text
    (e : env) (image : json) (prompt : value) (w : world) (data : json) :
  configured gemini e = true ->
  answers w 0 data ->
  data <> JNull ->
  truthy (member data "error") = false ->
  absent_or_empty_list (member data "candidates") = true ->
  exists request,
    run w 0 (callGeminiOcr e image prompt) =
    ([EFetch request],
     Returned {| result_text := Some (JStr "");
                 result_provider := "gemini";
                 rawResult := data |}).
Proof.
  intros Hc Hd Hdn Herr Hcand.
  apply callGeminiOcr_no_text; try assumption.
  unfold text_field_absent_or_empty. now rewrite Hcand.
Qed.

Lemma gemini_empty_candidates_returns_empty_text_witness :
  exists request,
    run (no_text_world gemini) 0
        (callGeminiOcr sample_env (JStr sample_image) undefined) =
    ([EFetch request],
     Returned {| result_text := Some (JStr "");
                 result_provider := "gemini";
                 rawResult := JObj [("candidates", JArr [])] |}).
Proof.
  apply (gemini_empty_candidates_returns_empty_text sample_env
           (JStr sample_image) undefined (no_text_world gemini)
           (JObj [("candidates", JArr [])])).
  - reflexivity.
  - intros r; reflexivity.
  - discriminate.
  - reflexivity.
  - reflexivity.
Defined.

(** C2, as stated, fails: with the key configured and the vendor
    answering with an empty [candidates] list and no [error],
    [callGeminiOcr] returns a result with the empty string as text; it
    does not throw. *)
Lemma gemini_empty_candidates_does_not_fail :
  result (no_text_world gemini)
         (callGeminiOcr sample_env (JStr sample_image) undefined)
  = Returned {| result_text := Some (JStr "");
                result_provider := "gemini";
                rawResult := JObj [("candidates", JArr [])] |}
  /\ ~ (exists err,
          result (no_text_world gemini)
                 (callGeminiOcr sample_env (JStr sample_image) undefined)
          = Thrown err).
Proof.
  split.
  - vm_compute. reflexivity.
  - intros [err H]. vm_compute in H. discriminate.
Qed.




(** ** The dispatcher's validation *)

(** C3.  A POST request whose [imageBase64] is a string of more than
    7 * 1024 * 1024 characters is answered 400 with [success: false], and no
    adapter is invoked: on such a request the handler's program is a bare
    return, so that in every world the trace of outbound calls is empty. *)
Theorem oversized_payload_rejected
    (e : env) (w : world) (fields : list (string * json)) (s : string) :
  lookup "imageBase64" fields = Some (JStr s) ->
  (7 * 1024 * 1024 < Z.of_nat (String.length s))%Z ->
  exists resp,
    Dispatcher.handler e (post fields) = Ret resp
    /\ run w 0 (Dispatcher.handler e (post fields)) = ([], Returned resp)
    /\ status resp = 400%Z
    /\ response_field resp "success" = Some (JBool false).
Proof.
  intros Himage Hlen.
  post_request Dispatcher.handler. cbn [get_prop].
  destruct (truthy (lookup "provider" fields)); cbn [negb]; exec_step.
  - rewrite Himage, nonempty_truthy by (intros ->; cbn in Hlen; lia).
    cbn [negb get_length].
    assert (gt_const (Some (JInt (Z.of_nat (String.length s))))
              max_encoded_length = true) as ->.
    { cbn. apply Z.ltb_lt. exact Hlen. }
    exec_step. eexists. repeat (split; [reflexivity | ]). reflexivity.
  - eexists. repeat (split; [reflexivity | ]). reflexivity.
Qed.

Lemma oversized_payload_rejected_witness :
  exists resp,
    Dispatcher.handler sample_env
      (post [("provider", JStr "baidu"); ("imageBase64", JStr oversized_image)])
    = Ret resp
    /\ run (scripted [] []) 0
           (Dispatcher.handler sample_env
              (post [("provider", JStr "baidu");
                     ("imageBase64", JStr oversized_image)]))
       = ([], Returned resp)
    /\ status resp = 400%Z
    /\ response_field resp "success" = Some (JBool false).
Proof.
  apply (oversized_payload_rejected sample_env (scripted [] [])
           [("provider", JStr "baidu"); ("imageBase64", JStr oversized_image)]
           oversized_image).
  - reflexivity.
  - unfold oversized_image. rewrite length_replicate, N_nat_Z. reflexivity.
Defined.

(** C5, as amended.  A POST request whose provider is present, converts
    to a string and is not one of baidu, aliyun, wechat, gemini, and whose
    image payload, where there is one, is a string, is answered 400 with
    [success: false], never 500, and without any outbound call (the
    handler's program is a bare return); when the payload is a non-empty
    string within the size limit, the error message names the unsupported
    provider value. *)
Theorem unsupported_provider_rejected
    (e : env) (w : world) (fields : list (string * json)) (provider : json) :
  lookup "provider" fields = Some provider ->
  truthy (Some provider) = true ->
  supported (Some provider) = false ->
  converts provider = true ->
  (forall image,
      lookup "imageBase64" fields = Some image -> exists s, image = JStr s) ->
  exists resp,
    Dispatcher.handler e (post fields) = Ret resp
    /\ run w 0 (Dispatcher.handler e (post fields)) = ([], Returned resp)
    /\ status resp = 400%Z
    /\ response_field resp "success" = Some (JBool false)
    /\ (forall s,
           lookup "imageBase64" fields = Some (JStr s) ->
           s <> "" ->
           (Z.of_nat (String.length s) <= 7 * 1024 * 1024)%Z ->
           exists msg,
             response_field resp "error" = Some (JStr msg)
             /\ msg = "不支持的OCR提供商: " ++ json_to_string provider
             /\ Contains msg (json_to_string provider)).
Proof.
  intros Hp Htruthy Hsup Hconv Hstring.
  unfold supported in Hsup. cbn [existsb] in Hsup.
  repeat (apply orb_false_iff in Hsup as [? Hsup]).
  post_request Dispatcher.handler. cbn [get_prop].
  rewrite Hp, Htruthy. cbn [negb]. exec_step.
  destruct (lookup "imageBase64" fields) as [image | ] eqn:Himage.
  - destruct (Hstring image eq_refl) as [s ->].
    destruct (truthy (Some (JStr s))) eqn:Ht; cbn [negb].
    + destruct (gt_const (get_length (JStr s)) max_encoded_length) eqn:Hgt.
      * exec_step. eexists. repeat (split; [reflexivity | ]).
        intros s' [= <-] _ Hlen. cbn in Hgt. apply Z.ltb_lt in Hgt. lia.
      * repeat match goal with H : strict_eq_str _ _ = false |- _ =>
                 rewrite H; clear H end.
        rewrite (ToString_converts (Some provider) Hconv). exec_step.
        eexists. repeat (split; [reflexivity | ]).
        intros s' _ _ _. eexists. split; [reflexivity | ].
        split; [reflexivity | ]. apply Contains_suffix.
    + exec_step. eexists. repeat (split; [reflexivity | ]).
      intros s' [= <-] Hne _. rewrite (nonempty_truthy _ Hne) in Ht.
      discriminate.
  - exec_step. eexists. repeat (split; [reflexivity | ]).
    intros s' [=].
Qed.

Lemma unsupported_provider_rejected_witness :
  exists resp,
    run (scripted [] []) 0
        (Dispatcher.handler sample_env
           (post [("provider", JStr "tesseract");
                  ("imageBase64", JStr sample_image)]))
    = ([], Returned resp)
    /\ status resp = 400%Z
    /\ response_field resp "success" = Some (JBool false)
    /\ response_field resp "error" = Some (JStr "不支持的OCR提供商: tesseract").
Proof.
  destruct (unsupported_provider_rejected sample_env (scripted [] [])
              [("provider", JStr "tesseract"); ("imageBase64", JStr sample_image)]
              (JStr "tesseract") eq_refl eq_refl eq_refl eq_refl)
    as (resp & _ & Hrun & Hstatus & Hsuccess & Hnamed).
  - intros image [= <-]. now exists sample_image.
  - destruct (Hnamed sample_image eq_refl) as (msg & Herror & Hmsg & _).
    + discriminate.
    + vm_compute. discriminate.
    + exists resp. rewrite Hmsg in Herror. repeat split; assumption.
Defined.

(** C5, as stated, fails, in two ways.  A POST request with the
    unsupported provider [tesseract] and no image payload is answered 400
    with the missing-parameter message, which does not contain the provider
    value.  And a request whose unsupported provider is an object with a
    [toString] member of its own, with a payload that passes the guards,
    is answered 500: writing the provider into the message throws, inside
    the [try]. *)
Lemma unsupported_provider_not_always_a_named_400 :
  (exists resp msg,
      run (scripted [] []) 0
          (Dispatcher.handler sample_env (post [("provider", JStr "tesseract")]))
      = ([], Returned resp)
      /\ status resp = 400%Z
      /\ response_field resp "error" = Some (JStr msg)
      /\ ~ Contains msg "tesseract")
  /\ (exists resp,
         truthy (Some unprintable) = true
         /\ supported (Some unprintable) = false
         /\ run (scripted [] []) 0
               (Dispatcher.handler sample_env
                  (post [("provider", unprintable);
                         ("imageBase64", JStr sample_image)]))
            = ([], Returned resp)
         /\ status resp = 500%Z).
Proof.
  split.
  - eexists. eexists. split; [vm_compute; reflexivity | ].
    split; [reflexivity | ]. split; [reflexivity | ].
    intros H. apply includes_Contains in H. vm_compute in H. discriminate.
  - eexists. split; [reflexivity | ]. split; [reflexivity | ].
    split; [vm_compute; reflexivity | ]. reflexivity.
Qed.

(** ** The prober *)




(** C10, as amended.  The prober, when the Baidu token exchange answers
    with an error field and an [error_description] that converts to a
    string, responds with the default status 200 and a body holding
    [success: false] and the vendor's [error_description]: not a 4xx or 5xx
    status. *)
Theorem prober_baidu_refusal_is_status_200
    (e : env) (w : world) (fields : list (string * json)) (data : json) :
  lookup "provider" fields = Some (JStr "baidu") ->
  configured baidu e = true ->
  answers w 0 data ->
  truthy (member data "error") = true ->
  converts_value (member data "error_description") = true ->
  exists token_call resp,
    run w 0 (Prober.handler e (post fields)) = ([EFetch token_call], Returned resp)
    /\ status resp = 200%Z
    /\ response_field resp "success" = Some (JBool false)
    /\ response_field resp "error"
       = Some (JStr ("百度OCR认证失败: "
                     ++ to_string (member data "error_description"))).
Proof.
  intros Hp Hc Hd Herr Hconv.
  pose proof (truthy_not_null _ _ Herr) as Hdn.
  unfold configured in Hc. cbn in Hc. apply andb_true_iff in Hc as [Hc1 Hc2].
  post_request Prober.handler.
  rewrite Hp. cbn [truthy is_empty negb]. rewrite ToString_string. exec_step.
  change (Prober.envVars e "baidu")
    with (Some [("apiKey", env_value (e "BAIDU_OCR_API_KEY"));
                ("secretKey", env_value (e "BAIDU_OCR_SECRET_KEY"))]).
  cbn [Prober.check_fields snd]. rewrite Hc1, Hc2. cbn [negb].
  change (strict_eq_str (Some (JStr "baidu")) "baidu") with true.
  answer Hd.
  rewrite !(get_prop_member data) by assumption. exec_step. rewrite Herr.
  exec_step. rewrite (ToString_converts _ Hconv). exec_step.
  eexists. eexists. repeat (split; [reflexivity | ]). reflexivity.
Qed.

Lemma prober_baidu_refusal_is_status_200_witness :
  exists token_call resp,
    run (scripted [json_reply refused_token_baidu] []) 0
        (Prober.handler sample_env (post [("provider", JStr "baidu")]))
    = ([EFetch token_call], Returned resp)
    /\ status resp = 200%Z
    /\ response_field resp "success" = Some (JBool false)
    /\ response_field resp "error"
       = Some (JStr "百度OCR认证失败: unknown client id").
Proof.
  exact (prober_baidu_refusal_is_status_200 sample_env
           (scripted [json_reply refused_token_baidu] [])
           [("provider", JStr "baidu")] refused_token_baidu
           eq_refl eq_refl (fun _ => eq_refl) eq_refl eq_refl).
Defined.

(** C10, as stated, fails: when the [error_description] of the refused
    token exchange is an object with a [toString] member of its own,
    writing it into the message throws inside the [try], and the prober
    answers 500. *)
Lemma prober_baidu_refusal_with_unprintable_description :
  exists token_call resp,
    truthy (member (JObj [("error", JStr "invalid_client");
                          ("error_description", unprintable)]) "error") = true
    /\ run (scripted [json_reply (JObj [("error", JStr "invalid_client");
                                        ("error_description", unprintable)])]
                     []) 0
           (Prober.handler sample_env (post [("provider", JStr "baidu")]))
       = ([EFetch token_call], Returned resp)
    /\ status resp = 500%Z.
Proof.
  eexists. eexists. split; [reflexivity | ].
  split; [vm_compute; reflexivity | ]. reflexivity.
Qed.

(** ** The analysis adapter *)

(** C6, as amended.  [parseTerminologyFromText] gives the input text no
    special treatment: for every input the model is called once, the empty
    list is returned whenever the body of the model's response is empty,
    and a body that parses is returned as parsed, empty list or not.  This
    holds of both variants.  The cloud-function variant, once a key is
    configured, never throws: it also returns the empty list when the call
    was rejected or the body does not parse. *)
Theorem parseTerminologyFromText_tolerates_empty_results
    (e : env) (c : CloudGeminiService.client_env) (rawText : string)
    (w : world) :
  (forall body,
      generates w 0 (inr (GenResponse body)) ->
      truthy (str_value body) = false ->
      exists g,
        run w 0 (GeminiService.parseTerminologyFromText e rawText)
        = ([EGenerate g], Returned (JArr [])))
  /\ (forall body terms,
         generates w 0 (inr (GenResponse (Some body))) ->
         JSON_parse body = inr terms ->
         exists g,
           run w 0 (GeminiService.parseTerminologyFromText e rawText)
           = ([EGenerate g], Returned terms))
  /\ (truthy (CloudGeminiService.getGeminiApiKey c) = true ->
      (exists g,
          run w 0 (CloudGeminiService.parseTerminologyFromText c rawText)
          = ([EGenerate g], Returned (terms_of_reply (llm w 0 g))))
      /\ (forall body terms,
             generates w 0 (inr (GenResponse (Some body))) ->
             JSON_parse body = inr terms ->
             exists g,
               run w 0 (CloudGeminiService.parseTerminologyFromText c rawText)
               = ([EGenerate g], Returned terms))).
Proof.
  split; [ | split].
  - intros body Hw Hbody. unfold GeminiService.parseTerminologyFromText.
    generate Hw. rewrite Hbody. cbn [negb]. exec_step. eauto.
  - intros body terms Hw Hparse.
    unfold GeminiService.parseTerminologyFromText.
    generate Hw. cbn [str_value]. rewrite (JSON_parse_nonempty _ _ Hparse).
    cbn [negb to_string json_to_string]. rewrite Hparse. exec_step. eauto.
  - intros Hkey. split.
    + unfold CloudGeminiService.parseTerminologyFromText.
      rewrite Hkey. cbn [negb]. unfold generateContent. exec_step.
      match goal with
      | |- context [llm w 0 ?g] =>
          exists g; destruct (llm w 0 g) as [err | [[[ | ch body] | ]]]
      end; exec_step; try reflexivity.
      cbn [str_value truthy is_empty negb to_string json_to_string
           terms_of_reply Eff.text].
      destruct (JSON_parse (String ch body)); reflexivity.
    + intros body terms Hw Hparse.
      unfold CloudGeminiService.parseTerminologyFromText.
      rewrite Hkey. cbn [negb].
      generate Hw. cbn [str_value]. rewrite (JSON_parse_nonempty _ _ Hparse).
      cbn [negb to_string json_to_string]. rewrite Hparse. exec_step. eauto.
Qed.

Lemma parseTerminologyFromText_tolerates_empty_results_witness :
  (exists g,
      run (scripted [] [inr (GenResponse None)]) 0
          (GeminiService.parseTerminologyFromText sample_env "")
      = ([EGenerate g], Returned (JArr [])))
  /\ (exists g,
         run (scripted [] [inr (GenResponse (Some sample_terms_text))]) 0
             (GeminiService.parseTerminologyFromText sample_env "")
         = ([EGenerate g], Returned sample_terms))
  /\ (exists g,
         run (scripted [] [inr (GenResponse (Some "not json"))]) 0
             (CloudGeminiService.parseTerminologyFromText sample_client "")
         = ([EGenerate g], Returned (JArr []))).
Proof.
  split; [ | split].
  - exact (proj1 (parseTerminologyFromText_tolerates_empty_results sample_env
                    sample_client ""
                    (scripted [] [inr (GenResponse None)]))
             None (fun _ => eq_refl) eq_refl).
  - apply (proj1 (proj2 (parseTerminologyFromText_tolerates_empty_results
                           sample_env sample_client ""
                           (scripted []
                              [inr (GenResponse (Some sample_terms_text))])))
             sample_terms_text sample_terms (fun _ => eq_refl)).
    vm_compute. reflexivity.
  - exact (proj1 (proj2 (proj2 (parseTerminologyFromText_tolerates_empty_results
                                  sample_env sample_client ""
                                  (scripted []
                                     [inr (GenResponse (Some "not json"))])))
                    eq_refl)).
Defined.

(** C6, as stated, fails: on the empty input text, with the model
    answering a one-entry term list, both variants return that list, which
    is not empty. *)
Lemma parseTerminologyFromText_empty_input_nonempty_list :
  result (scripted [] [inr (GenResponse (Some sample_terms_text))])
         (CloudGeminiService.parseTerminologyFromText sample_client "")
  = Returned sample_terms
  /\ result (scripted [] [inr (GenResponse (Some sample_terms_text))])
            (GeminiService.parseTerminologyFromText sample_env "")
     = Returned sample_terms
  /\ sample_terms <> JArr [].
Proof.
  split; [ | split].
  - vm_compute. reflexivity.
  - vm_compute. reflexivity.
  - discriminate.
Qed.

(** C9.  [analyzePosterImage], given a pre-extracted text and a model
    response that parses to an object whose top-level [text] is missing or
    empty, returns that object with [text] set to the pre-extracted text.
    (The text is supplied when it is a non-empty string: the guard is
    [preExtractedText && !parsed.text].) *)
Theorem analyzePosterImage_substitutes_pre_extracted_text
    (e : env) (image : string) (terminology : list GeminiService.SecurityTerm)
    (preExtractedText : string) (w : world) (resultText : string)
    (fields : list (string * json)) :
  preExtractedText <> "" ->
  generates w 0 (inr (GenResponse (Some resultText))) ->
  JSON_parse resultText = inr (JObj fields) ->
  truthy (lookup "text" fields) = false ->
  exists g r,
    run w 0 (GeminiService.analyzePosterImage e image terminology
               (Some preExtractedText))
    = ([EGenerate g], Returned r)
    /\ r = GeminiService.Plain
             (JObj (obj_set "text" (JStr preExtractedText) fields))
    /\ GeminiService.text_of r = Some (JStr preExtractedText).
Proof.
  intros Hpre Hw Hparse Htext.
  pose proof (nonempty_truthy _ Hpre) as Hp.
  assert (truthy (Some (JStr resultText)) = true) as Hr.
  { destruct resultText; [ | reflexivity]. vm_compute in Hparse. discriminate. }
  unfold GeminiService.analyzePosterImage. cbv zeta.
  generate Hw. cbn [str_value]. rewrite Hr.
  cbn [negb to_string json_to_string].
  rewrite Hparse. exec_step. rewrite Hp.
  change (get_prop (Some (JObj fields)) "text")
    with (@inr exn value (lookup "text" fields)).
  exec_step. rewrite Htext. cbn [negb GeminiService.assign_text]. exec_step.
  eexists. eexists. split; [reflexivity | ]. split; [reflexivity | ].
  cbn [GeminiService.text_of]. apply lookup_obj_set.
Qed.

Lemma analyzePosterImage_substitutes_pre_extracted_text_witness :
  exists g r,
    run (scripted [] [inr (GenResponse (Some sample_analysis_text))]) 0
        (GeminiService.analyzePosterImage sample_env sample_image []
           (Some "4K NVR"))
    = ([EGenerate g], Returned r)
    /\ r = GeminiService.Plain
             (JObj (obj_set "text" (JStr "4K NVR") sample_analysis))
    /\ GeminiService.text_of r = Some (JStr "4K NVR").
Proof.
  apply (analyzePosterImage_substitutes_pre_extracted_text sample_env
           sample_image [] "4K NVR"
           (scripted [] [inr (GenResponse (Some sample_analysis_text))])
           sample_analysis_text sample_analysis).
  - discriminate.
  - intros g; reflexivity.
  - vm_compute. reflexivity.
  - reflexivity.
Defined.

(** ** The facade *)

Import Facade.

Lemma local_message_not_network : local_message <> network_message.
Proof. discriminate. Qed.

Lemma local_message_not_failure (detail : string) :
  local_message <> failure_prefix ++ detail.
Proof. discriminate. Qed.

(** Whatever the facade throws once it has gone to the network carries
    one of the two network-side messages. *)
Lemma performCloudOcr_thrown_after_call p image language options w calls err :
  is_local p = false ->
  run w 0 (performCloudOcr p image language options) = (calls, Thrown err) ->
  message err = network_message
  \/ exists detail, message err = failure_prefix ++ detail.
Proof.
  intros Hp. unfold performCloudOcr. rewrite Hp.
  exec; intros H; injection H as _ <-;
    first [left; reflexivity | right; eexists; reflexivity].
Qed.

(** C8.  [performCloudOcr], called with provider LOCAL or ESEARCH, makes
    no outbound call (its program is a bare throw) and throws the error
    that sends the caller to the local service; that message is neither of
    the messages the facade gives to failures of the network path, for any
    provider and any world. *)
Theorem local_providers_are_a_caller_error
    (p : OCRProvider) (image : string) (language : option string)
    (options : value) (w : world) :
  p = LOCAL \/ p = ESEARCH ->
  performCloudOcr p image language options = Throw (Error local_message)
  /\ run w 0 (performCloudOcr p image language options)
     = ([], Thrown (Error local_message))
  /\ local_message <> network_message
  /\ (forall detail, local_message <> failure_prefix ++ detail)
  /\ (forall q image' language' options' w' calls err,
         is_local q = false ->
         run w' 0 (performCloudOcr q image' language' options')
         = (calls, Thrown err) ->
         message err <> local_message).
Proof.
  intros Hp. split; [ | split; [ | split; [ | split]]].
  - destruct Hp as [-> | ->]; reflexivity.
  - destruct Hp as [-> | ->]; reflexivity.
  - exact local_message_not_network.
  - exact local_message_not_failure.
  - intros q image' language' options' w' calls err Hq Hrun.
    destruct (performCloudOcr_thrown_after_call _ _ _ _ _ _ _ Hq Hrun)
      as [-> | [detail ->]]; intros H; symmetry in H.
    + now apply local_message_not_network in H.
    + now apply local_message_not_failure in H.
Qed.

Lemma local_providers_are_a_caller_error_witness :
  run (scripted [] []) 0 (performCloudOcr ESEARCH sample_image None undefined)
  = ([], Thrown (Error "本地OCR请直接调用本地服务，无需通过云函数")).
Proof.
  exact (proj1 (proj2 (local_providers_are_a_caller_error ESEARCH sample_image
                         None undefined (scripted [] []) (or_intror eq_refl)))).
Defined.

(* ================================================================= *)
(** * Further properties *)
(* ================================================================= *)

Import Cases.

(** ** The adapters *)

Lemma configured_false_guard (a b : bool) :
  a && b = false -> negb a || negb b = true.
Proof. destruct a, b; cbn; congruence. Qed.

(** X1.  An adapter whose credentials are not all set throws the
    configuration error that names its provider, and is a bare throw: it
    makes no outbound call.  Through the dispatcher, a request that passes
    validation then gets the 500 envelope with that message. *)
Theorem unconfigured_adapter_makes_no_call
    (p : OcrProvider) (e : env) (w : world)
    (fields : list (string * json)) (image : json) :
  configured p e = false ->
  (forall language prompt,
      adapter p e image language prompt = Throw (Error (config_message p)))
  /\ (lookup "provider" fields = Some (JStr (provider_name p)) ->
      lookup "imageBase64" fields = Some image ->
      truthy (Some image) = true ->
      gt_const (get_length image) max_encoded_length = false ->
      run w 0 (Dispatcher.handler e (post fields))
      = ([], Returned (failure_envelope e (Error (config_message p))))).
Proof.
  intros Hc.
  assert (forall language prompt,
             adapter p e image language prompt = Throw (Error (config_message p)))
    as Hthrow.
  { intros language prompt. unfold configured in Hc.
    destruct p; cbn [adapter config_message];
      unfold callBaiduOcr, callAliyunOcr, callWechatOcr, callGeminiOcr;
      try rewrite (configured_false_guard _ _ Hc); try reflexivity.
    rewrite Hc. reflexivity. }
  split; [exact Hthrow | ].
  intros Hp Himage Htruthy Hsize.
  rewrite (dispatcher_runs_adapter p e w fields image Hp Himage Htruthy Hsize).
  rewrite Hthrow. reflexivity.
Qed.

Lemma unconfigured_adapter_makes_no_call_witness :
  run (scripted [] []) 0
      (Dispatcher.handler (env_of [("ALIYUN_OCR_ACCESS_KEY_ID", "id")])
         (post [("provider", JStr "aliyun"); ("imageBase64", JStr sample_image)]))
  = ([], Returned (rejection_envelope 500 "阿里云OCR API密钥未配置")).
Proof.
  exact (proj2 (unconfigured_adapter_makes_no_call aliyun
                  (env_of [("ALIYUN_OCR_ACCESS_KEY_ID", "id")]) (scripted [] [])
                  [("provider", JStr "aliyun"); ("imageBase64", JStr sample_image)]
                  (JStr sample_image) eq_refl)
           eq_refl eq_refl eq_refl eq_refl).
Defined.

Section AdapterFailures.

Variables (e : env) (image : json) (w : world).

(** Close a goal on the error thrown for a diagnostic: the adapter's
    own when the diagnostic converts, the conversion's when not. *)
Ltac diagnosed v :=
  unfold ToString; destruct (converts_value v); exec_step;
  repeat eexists; discriminate.

Lemma callBaiduOcr_vendor_error (language : value) (token data : json) :
  configured baidu e = true ->
  answers w 0 token -> token <> JNull -> truthy (member token "error") = false ->
  converts_value (member token "access_token") = true ->
  request_builds baidu image language = true ->
  answers w 1 data ->
  truthy (member data "error_code") = true ->
  exists t o err,
    run w 0 (callBaiduOcr e image language) = ([EFetch t; EFetch o], Thrown err)
    /\ (converts_value (member data "error_msg") = true ->
        err = Error ("百度OCR识别失败: " ++ to_string (member data "error_msg"))).
Proof.
  intros Hc Ht Htn Hte Hta Hb Hd Hde.
  pose proof (truthy_not_null _ _ Hde) as Hdn.
  with_credentials Hc. granted Ht Htn Hte Hta. built Hb.
  answer Hd.
  rewrite !(get_prop_member data) by assumption. exec_step. rewrite Hde.
  exec_step. diagnosed (member data "error_msg").
Qed.

Lemma callAliyunOcr_vendor_error (data : json) :
  configured aliyun e = true ->
  answers w 0 data -> data <> JNull ->
  strict_eq_str (member data "Code") "200" = false ->
  exists o err,
    run w 0 (callAliyunOcr e image) = ([EFetch o], Thrown err)
    /\ (converts_value (member data "Message") = true ->
        err = Error ("阿里云OCR识别失败: " ++ to_string (member data "Message"))).
Proof.
  intros Hc Hd Hdn Hcode.
  with_credentials Hc.
  answer Hd.
  rewrite !(get_prop_member data) by assumption. exec_step. rewrite Hcode.
  cbn [negb]. exec_step. diagnosed (member data "Message").
Qed.

Lemma callWechatOcr_vendor_error (token data : json) :
  configured wechat e = true ->
  answers w 0 token -> token <> JNull -> truthy (member token "errcode") = false ->
  converts_value (member token "access_token") = true ->
  answers w 1 data ->
  truthy (member data "errcode") = true ->
  exists t o err,
    run w 0 (callWechatOcr e image) = ([EFetch t; EFetch o], Thrown err)
    /\ (converts_value (member data "errmsg") = true ->
        err = Error ("微信OCR识别失败: " ++ to_string (member data "errmsg"))).
Proof.
  intros Hc Ht Htn Hte Hta Hd Hde.
  pose proof (truthy_not_null _ _ Hde) as Hdn.
  with_credentials Hc. granted Ht Htn Hte Hta.
  answer Hd.
  rewrite !(get_prop_member data) by assumption. exec_step. rewrite Hde.
  exec_step. diagnosed (member data "errmsg").
Qed.

Lemma get_prop_truthy (v : value) (k : string) :
  truthy v = true -> get_prop v k = inr (get_prop_opt v k).
Proof. destruct v as [[ | | | | | ] | ]; cbn; intros H; congruence. Qed.

Lemma callGeminiOcr_vendor_error (prompt : value) (data : json) :
  configured gemini e = true ->
  answers w 0 data ->
  truthy (member data "error") = true ->
  exists o err,
    run w 0 (callGeminiOcr e image prompt) = ([EFetch o], Thrown err)
    /\ (converts_value (get_prop_opt (member data "error") "message") = true ->
        err = Error ("Gemini识别失败: "
                     ++ to_string (get_prop_opt (member data "error") "message"))).
Proof.
  intros Hc Hd Hde.
  pose proof (truthy_not_null _ _ Hde) as Hdn.
  unfold configured in Hc.
  unfold callGeminiOcr. rewrite Hc. cbn [negb].
  answer Hd.
  rewrite !(get_prop_member data) by assumption. exec_step. rewrite Hde.
  exec_step. rewrite (get_prop_truthy _ _ Hde). exec_step.
  diagnosed (get_prop_opt (member data "error") "message").
Qed.

End AdapterFailures.

(** X2.  When the vendor refuses the recognition call (Baidu's
    [error_code], WeChat's [errcode] or Gemini's [error] is set; Aliyun's
    [Code] is anything but the string 200), the adapter throws, having made
    the calls up to that one and no other; what it throws is the
    provider's recognition error with the vendor's diagnostic whenever
    that diagnostic converts to a string.  The adapter gets to the
    recognition call when the token was granted with an access token that
    converts and Baidu's form body can be built. *)
Theorem vendor_error_is_thrown
    (p : OcrProvider) (e : env) (image : json) (language prompt : value)
    (w : world) (data : json) :
  configured p e = true ->
  token_granted p w ->
  request_builds p image language = true ->
  answers w (ocr_call_index p) data ->
  data <> JNull ->
  has_no_error_code p data = false ->
  exists calls err,
    run w 0 (adapter p e image language prompt) = (calls, Thrown err)
    /\ List.length calls = S (ocr_call_index p)
    /\ (converts_value (vendor_diagnostic p data) = true ->
        err = Error (request_failure_prefix p
                     ++ to_string (vendor_diagnostic p data))).
Proof.
  intros Hc Ht Hb Hd Hdn Herr.
  destruct p; cbn in Ht, Hd, Herr |- *.
  - destruct Ht as (token & Ht & Htn & Hte & Hta).
    apply negb_false_iff in Herr.
    destruct (callBaiduOcr_vendor_error e image w language token data)
      as (t & o & err & -> & Hmsg); eauto.
  - destruct (callAliyunOcr_vendor_error e image w data)
      as (o & err & -> & Hmsg); eauto.
  - destruct Ht as (token & Ht & Htn & Hte & Hta).
    apply negb_false_iff in Herr.
    destruct (callWechatOcr_vendor_error e image w token data)
      as (t & o & err & -> & Hmsg); eauto.
  - apply negb_false_iff in Herr.
    destruct (callGeminiOcr_vendor_error e image w prompt data)
      as (o & err & -> & Hmsg); eauto.
Qed.

Lemma refused_world_token (p : OcrProvider) : token_granted p (refused_world p).
Proof.
  destruct p; cbn; try exact I;
    (exists granted_token;
     split; [intros r; reflexivity
            | split; [discriminate | split; reflexivity]]).
Qed.

Lemma vendor_error_is_thrown_witness :
  Forall
    (fun p =>
       exists calls,
         run (refused_world p) 0
             (adapter p sample_env (JStr sample_image) undefined undefined) =
         (calls,
          Thrown (Error (request_failure_prefix p
                         ++ to_string (vendor_diagnostic p (refused p)))))
         /\ List.length calls = S (ocr_call_index p))
    [baidu; aliyun; wechat; gemini].
Proof.
  repeat constructor;
    match goal with
    | |- context [adapter ?p] =>
        destruct (vendor_error_is_thrown p sample_env (JStr sample_image)
                    undefined undefined (refused_world p) (refused p))
          as (calls & err & Hrun & Hlen & Hmsg);
        [ reflexivity
        | apply refused_world_token
        | reflexivity
        | intros r; reflexivity
        | discriminate
        | reflexivity
        | exists calls; rewrite Hrun, (Hmsg eq_refl);
          split; [reflexivity | exact Hlen] ]
    end.
Defined.

(** ** Lines *)

Lemma map_prop_lines (k : string) (items : list json) (lines : list string) :
  Forall2 (fun item s => member item k = Some (JStr s)) items lines ->
  map_prop items k = inr (map (fun s => Some (JStr s)) lines).
Proof.
  induction 1 as [ | item s items lines Hitem _ IH]; [reflexivity | ].
  cbn [map_prop map].
  rewrite get_prop_member by (intros ->; discriminate).
  now rewrite Hitem, IH.
Qed.

Lemma join_strings (sep : string) (lines : list string) :
  join sep (map (fun s => Some (JStr s)) lines) = inr (String.concat sep lines).
Proof.
  unfold join, joined.
  replace (forallb converts_value (map (fun s => Some (JStr s)) lines))
    with true by (induction lines; cbn; congruence).
  rewrite map_map. cbn [json_to_string]. now rewrite map_id.
Qed.

Lemma or_else_string (s : string) :
  or_else (Some (JStr s)) (Some (JStr "")) = Some (JStr s).
Proof. destruct s; reflexivity. Qed.

Lemma map_prop_join_lines (name k : string) (items : list json)
    (lines : list string) :
  Forall2 (fun item s => member item k = Some (JStr s)) items lines ->
  exists text,
    map_prop_join name (Some (JArr items)) k = inr text
    /\ or_else text (Some (JStr "")) = Some (JStr (String.concat nl lines)).
Proof.
  intros H. cbn [map_prop_join]. rewrite (map_prop_lines _ _ _ H).
  rewrite join_strings. eexists. split; [reflexivity | ]. apply or_else_string.
Qed.

(** X3.  Baidu and WeChat answer line by line: when the recognition
    response holds a list of lines, each with a string as its text, the
    adapter's text is those strings in order, joined by line feeds.  The
    adapter gets to that response when the token was granted with an
    access token that converts and Baidu's form body can be built. *)
Theorem recognised_lines_are_joined
    (p : OcrProvider) (e : env) (image : json) (language prompt : value)
    (w : world) (data : json) (items : list json) (lines : list string) :
  uses_token_exchange p = true ->
  configured p e = true ->
  token_granted p w ->
  request_builds p image language = true ->
  answers w 1 data ->
  has_no_error_code p data = true ->
  member data (lines_field p) = Some (JArr items) ->
  Forall2 (fun item s => member item (line_key p) = Some (JStr s)) items lines ->
  exists calls,
    run w 0 (adapter p e image language prompt) =
    (calls,
     Returned {| result_text := Some (JStr (String.concat nl lines));
                 result_provider := provider_name p;
                 Dispatcher.rawResult := data |}).
Proof.
  intros Hp Hc Ht Hb Hd Herr Hitems Hlines.
  assert (data <> JNull) as Hdn by (intros ->; discriminate).
  destruct p; try discriminate;
    unfold token_granted in Ht;
    cbn [uses_token_exchange token_error_field has_no_error_code lines_field
         line_key adapter provider_name] in *;
    destruct Ht as (token & Ht & Htn & Hte & Hta);
    apply negb_true_iff in Herr.
  - with_credentials Hc. granted Ht Htn Hte Hta. built Hb.
    answer Hd.
    rewrite !(get_prop_member data) by assumption. exec_step. rewrite Herr.
    exec_step. rewrite Hitems.
    destruct (map_prop_join_lines "data.words_result" _ _ _ Hlines)
      as (text & Htext & Hor).
    rewrite Htext. exec_step. rewrite Hor. eauto.
  - with_credentials Hc. granted Ht Htn Hte Hta.
    answer Hd.
    rewrite !(get_prop_member data) by assumption. exec_step. rewrite Herr.
    exec_step. rewrite Hitems.
    destruct (map_prop_join_lines "ocrData.items" _ _ _ Hlines)
      as (text & Htext & Hor).
    rewrite Htext. exec_step. rewrite Hor. eauto.
Qed.

Lemma lines_response_lines (p : OcrProvider) (lines : list string) :
  Forall2 (fun item s => member item (line_key p) = Some (JStr s))
    (map (fun s => JObj [(line_key p, JStr s)]) lines) lines.
Proof.
  induction lines as [ | s lines IH]; constructor; [ | exact IH].
  cbn. now rewrite String.eqb_refl.
Qed.

Lemma recognised_lines_are_joined_witness :
  exists calls,
    run (scripted [json_reply granted_token;
                   json_reply (lines_response wechat ["IP67"; "4K NVR"])] []) 0
        (adapter wechat sample_env (JStr sample_image) undefined undefined) =
    (calls,
     Returned {| result_text := Some (JStr ("IP67" ++ nl ++ "4K NVR"));
                 result_provider := "wechat";
                 Dispatcher.rawResult := lines_response wechat ["IP67"; "4K NVR"] |}).
Proof.
  apply (recognised_lines_are_joined wechat sample_env (JStr sample_image)
           undefined undefined
           (scripted [json_reply granted_token;
                      json_reply (lines_response wechat ["IP67"; "4K NVR"])] [])
           (lines_response wechat ["IP67"; "4K NVR"])
           (map (fun s => JObj [(line_key wechat, JStr s)]) ["IP67"; "4K NVR"])
           ["IP67"; "4K NVR"]).
  - reflexivity.
  - reflexivity.
  - exists granted_token.
    split; [intros r; reflexivity
           | split; [discriminate | split; reflexivity]].
  - reflexivity.
  - intros r; reflexivity.
  - reflexivity.
  - reflexivity.
  - apply lines_response_lines.
Defined.

(** ** Calls *)

(** Use the rejection the world is known to give to the next call. *)
Ltac reject H :=
  unfold fetch, response_json; exec_step;
  match goal with
  | |- context [net ?w ?n ?r] => rewrite (H r)
  end;
  exec_step.

(** X4.  After a granted token exchange Baidu's and WeChat's adapter
    write the [access_token] of the token response into the address of the
    recognition call.  When that member converts to a string, [undefined]
    included, and Baidu's form body can be built, the second call is a
    POST to the recognition address with the token's text appended, and
    these two are all the calls, however the second one ends.  When the
    member does not convert, or the form body cannot be built, the
    adapter throws after the token call and makes no second call. *)
Theorem access_token_is_passed_on
    (p : OcrProvider) (e : env) (image : json) (language prompt : value)
    (w : world) (token : json) :
  uses_token_exchange p = true ->
  configured p e = true ->
  answers w 0 token ->
  token <> JNull ->
  truthy (member token (token_error_field p)) = false ->
  (converts_value (member token "access_token") = true ->
   request_builds p image language = true ->
   exists token_call ocr_call,
     calls w (adapter p e image language prompt)
     = [EFetch token_call; EFetch ocr_call]
     /\ url ocr_call
        = ocr_url_prefix p ++ to_string (member token "access_token")
     /\ method ocr_call = "POST")
  /\ (converts_value (member token "access_token") = false
      \/ request_builds p image language = false ->
      exists token_call err,
        run w 0 (adapter p e image language prompt)
        = ([EFetch token_call], Thrown err)).
Proof.
  intros Hp Hc Ht Htn Hte. split.
  - intros Hta Hb. unfold calls.
    destruct p; try discriminate;
      cbn [token_error_field adapter ocr_url_prefix] in *.
    + with_credentials Hc. granted Ht Htn Hte Hta. built Hb.
      exec; do 2 eexists; repeat split; reflexivity.
    + with_credentials Hc. granted Ht Htn Hte Hta.
      exec; do 2 eexists; repeat split; reflexivity.
  - intros Hfail.
    destruct (converts_value (member token "access_token")) eqn:Hta.
    + destruct Hfail as [Hfail | Hb]; [discriminate | ].
      destruct p; try discriminate; cbn [token_error_field adapter] in *.
      with_credentials Hc. granted Ht Htn Hte Hta.
      unfold request_builds in Hb. unfold encodeURIComponent, ToString.
      cbn [converts_value to_string].
      destruct (converts image); [ | exec_step; eauto].
      destruct (well_formed (json_to_string image)); [ | exec_step; eauto].
      exec_step.
      destruct language as [l | ]; cbn [converts_value andb] in Hb |- *;
        [ | discriminate].
      rewrite Hb. exec_step. eauto.
    + destruct p; try discriminate; cbn [token_error_field adapter] in *.
      * with_credentials Hc. answer Ht.
        rewrite !(get_prop_member _ _ Htn). exec_step. rewrite Hte.
        exec_step. rewrite (ToString_fails _ Hta). exec_step. eauto.
      * with_credentials Hc. answer Ht.
        rewrite !(get_prop_member _ _ Htn). exec_step. rewrite Hte.
        exec_step. rewrite (ToString_fails _ Hta). exec_step. eauto.
Qed.

Lemma access_token_is_passed_on_witness :
  (exists token_call ocr_call,
      calls (scripted [json_reply granted_token] [])
            (adapter baidu sample_env (JStr sample_image) undefined undefined)
      = [EFetch token_call; EFetch ocr_call]
      /\ url ocr_call
         = "https://aip.baidubce.com/rest/2.0/ocr/v1/general_basic?access_token=T0"
      /\ method ocr_call = "POST")
  /\ (exists token_call err,
         run (scripted [json_reply granted_token] []) 0
             (adapter baidu sample_env (JStr lone_surrogate) undefined undefined)
         = ([EFetch token_call], Thrown err)).
Proof.
  split.
  - exact (proj1 (access_token_is_passed_on baidu sample_env
                    (JStr sample_image) undefined undefined
                    (scripted [json_reply granted_token] [])
                    granted_token eq_refl eq_refl (fun _ => eq_refl)
                    ltac:(discriminate) eq_refl)
             eq_refl eq_refl).
  - exact (proj2 (access_token_is_passed_on baidu sample_env
                    (JStr lone_surrogate) undefined undefined
                    (scripted [json_reply granted_token] [])
                    granted_token eq_refl eq_refl (fun _ => eq_refl)
                    ltac:(discriminate) eq_refl)
             (or_intror eq_refl)).
Defined.

(** X5.  A rejected outbound call ends the adapter: the rejection is
    thrown as it came and no further call is made, be it the first call
    or, after a granted token and with the recognition request built, the
    recognition call of Baidu and WeChat. *)
Theorem transport_failure_is_terminal
    (p : OcrProvider) (e : env) (image : json) (language prompt : value)
    (w : world) (err : exn) :
  configured p e = true ->
  (rejects w 0 err ->
   exists call,
     run w 0 (adapter p e image language prompt) = ([EFetch call], Thrown err))
  /\ (uses_token_exchange p = true ->
      token_granted p w ->
      request_builds p image language = true ->
      rejects w 1 err ->
      exists token_call ocr_call,
        run w 0 (adapter p e image language prompt)
        = ([EFetch token_call; EFetch ocr_call], Thrown err)).
Proof.
  intros Hc. split.
  - intros Hrej. unfold configured in Hc.
    destruct p; cbn [adapter];
      unfold callBaiduOcr, getBaiduAccessToken, callAliyunOcr, callWechatOcr,
        callGeminiOcr;
      try (apply andb_true_iff in Hc as [Hc1 Hc2]; rewrite Hc1, Hc2);
      try rewrite Hc; cbn [negb orb]; reject Hrej; eauto.
  - intros Hp Ht Hb Hrej.
    destruct p; try discriminate; unfold token_granted in Ht;
      cbn [uses_token_exchange token_error_field adapter] in *;
      destruct Ht as (token & Ht & Htn & Hte & Hta).
    + with_credentials Hc. granted Ht Htn Hte Hta. built Hb.
      reject Hrej. eauto.
    + with_credentials Hc. granted Ht Htn Hte Hta.
      reject Hrej. eauto.
Qed.

Lemma transport_failure_is_terminal_witness :
  (exists call,
      run (scripted [] []) 0
          (adapter gemini sample_env (JStr sample_image) undefined undefined)
      = ([EFetch call], Thrown (TypeError "fetch failed")))
  /\ (exists token_call ocr_call,
         run (scripted [json_reply granted_token] []) 0
             (adapter wechat sample_env (JStr sample_image) undefined undefined)
         = ([EFetch token_call; EFetch ocr_call],
            Thrown (TypeError "fetch failed"))).
Proof.
  split.
  - exact (proj1 (transport_failure_is_terminal gemini sample_env
                    (JStr sample_image) undefined undefined (scripted [] [])
                    (TypeError "fetch failed") eq_refl)
             (fun _ => eq_refl)).
  - refine (proj2 (transport_failure_is_terminal wechat sample_env
                     (JStr sample_image) undefined undefined
                     (scripted [json_reply granted_token] [])
                     (TypeError "fetch failed") eq_refl)
              eq_refl _ eq_refl (fun _ => eq_refl)).
    exists granted_token.
    split; [intros r; reflexivity
           | split; [discriminate | split; reflexivity]].
Defined.

Section CallBounds.

Variables (e : env) (image : json) (w : world).

Lemma callBaiduOcr_calls (language : value) :
  (List.length (calls w (callBaiduOcr e image language)) <= 2)%nat.
Proof.
  unfold calls, callBaiduOcr, getBaiduAccessToken. exec; cbn; lia.
Qed.

Lemma callAliyunOcr_calls :
  (List.length (calls w (callAliyunOcr e image)) <= 1)%nat.
Proof. unfold calls, callAliyunOcr. exec; cbn; lia. Qed.

Lemma callWechatOcr_calls :
  (List.length (calls w (callWechatOcr e image)) <= 2)%nat.
Proof. unfold calls, callWechatOcr. exec; cbn; lia. Qed.

Lemma callGeminiOcr_calls (prompt : value) :
  (List.length (calls w (callGeminiOcr e image prompt)) <= 1)%nat.
Proof. unfold calls, callGeminiOcr. exec; cbn; lia. Qed.

End CallBounds.

(** X6.  No adapter retries or fans out: in every world, whatever the
    vendor answers, Baidu's and WeChat's adapters make at most two outbound
    calls and Aliyun's and Gemini's at most one. *)
Theorem adapter_call_bound
    (p : OcrProvider) (e : env) (image : json) (language prompt : value)
    (w : world) :
  (List.length (calls w (adapter p e image language prompt))
   <= S (ocr_call_index p))%nat.
Proof.
  destruct p; cbn [adapter ocr_call_index uses_token_exchange].
  - apply callBaiduOcr_calls.
  - apply callAliyunOcr_calls.
  - apply callWechatOcr_calls.
  - apply callGeminiOcr_calls.
Qed.

(** ** The dispatcher's answers *)

(** Close a goal stating what a finished run returned. *)
Ltac responded c :=
  cbn [run app Nat.add List.length];
  do 2 eexists; split; [reflexivity | split; [apply c | cbn; lia]].

(** Run the adapter the dispatcher has chosen, whose calls [bound]
    bounds. *)
Ltac run_adapter bound :=
  rewrite run_bind;
  let Hn := fresh "Hn" in
  pose proof bound as Hn; unfold calls in Hn;
  match goal with
  | |- context [run ?w 0 ?p] =>
      match type of Hn with
      | context [run w 0 p] =>
          destruct (run w 0 p) as [cs [r | err]]; cbn [fst] in Hn
      end
  end;
  cbn [run app Nat.add];
  do 2 eexists;
  (split; [reflexivity | split; [ | rewrite ?app_nil_r; lia]]);
  [apply answer_success | apply answer_failure].

Lemma dispatcher_envelope (e : env) (w : world) (request : http_request) :
  exists calls resp,
    run w 0 (Dispatcher.handler e request) = (calls, Returned resp)
    /\ dispatcher_response e resp
    /\ (List.length calls <= 2)%nat.
Proof.
  unfold Dispatcher.handler.
  destruct (String.eqb (req_method request) "OPTIONS").
  { responded answer_options. }
  destruct (String.eqb (req_method request) "POST"); cbn [negb].
  2: { responded answer_method. }
  rewrite run_try_catch.
  destruct (truthy (req_body request)) eqn:Hb; cbn [negb].
  2: { responded answer_invalid. }
  rewrite !(get_prop_truthy _ _ Hb). exec_step.
  destruct (truthy (get_prop_opt (req_body request) "provider")); cbn [negb].
  2: { responded answer_invalid. }
  destruct (get_prop_opt (req_body request) "imageBase64") as [image | ].
  2: { responded answer_invalid. }
  destruct (truthy (Some image)); cbn [negb].
  2: { responded answer_invalid. }
  destruct (gt_const (get_length image) max_encoded_length).
  { responded answer_invalid. }
  destruct (strict_eq_str _ "baidu").
  { exec_step. run_adapter (callBaiduOcr_calls e image w
                              (get_prop_opt (req_body request) "language")). }
  destruct (strict_eq_str _ "aliyun").
  { run_adapter (callAliyunOcr_calls e image w). }
  destruct (strict_eq_str _ "wechat").
  { run_adapter (callWechatOcr_calls e image w). }
  destruct (strict_eq_str _ "gemini").
  { exec_step.
    run_adapter (callGeminiOcr_calls e image w
                   (get_prop_opt (get_prop_opt (req_body request) "options")
                                 "prompt")). }
  unfold ToString.
  destruct (converts_value (get_prop_opt (req_body request) "provider"));
    exec_step; [responded answer_invalid | responded answer_failure].
Qed.

(** X7.  The dispatcher answers every request in every world: its handler
    never throws, it returns a response with status 200, 400, 405 or 500
    carrying the cross-origin headers, and it makes at most two outbound
    calls on the way. *)
Theorem dispatcher_always_responds
    (e : env) (w : world) (request : http_request) :
  exists calls resp,
    run w 0 (Dispatcher.handler e request) = (calls, Returned resp)
    /\ In (status resp) [200; 400; 405; 500]%Z
    /\ resp_headers resp = Dispatcher.cors_headers
    /\ (List.length calls <= 2)%nat.
Proof.
  destruct (dispatcher_envelope e w request) as (cs & resp & Hrun & Hresp & Hn).
  exists cs, resp. split; [exact Hrun | ].
  destruct Hresp; cbn; intuition.
Qed.

(** X8.  The [details] of a response, the stack of the caught error, are
    given only in development: when [NODE_ENV] is anything else no
    response of the dispatcher has a [details] member. *)
Theorem details_only_in_development
    (e : env) (w : world) (request : http_request) :
  strict_eq_str (env_value (e "NODE_ENV")) "development" = false ->
  exists calls resp,
    run w 0 (Dispatcher.handler e request) = (calls, Returned resp)
    /\ response_field resp "details" = undefined.
Proof.
  intros Hdev.
  destruct (dispatcher_envelope e w request) as (cs & resp & Hrun & Hresp & _).
  exists cs, resp. split; [exact Hrun | ].
  destruct Hresp as [ | | msg | r | err]; try reflexivity.
  unfold failure_envelope, or_else. rewrite Hdev.
  destruct (truthy (Some (JStr (message err)))); reflexivity.
Qed.

Lemma details_only_in_development_witness :
  exists calls resp,
    run (scripted [] []) 0
        (Dispatcher.handler (env_of [])
           (post [("provider", JStr "gemini");
                  ("imageBase64", JStr sample_image)]))
    = (calls, Returned resp)
    /\ response_field resp "details" = undefined.
Proof.
  exact (details_only_in_development (env_of []) (scripted [] []) _ eq_refl).
Defined.

(** X9.  A POST whose body is missing or null, or has no truthy
    [provider], or no truthy [imageBase64], is answered with status 400
    and the missing-parameters message before anything else happens. *)
Theorem missing_parameters_rejected (e : env) (body : value) :
  truthy body = false
  \/ truthy (get_prop_opt body "provider") = false
  \/ truthy (get_prop_opt body "imageBase64") = false ->
  Dispatcher.handler e (HttpRequest "POST" body)
  = Ret (rejection_envelope 400 "缺少必要参数: provider 和 imageBase64").
Proof.
  intros H. unfold Dispatcher.handler. cbn [req_method req_body String.eqb].
  change ("POST" =? "OPTIONS") with false.
  change ("POST" =? "POST") with true. cbn [negb].
  destruct (truthy body) eqn:Hb; cbn [negb]; [ | reflexivity].
  rewrite !(get_prop_truthy _ _ Hb). exec_step.
  destruct (truthy (get_prop_opt body "provider")) eqn:Hp; cbn [negb];
    [ | reflexivity].
  destruct (get_prop_opt body "imageBase64") as [image | ]; [ | reflexivity].
  destruct (truthy (Some image)) eqn:Hi; cbn [negb]; [ | reflexivity].
  destruct H as [H | [H | H]]; discriminate.
Qed.

Lemma missing_parameters_rejected_witness :
  Dispatcher.handler sample_env
    (HttpRequest "POST"
       (Some (JObj [("provider", JStr "baidu"); ("imageBase64", JStr "")])))
  = Ret (rejection_envelope 400 "缺少必要参数: provider 和 imageBase64").
Proof.
  apply missing_parameters_rejected. right; right; reflexivity.
Defined.

(** ** The prober's answers *)

(** X10.  The prober answers every request in every world: its handler
    never throws, it returns a response with status 200, 400, 405 or 500
    carrying the cross-origin headers, and it makes at most one outbound
    call, and that one only when the provider asked about is the string
    [baidu]. *)
Theorem prober_always_responds
    (e : env) (w : world) (request : http_request) :
  exists calls resp,
    run w 0 (Prober.handler e request) = (calls, Returned resp)
    /\ In (status resp) [200; 400; 405; 500]%Z
    /\ resp_headers resp = Prober.cors_headers
    /\ (List.length calls <= 1)%nat
    /\ (calls <> [] ->
        strict_eq_str (get_prop_opt (req_body request) "provider") "baidu"
        = true).
Proof.
  assert (forall (c : Z) (props : list (string * value)),
             In c [200; 400; 405; 500]%Z ->
             exists calls resp,
               (@nil event, Returned (Prober.respond c props))
               = (calls, Returned resp)
               /\ In (status resp) [200; 400; 405; 500]%Z
               /\ resp_headers resp = Prober.cors_headers
               /\ (List.length calls <= 1)%nat
               /\ (calls <> [] ->
                   strict_eq_str (get_prop_opt (req_body request) "provider")
                                 "baidu" = true)) as Hbare.
  { intros c props Hc. do 2 eexists. split; [reflexivity | ].
    cbn [status resp_headers Prober.respond List.length].
    split; [exact Hc | split; [reflexivity | split; [lia | congruence]]]. }
  unfold Prober.handler.
  destruct (String.eqb (req_method request) "OPTIONS").
  { do 2 eexists. split; [reflexivity | ]. cbn.
    split; [tauto | split; [reflexivity | split; [lia | congruence]]]. }
  destruct (String.eqb (req_method request) "POST"); cbn [negb].
  2: { apply Hbare. cbn. tauto. }
  cbv zeta.
  destruct (truthy (req_body request)) eqn:Hb; cbn [negb].
  2: { exec_step. apply Hbare. cbn. tauto. }
  rewrite !(get_prop_truthy _ _ Hb). exec_step.
  destruct (truthy (get_prop_opt (req_body request) "provider")); cbn [negb].
  2: { exec_step. apply Hbare. cbn. tauto. }
  unfold ToString.
  destruct (converts_value (get_prop_opt (req_body request) "provider"));
    exec_step.
  2: { apply Hbare. cbn. tauto. }
  destruct (Prober.envVars e _) as [providerVars | ].
  2: { exec_step. apply Hbare. cbn. tauto. }
  destruct (Prober.check_fields providerVars (true, [])) as [[ | ] missingFields];
    cbn [negb].
  2: { exec_step. apply Hbare. cbn. tauto. }
  destruct (strict_eq_str _ "baidu") eqn:Hbaidu.
  2: { exec_step. apply Hbare. cbn. tauto. }
  exec; do 2 eexists; (split; [reflexivity | ]);
    cbn [status resp_headers Prober.respond List.length Prober.default_status];
    (split; [cbn; tauto | split; [reflexivity | split; [lia | reflexivity]]]).
Qed.

(** X11.  Asked about a name that is none of the four providers, the
    prober makes no call and answers 500 with [success: false], unless the
    name is a member every object has, such as [toString]: then it finds
    no unset field and reports the provider as configured. *)
Theorem prober_unknown_provider_answer
    (e : env) (w : world) (fields : list (string * json)) (name : string) :
  lookup "provider" fields = Some (JStr name) ->
  name <> "" ->
  supported (Some (JStr name)) = false ->
  exists resp,
    run w 0 (Prober.handler e (post fields)) = ([], Returned resp)
    /\ if existsb (String.eqb name) Prober.object_prototype_members
       then status resp = 200%Z
            /\ response_field resp "success" = Some (JBool true)
            /\ response_field resp "configured" = Some (JBool true)
       else status resp = 500%Z
            /\ response_field resp "success" = Some (JBool false).
Proof.
  intros Hp Hne Hs.
  assert (truthy (Some (JStr name)) = true) as Hname
      by (destruct name; [now elim Hne | reflexivity]).
  unfold supported in Hs. cbn [existsb strict_eq_str] in Hs.
  apply orb_false_iff in Hs as [Hb Hs]. apply orb_false_iff in Hs as [Ha Hs].
  apply orb_false_iff in Hs as [Hw Hs]. apply orb_false_iff in Hs as [Hg _].
  post_request Prober.handler.
  rewrite Hp, Hname. cbn [negb]. rewrite ToString_string. exec_step.
  unfold Prober.envVars.
  rewrite Hb, Ha, Hw, Hg.
  destruct (existsb (String.eqb name) Prober.object_prototype_members).
  - cbn [Prober.check_fields negb strict_eq_str]. rewrite Hb. exec_step.
    eexists. split; [reflexivity | ]. repeat split.
  - exec_step. eexists. split; [reflexivity | ]. repeat split.
Qed.

Lemma prober_unknown_provider_answer_witness :
  (exists resp,
      run (scripted [] []) 0
          (Prober.handler sample_env (post [("provider", JStr "tencent")]))
      = ([], Returned resp)
      /\ status resp = 500%Z
      /\ response_field resp "success" = Some (JBool false))
  /\ (exists resp,
         run (scripted [] []) 0
             (Prober.handler sample_env (post [("provider", JStr "toString")]))
         = ([], Returned resp)
         /\ status resp = 200%Z
         /\ response_field resp "success" = Some (JBool true)
         /\ response_field resp "configured" = Some (JBool true)).
Proof.
  split.
  - exact (prober_unknown_provider_answer sample_env (scripted [] [])
             [("provider", JStr "tencent")] "tencent" eq_refl
             ltac:(discriminate) eq_refl).
  - exact (prober_unknown_provider_answer sample_env (scripted [] [])
             [("provider", JStr "toString")] "toString" eq_refl
             ltac:(discriminate) eq_refl).
Defined.

(** X12.  With both Baidu credentials set, the prober's one call is a
    POST to the token address carrying the two credentials; when the
    answer has no truthy [error] the prober answers 200 with
    [success: true] and passes the token's [expires_in] on as
    [expiresIn]. *)
Theorem prober_baidu_granted
    (e : env) (w : world) (fields : list (string * json)) (data : json) :
  lookup "provider" fields = Some (JStr "baidu") ->
  configured baidu e = true ->
  answers w 0 data ->
  data <> JNull ->
  truthy (member data "error") = false ->
  exists resp,
    run w 0 (Prober.handler e (post fields))
    = ([EFetch
          (Request
             ("https://aip.baidubce.com/oauth/2.0/token?grant_type=client_credentials&client_id="
              ++ to_string (env_value (e "BAIDU_OCR_API_KEY"))
              ++ "&client_secret="
              ++ to_string (env_value (e "BAIDU_OCR_SECRET_KEY")))
             "POST" [] None)],
       Returned resp)
    /\ status resp = 200%Z
    /\ response_field resp "success" = Some (JBool true)
    /\ response_field resp "expiresIn" = member data "expires_in".
Proof.
  intros Hp Hc Hd Hdn Herr.
  unfold configured in Hc. cbn in Hc. apply andb_true_iff in Hc as [Hc1 Hc2].
  post_request Prober.handler.
  rewrite Hp. cbn [truthy is_empty negb]. rewrite ToString_string. exec_step.
  change (Prober.envVars e "baidu")
    with (Some [("apiKey", env_value (e "BAIDU_OCR_API_KEY"));
                ("secretKey", env_value (e "BAIDU_OCR_SECRET_KEY"))]).
  cbn [Prober.check_fields snd]. rewrite Hc1, Hc2. cbn [negb].
  change (strict_eq_str (Some (JStr "baidu")) "baidu") with true.
  answer Hd.
  rewrite !(get_prop_member data) by assumption. exec_step. rewrite Herr.
  exec_step. eexists. split; [reflexivity | ].
  split; [reflexivity | ]. split; [reflexivity | ].
  unfold response_field, Prober.respond. cbn [resp_body].
  destruct (member data "expires_in"); reflexivity.
Qed.

Lemma prober_baidu_granted_witness :
  exists resp,
    run (scripted [json_reply granted_token] []) 0
        (Prober.handler sample_env (post [("provider", JStr "baidu")]))
    = ([EFetch
          (Request
             "https://aip.baidubce.com/oauth/2.0/token?grant_type=client_credentials&client_id=ak&client_secret=sk"
             "POST" [] None)],
       Returned resp)
    /\ status resp = 200%Z
    /\ response_field resp "success" = Some (JBool true)
    /\ response_field resp "expiresIn" = Some (JInt 2592000).
Proof.
  exact (prober_baidu_granted sample_env
           (scripted [json_reply granted_token] [])
           [("provider", JStr "baidu")] granted_token
           eq_refl eq_refl (fun _ => eq_refl) ltac:(discriminate) eq_refl).
Defined.

(** ** The facade *)

(** Use the response the world is known to give to the next call. *)
Ltac reply H := reject H.

(** X13.  For a provider that is not local the facade makes, in every
    world and whatever comes back, exactly one outbound call: a POST to
    [/api/ocr] whose body is an object naming the image and a provider the
    dispatcher has an adapter for. *)
Theorem performCloudOcr_single_request
    (p : OCRProvider) (image : string) (language : option string)
    (options : value) (w : world) :
  is_local p = false ->
  exists fields,
    calls w (performCloudOcr p image language options)
    = [EFetch (Request "/api/ocr" "POST" [("Content-Type", "application/json")]
                 (Some (JSON_stringify (JObj fields))))]
    /\ lookup "provider" fields = Some (JStr (providerMap p))
    /\ supported (Some (JStr (providerMap p))) = true
    /\ lookup "imageBase64" fields = Some (JStr image).
Proof.
  intros Hp. unfold calls, performCloudOcr. rewrite Hp.
  eexists. split; [ | split; [ | split]].
  - exec; reflexivity.
  - reflexivity.
  - destruct p; try discriminate; reflexivity.
  - reflexivity.
Qed.

Lemma performCloudOcr_single_request_witness :
  exists fields,
    calls (scripted [] []) (performCloudOcr ALIBABA sample_image None undefined)
    = [EFetch (Request "/api/ocr" "POST" [("Content-Type", "application/json")]
                 (Some (JSON_stringify (JObj fields))))]
    /\ lookup "provider" fields = Some (JStr "aliyun")
    /\ supported (Some (JStr "aliyun")) = true
    /\ lookup "imageBase64" fields = Some (JStr sample_image).
Proof.
  exact (performCloudOcr_single_request ALIBABA sample_image None undefined
           (scripted [] []) eq_refl).
Defined.

(** The facade on an ok response whose body reports success and holds a
    [data] object. *)
Lemma performCloudOcr_success_path
    (p : OCRProvider) (image : string) (language : option string)
    (options : value) (w : world) (data inner : json) :
  is_local p = false ->
  replies w 0 (Response true (inr data)) ->
  truthy (member data "success") = true ->
  member data "data" = Some inner ->
  inner <> JNull ->
  result w (performCloudOcr p image language options)
  = Returned {| text := member inner "text";
                provider := member inner "provider";
                Facade.rawResult := member inner "rawResult" |}.
Proof.
  intros Hp Hrep Hs Hd Hin.
  pose proof (truthy_not_null _ _ Hs) as Hdn.
  unfold result, performCloudOcr. rewrite Hp. reply Hrep.
  rewrite !(get_prop_member data) by assumption. exec_step. rewrite Hs.
  exec_step. rewrite Hd.
  rewrite !(get_prop_member inner) by assumption. exec_step. reflexivity.
Qed.

(** X14.  The facade undoes the dispatcher's envelope: answered with an
    ok response whose body is the success envelope of an adapter's result,
    [performCloudOcr] returns that result's text, provider and raw
    result. *)
Theorem facade_returns_adapter_result
    (p : OCRProvider) (image : string) (language : option string)
    (options : value) (w : world) (r : OcrResult) (envelope : json) :
  is_local p = false ->
  resp_body (success_envelope r) = Some envelope ->
  replies w 0 (Response true (inr envelope)) ->
  result w (performCloudOcr p image language options)
  = Returned (facade_result r).
Proof.
  intros Hp He Hrep. injection He as <-.
  rewrite (performCloudOcr_success_path p image language options w _
             (result_json r) Hp Hrep); try reflexivity; try discriminate.
  unfold facade_result, result_json, member.
  destruct (result_text r); reflexivity.
Qed.

Lemma facade_returns_adapter_result_witness :
  result
    (scripted
       [inr (Response true
               (inr (JObj [("success", JBool true);
                           ("data", JObj [("text", JStr "IP67");
                                          ("provider", JStr "wechat");
                                          ("rawResult", JObj [])])])))] [])
    (performCloudOcr WECHAT sample_image None undefined)
  = Returned {| text := Some (JStr "IP67");
                provider := Some (JStr "wechat");
                Facade.rawResult := Some (JObj []) |}.
Proof.
  exact (facade_returns_adapter_result WECHAT sample_image None undefined
           (scripted
              [inr (Response true
                      (inr (JObj [("success", JBool true);
                                  ("data", JObj [("text", JStr "IP67");
                                                 ("provider", JStr "wechat");
                                                 ("rawResult", JObj [])])])))]
              [])
           {| result_text := Some (JStr "IP67");
              result_provider := "wechat";
              Dispatcher.rawResult := JObj [] |}
           _ eq_refl eq_refl (fun _ => eq_refl)).
Defined.



(** ** The connection tests *)

Import ConnectionTest.

(** X16.  [testCloudOcrConnection] never throws, in any world: it returns
    a result after no call at all for a local provider, and otherwise after
    exactly one POST to [/api/ocr/test] naming the provider. *)
Theorem testCloudOcrConnection_never_throws (p : OCRProvider) (w : world) :
  exists r,
    run w 0 (testCloudOcrConnection p)
    = (if is_local p then []
       else [EFetch (Request "/api/ocr/test" "POST"
                       [("Content-Type", "application/json")]
                       (Some (JSON_stringify
                                (JObj [("provider", JStr (providerMap p))]))))],
       Returned r).
Proof.
  unfold testCloudOcrConnection.
  destruct (is_local p); [eexists; reflexivity | ].
  exec; eexists; reflexivity.
Qed.

(** X17.  What the connection test of a cloud provider reports.  The body
    of an ok response is returned as it came, whatever it says; from a
    response that is not ok only the [error] is kept, as the [message] of
    a failure, with a fixed text when there is none; a rejected call is
    reported as a failure whose message carries the rejection's. *)
Theorem testCloudOcrConnection_report (p : OCRProvider) (w : world) :
  is_local p = false ->
  (forall data,
      replies w 0 (Response true (inr data)) ->
      result w (testCloudOcrConnection p) = Returned data)
  /\ (forall data,
         replies w 0 (Response false (inr data)) ->
         data <> JNull ->
         result w (testCloudOcrConnection p)
         = Returned (test_result false
                       (or_else (member data "error")
                                (Some (JStr "连接测试失败")))))
  /\ (forall err,
         rejects w 0 err ->
         result w (testCloudOcrConnection p)
         = Returned (test_result false
                       (Some (JStr ("连接测试失败: "
                                    ++ (if String.eqb (message err) ""
                                        then "网络错误"
                                        else message err)))))).
Proof.
  intros Hp. unfold result, testCloudOcrConnection. rewrite Hp.
  split; [ | split].
  - intros data Hrep. reply Hrep. reflexivity.
  - intros data Hrep Hdn. reply Hrep.
    rewrite !(get_prop_member data) by assumption. exec_step. reflexivity.
  - intros err Hrej. reject Hrej. unfold or_else. cbn [truthy].
    destruct (message err); reflexivity.
Qed.

Lemma testCloudOcrConnection_report_witness :
  result (scripted [inr (Response true (inr (JObj [("success", JBool false);
                                                   ("error", JStr "百度OCR认证失败: unknown client id")])))] [])
         (testCloudOcrConnection BAIDU)
  = Returned (JObj [("success", JBool false);
                    ("error", JStr "百度OCR认证失败: unknown client id")])
  /\ result (scripted [inr (Response false (inr (JObj [("success", JBool false);
                                                      ("error", JStr "缺少提供商参数")])))] [])
            (testCloudOcrConnection BAIDU)
     = Returned (JObj [("success", JBool false);
                       ("message", JStr "缺少提供商参数")])
  /\ result (scripted [inl (TypeError "Failed to fetch")] [])
            (testCloudOcrConnection BAIDU)
     = Returned (JObj [("success", JBool false);
                       ("message", JStr "连接测试失败: Failed to fetch")]).
Proof.
  split; [ | split].
  - exact (proj1 (testCloudOcrConnection_report BAIDU
                    (scripted [inr (Response true (inr (JObj [("success", JBool false);
                                                              ("error", JStr "百度OCR认证失败: unknown client id")])))] [])
                    eq_refl)
             _ (fun _ => eq_refl)).
  - exact (proj1 (proj2 (testCloudOcrConnection_report BAIDU
                           (scripted [inr (Response false (inr (JObj [("success", JBool false);
                                                                      ("error", JStr "缺少提供商参数")])))] [])
                           eq_refl))
             _ (fun _ => eq_refl) ltac:(discriminate)).
  - exact (proj2 (proj2 (testCloudOcrConnection_report BAIDU
                           (scripted [inl (TypeError "Failed to fetch")] [])
                           eq_refl))
             (TypeError "Failed to fetch") (fun _ => eq_refl)).
Defined.

(** X18.  [testOcrConnection] never throws.  For LOCAL and ESEARCH,
    without a window it makes no outbound call and reports a failure; with
    a window its one outbound call is the load of the recognition engine,
    and it reports success exactly when that load resolved, a rejected
    load being reported, not thrown.  For every other provider it is the
    connection test of the facade, so that the branch for an unknown
    provider is never taken. *)
Theorem testOcrConnection_outcomes
    (b : browser) (p : OCRProvider) (w : world) :
  if is_local p
  then exists r,
         run w 0 (testOcrConnection b p)
         = (if has_window b
            then [EFetch (Request engine_url "GET" [] None)]
            else [],
            Returned r)
         /\ member r "success"
            = Some (JBool (has_window b
                           && match net w 0 (Request engine_url "GET" [] None)
                              with
                              | inr _ => true
                              | inl _ => false
                              end))
  else testOcrConnection b p = testCloudOcrConnection p.
Proof.
  destruct (is_local p) eqn:Hp.
  - unfold testOcrConnection, import_module. rewrite Hp.
    destruct (has_window b); cbn [negb andb].
    + exec_step.
      destruct (net w 0 (Request engine_url "GET" [] None)) as [err | loaded];
        exec_step; eexists; split; reflexivity.
    + exec_step. eexists; split; reflexivity.
  - unfold testOcrConnection. rewrite Hp.
    destruct p; try discriminate; reflexivity.
Qed.

(** ** The analysis behind the cloud functions *)

Import CloudGeminiService CloudAnalysis.

(** X19.  The key [getGeminiApiKey] returns is never [undefined]: it is
    the key of the window's configuration when that one is truthy,
    otherwise the build-time key when that one is truthy, otherwise the
    empty string.  So a key is there exactly when one of the two is. *)
Theorem getGeminiApiKey_sources (c : client_env) :
  let window_key :=
    match window_config c with
    | Some config => get_prop_opt config "geminiApiKey"
    | None => undefined
    end in
  getGeminiApiKey c <> undefined
  /\ truthy (getGeminiApiKey c)
     = truthy window_key || truthy (VITE_GEMINI_API_KEY c)
  /\ getGeminiApiKey c
     = if truthy window_key then window_key
       else if truthy (VITE_GEMINI_API_KEY c) then VITE_GEMINI_API_KEY c
       else Some (JStr "").
Proof.
  unfold getGeminiApiKey, or_else. cbv zeta.
  destruct (window_config c) as [config | ].
  - destruct (truthy (get_prop_opt config "geminiApiKey")) eqn:Hw.
    + rewrite Hw. cbn [orb]. split; [ | split; reflexivity].
      intros H. rewrite H in Hw. discriminate.
    + cbn [orb]. destruct (truthy (VITE_GEMINI_API_KEY c)) eqn:Hv.
      * rewrite Hv. split; [ | split; reflexivity].
        intros H. rewrite H in Hv. discriminate.
      * split; [discriminate | split; reflexivity].
  - cbn [truthy orb]. destruct (truthy (VITE_GEMINI_API_KEY c)) eqn:Hv.
    + rewrite Hv. split; [ | split; reflexivity].
      intros H. rewrite H in Hv. discriminate.
    + split; [discriminate | split; reflexivity].
Qed.

(** X20.  The recognition step of [analyzePosterImage].  It is taken only
    when no text was handed in and a provider other than the model was;
    otherwise the function is the one without a provider.  When it is
    taken and recognition throws, the failure is swallowed: the analysis
    goes on, on the calls that follow, as if no provider had been given.
    When recognition returns a text, the analysis goes on as if that text
    had been handed in. *)
Theorem recognition_step
    (P : platform) (c : client_env) (image : string)
    (terminology : list GeminiService.SecurityTerm)
    (preExtractedText : option string) (p : OCRProvider) (w : world) :
  if recognises P preExtractedText p
  then (forall cs err,
           run w 0 (performOcr P p image (Some "CHN_ENG")) = (cs, Thrown err) ->
           run w 0 (analyzePosterImage P c image terminology preExtractedText
                      (Some p))
           = let '(cs', o) :=
               run w (List.length cs)
                   (analyzePosterImage P c image terminology preExtractedText
                      None) in
             ((cs ++ cs')%list, o))
       /\ (forall cs t,
              run w 0 (performOcr P p image (Some "CHN_ENG"))
              = (cs, Returned (Some (JStr t))) ->
              run w 0 (analyzePosterImage P c image terminology
                         preExtractedText (Some p))
              = let '(cs', o) :=
                  run w (List.length cs)
                      (analyzePosterImage P c image terminology (Some t) None) in
                ((cs ++ cs')%list, o))
  else analyzePosterImage P c image terminology preExtractedText (Some p)
       = analyzePosterImage P c image terminology preExtractedText None.
Proof.
  destruct (recognises P preExtractedText p) eqn:Hr;
    unfold recognises in Hr; unfold analyzePosterImage; cbv zeta; rewrite Hr.
  - split.
    + intros cs err Hrun. rewrite run_bind, run_try_catch, Hrun.
      cbn [run bind Nat.add]. rewrite ?app_nil_r, ?Nat.add_0_r. reflexivity.
    + intros cs t Hrun. rewrite run_bind, run_try_catch, Hrun.
      cbn [run bind Nat.add str_value]. reflexivity.
  - reflexivity.
Qed.

Lemma recognition_step_witness :
  (forall cs err,
      run (scripted [] []) 0
          (performOcr sample_platform BAIDU sample_image (Some "CHN_ENG"))
      = (cs, Thrown err) ->
      run (scripted [] []) 0
          (analyzePosterImage sample_platform sample_client sample_image []
             None (Some BAIDU))
      = let '(cs', o) :=
          run (scripted [] []) (List.length cs)
              (analyzePosterImage sample_platform sample_client sample_image []
                 None None) in
        ((cs ++ cs')%list, o))
  /\ analyzePosterImage sample_platform sample_client sample_image []
       (Some "4K NVR") (Some BAIDU)
     = analyzePosterImage sample_platform sample_client sample_image []
         (Some "4K NVR") None.
Proof.
  split.
  - exact (proj1 (recognition_step sample_platform sample_client sample_image
                    [] None BAIDU (scripted [] []))).
  - exact (recognition_step sample_platform sample_client sample_image []
             (Some "4K NVR") BAIDU (scripted [] [])).
Defined.

(** X21.  Without a key none of the three functions reaches the model:
    the text analysis, the term extraction and the poster analysis without
    recognition are bare throws.  The poster analysis checks the key only
    after its recognition step, so with a cloud provider it has made that
    one outbound call before it throws. *)
Theorem missing_key_stops_before_model (c : client_env) :
  truthy (getGeminiApiKey c) = false ->
  (forall P image terminology preExtractedText,
      analyzePosterImage P c image terminology preExtractedText None
      = Throw (Error key_missing_message))
  /\ (forall inputText terminology,
         analyzeSecurityText c inputText terminology
         = Throw (Error "Gemini API Key 未配置。"))
  /\ (forall rawText,
         CloudGeminiService.parseTerminologyFromText c rawText
         = Throw (Error "Gemini API Key 未配置。"))
  /\ (forall P image terminology p w,
         recognises P None p = true ->
         is_local p = false ->
         exists call,
           run w 0 (analyzePosterImage P c image terminology None (Some p))
           = ([EFetch call], Thrown (Error key_missing_message))).
Proof.
  intros Hkey. split; [ | split; [ | split]].
  - intros. unfold analyzePosterImage. rewrite Hkey. reflexivity.
  - intros. unfold analyzeSecurityText. rewrite Hkey. reflexivity.
  - intros. unfold CloudGeminiService.parseTerminologyFromText.
    rewrite Hkey. reflexivity.
  - intros P image terminology p w Hr Hp.
    unfold recognises in Hr. unfold analyzePosterImage. cbv zeta.
    rewrite Hr, Hkey. unfold performOcr, performCloudOcr. rewrite Hp.
    cbn [negb]. exec; eexists; reflexivity.
Qed.

Lemma missing_key_stops_before_model_witness :
  analyzeSecurityText keyless_client "4K NVR" []
  = Throw (Error "Gemini API Key 未配置。")
  /\ exists call,
       run (scripted [] []) 0
           (analyzePosterImage sample_platform keyless_client sample_image []
              None (Some WECHAT))
       = ([EFetch call], Thrown (Error key_missing_message)).
Proof.
  split.
  - exact (proj1 (proj2 (missing_key_stops_before_model keyless_client eq_refl))
             "4K NVR" []).
  - exact (proj2 (proj2 (proj2 (missing_key_stops_before_model keyless_client
                                  eq_refl)))
             sample_platform sample_image [] WECHAT (scripted [] [])
             eq_refl eq_refl).
Defined.

(** Whatever the [catch] of [analyzePosterImage] throws carries one of
    its messages. *)
Lemma translate_message (error : exn) :
  analysis_message (message (translate error)).
Proof.
  unfold translate, analysis_message.
  destruct (includes (message error) "API_KEY_INVALID"
            || includes (message error) "authentication"); [now left | ].
  destruct (includes (message error) "quota"
            || includes (message error) "rate limit"); [now right; left | ].
  destruct (includes (message error) "network"
            || includes (message error) "fetch"); [now right; right; left | ].
  right; right; right. eexists. reflexivity.
Qed.

(** X22.  With a key, the analysis proper of [analyzePosterImage] makes
    exactly one call, to the model, with the image and the instruction for
    the text it has.  What it returns is the parsed body of the model's
    response and nothing else: a text handed in is not put into the
    result.  What it throws carries one of the four messages of its
    [catch], whether the model, the empty body or the parser failed. *)
Theorem analysis_outcomes
    (P : platform) (c : client_env) (image : string)
    (terminology : list GeminiService.SecurityTerm)
    (preExtractedText : option string) (w : world) :
  truthy (getGeminiApiKey c) = true ->
  let analysis :=
    analyzePosterImage P c image terminology preExtractedText None in
  let g :=
    analysis_request (getGeminiApiKey c) image terminology
                     (str_value preExtractedText) in
  calls w analysis = [EGenerate g]
  /\ (forall v,
         result w analysis = Returned v <->
         exists body,
           llm w 0 g = inr (GenResponse (Some body))
           /\ JSON_parse body = inr v)
  /\ (forall err,
         result w analysis = Thrown err -> analysis_message (message err)).
Proof.
  intros Hkey. cbv zeta.
  unfold calls, result, analyzePosterImage, analysis_request. rewrite Hkey.
  cbn [negb bind]. unfold generateContent. exec_step.
  destruct (llm w 0 _) as [err | [[body | ]]]; exec_step.
  - split; [reflexivity | split].
    + intros v. split; [discriminate | ]. intros (body & H & _). discriminate.
    + intros e H. injection H as <-. apply translate_message.
  - destruct (truthy (str_value (Some body))) eqn:Hb; cbn [negb]; exec_step.
    + cbn [str_value to_string json_to_string].
      destruct (JSON_parse body) as [err | v] eqn:Hparse; exec_step.
      * split; [reflexivity | split].
        -- intros v. split; [discriminate | ].
           intros (body' & H & Hp). injection H as <-. congruence.
        -- intros e H. injection H as <-. apply translate_message.
      * split; [reflexivity | split].
        -- intros v'. split.
           ++ intros H. injection H as <-. now exists body.
           ++ intros (body' & H & Hp). injection H as <-. congruence.
        -- discriminate.
    + split; [reflexivity | split].
      * intros v. split; [discriminate | ].
        intros (body' & H & Hp). injection H as <-.
        apply JSON_parse_nonempty in Hp. cbn [str_value] in Hb. congruence.
      * intros e H. injection H as <-. apply translate_message.
  - split; [reflexivity | split].
    + intros v. split; [discriminate | ]. intros (body & H & _). discriminate.
    + intros e H. injection H as <-. apply translate_message.
Qed.

Lemma analysis_outcomes_witness :
  result (scripted [] [inr (GenResponse (Some sample_analysis_text))])
         (analyzePosterImage sample_platform sample_client sample_image []
            (Some "4K NVR") None)
  = Returned (JObj sample_analysis).
Proof.
  apply (proj2 (proj1 (proj2 (analysis_outcomes sample_platform sample_client
                                sample_image [] (Some "4K NVR")
                                (scripted []
                                   [inr (GenResponse (Some sample_analysis_text))])
                                eq_refl))
                  (JObj sample_analysis))).
  exists sample_analysis_text. split; [reflexivity | vm_compute; reflexivity].
Defined.

(** X23.  With a key, [analyzeSecurityText] makes exactly one call, to
    the model, with the instruction holding the text.  It returns the
    parsed body of the response, and every failure, of the model, of an
    empty body or of the parser, leaves it under the one heading of its
    [catch]. *)
Theorem text_analysis_outcomes
    (c : client_env) (inputText : string)
    (terminology : list GeminiService.SecurityTerm) (w : world) :
  truthy (getGeminiApiKey c) = true ->
  let analysis := analyzeSecurityText c inputText terminology in
  let g :=
    GenRequest (getGeminiApiKey c) "gemini-1.5-flash"
               (Prompt (text_prompt inputText terminology)) text_config in
  calls w analysis = [EGenerate g]
  /\ (forall v,
         result w analysis = Returned v <->
         exists body,
           llm w 0 g = inr (GenResponse (Some body))
           /\ JSON_parse body = inr v)
  /\ (forall err,
         result w analysis = Thrown err ->
         exists detail, err = Error (text_failure_prefix ++ detail)).
Proof.
  intros Hkey. cbv zeta.
  unfold calls, result, analyzeSecurityText. rewrite Hkey.
  cbn [negb bind]. unfold generateContent. exec_step.
  destruct (llm w 0 _) as [err | [[body | ]]]; exec_step.
  - split; [reflexivity | split].
    + intros v. split; [discriminate | ]. intros (body & H & _). discriminate.
    + intros e H. injection H as <-. eexists. reflexivity.
  - destruct (truthy (str_value (Some body))) eqn:Hb; cbn [negb]; exec_step.
    + cbn [str_value to_string json_to_string].
      destruct (JSON_parse body) as [err | v] eqn:Hparse; exec_step.
      * split; [reflexivity | split].
        -- intros v. split; [discriminate | ].
           intros (body' & H & Hp). injection H as <-. congruence.
        -- intros e H. injection H as <-. eexists. reflexivity.
      * split; [reflexivity | split].
        -- intros v'. split.
           ++ intros H. injection H as <-. now exists body.
           ++ intros (body' & H & Hp). injection H as <-. congruence.
        -- discriminate.
    + split; [reflexivity | split].
      * intros v. split; [discriminate | ].
        intros (body' & H & Hp). injection H as <-.
        apply JSON_parse_nonempty in Hp. cbn [str_value] in Hb. congruence.
      * intros e H. injection H as <-. eexists. reflexivity.
  - split; [reflexivity | split].
    + intros v. split; [discriminate | ]. intros (body & H & _). discriminate.
    + intros e H. injection H as <-. eexists. reflexivity.
Qed.

Lemma text_analysis_outcomes_witness :
  calls (scripted [] []) (analyzeSecurityText sample_client "4K NVR" [])
  = [EGenerate (GenRequest (Some (JStr "gk")) "gemini-1.5-flash"
                  (Prompt (text_prompt "4K NVR" [])) text_config)].
Proof.
  exact (proj1 (text_analysis_outcomes sample_client "4K NVR" []
                  (scripted [] []) eq_refl)).
Defined.



(** ** The analysis adapter of [services/geminiService.ts] *)

(** X25.  Neither function of the service catches anything.  In every
    world each makes exactly one call, to the model: the poster analysis
    with the image and its instruction, the term extraction with its
    instruction alone; and a rejection of that call is thrown on as it
    came, as is the parser's error on a body that is not JSON. *)
Theorem service_failures_propagate
    (e : env) (image : string) (terminology : list GeminiService.SecurityTerm)
    (preExtractedText : option string) (rawText : string) (w : world) :
  (exists g,
      calls w (GeminiService.analyzePosterImage e image terminology
                 preExtractedText) = [EGenerate g]
      /\ gen_contents g
         = Parts [InlineData "image/png" image;
                  TextPart (GeminiService.analysis_prompt terminology
                              preExtractedText)]
      /\ forall err,
           llm w 0 g = inl err
           \/ (exists body,
                  llm w 0 g = inr (GenResponse (Some body))
                  /\ body <> ""
                  /\ JSON_parse body = inl err) ->
           result w (GeminiService.analyzePosterImage e image terminology
                       preExtractedText) = Thrown err)
  /\ (exists g,
         calls w (GeminiService.parseTerminologyFromText e rawText)
         = [EGenerate g]
         /\ gen_contents g = Prompt (GeminiService.terminology_prompt rawText)
         /\ forall err,
              llm w 0 g = inl err
              \/ (exists body,
                     llm w 0 g = inr (GenResponse (Some body))
                     /\ body <> ""
                     /\ JSON_parse body = inl err) ->
              result w (GeminiService.parseTerminologyFromText e rawText)
              = Thrown err).
Proof.
  split.
  - unfold calls, result, GeminiService.analyzePosterImage. cbv zeta.
    unfold generateContent. exec_step.
    eexists. split; [ | split].
    + destruct (llm w 0 _) as [err | [[body | ]]]; exec; reflexivity.
    + reflexivity.
    + intros err [H | (body & H & Hb & Hparse)]; rewrite H; exec_step.
      * reflexivity.
      * cbn [str_value]. rewrite (nonempty_truthy _ Hb).
        cbn [negb to_string json_to_string]. rewrite Hparse. exec_step.
        reflexivity.
  - unfold calls, result, GeminiService.parseTerminologyFromText. cbv zeta.
    unfold generateContent. exec_step.
    eexists. split; [ | split].
    + destruct (llm w 0 _) as [err | [[body | ]]]; exec; reflexivity.
    + reflexivity.
    + intros err [H | (body & H & Hb & Hparse)]; rewrite H; exec_step.
      * reflexivity.
      * cbn [str_value]. rewrite (nonempty_truthy _ Hb).
        cbn [negb to_string json_to_string]. rewrite Hparse. exec_step.
        reflexivity.
Qed.

(** X26.  The model's own text wins.  When no text was handed in, or the
    parsed body has a truthy [text] of its own, [analyzePosterImage]
    returns the parsed body of the model's response unchanged. *)
Theorem model_result_is_kept
    (e : env) (image : string) (terminology : list GeminiService.SecurityTerm)
    (preExtractedText : option string) (w : world) (body : string)
    (parsed : json) :
  generates w 0 (inr (GenResponse (Some body))) ->
  JSON_parse body = inr parsed ->
  truthy (str_value preExtractedText) = false
  \/ truthy (member parsed "text") = true ->
  exists g,
    run w 0 (GeminiService.analyzePosterImage e image terminology
               preExtractedText)
    = ([EGenerate g], Returned (GeminiService.Plain parsed)).
Proof.
  intros Hw Hparse Hkeep.
  pose proof (JSON_parse_nonempty _ _ Hparse) as Hb.
  unfold GeminiService.analyzePosterImage. cbv zeta.
  generate Hw. cbn [str_value] in *. rewrite Hb.
  cbn [negb to_string json_to_string]. rewrite Hparse. exec_step.
  destruct (truthy (str_value preExtractedText)) eqn:Hpre;
    cbn [str_value] in Hpre; rewrite ?Hpre.
  - destruct Hkeep as [Hkeep | Hkeep]; [discriminate | ].
    rewrite (get_prop_member parsed) by (exact (truthy_not_null _ _ Hkeep)).
    exec_step. rewrite Hkeep. cbn [negb]. exec_step. eauto.
  - exec_step. eauto.
Qed.

Lemma model_result_is_kept_witness :
  exists g,
    run (scripted [] [inr (GenResponse (Some sample_analysis_text))]) 0
        (GeminiService.analyzePosterImage sample_env sample_image [] None)
    = ([EGenerate g], Returned (GeminiService.Plain (JObj sample_analysis))).
Proof.
  apply (model_result_is_kept sample_env sample_image [] None
           (scripted [] [inr (GenResponse (Some sample_analysis_text))])
           sample_analysis_text (JObj sample_analysis)).
  - intros g; reflexivity.
  - vm_compute. reflexivity.
  - left. reflexivity.
Defined.

(** X27.  A text handed in is never lost: whenever [analyzePosterImage]
    returns, having been given a non-empty text, the result has a truthy
    [text], the model's own or the one handed in. *)
Theorem supplied_text_always_in_result
    (e : env) (image : string) (terminology : list GeminiService.SecurityTerm)
    (preExtractedText : string) (w : world) (cs : list event)
    (r : GeminiService.parsed_value) :
  preExtractedText <> "" ->
  run w 0 (GeminiService.analyzePosterImage e image terminology
             (Some preExtractedText)) = (cs, Returned r) ->
  truthy (GeminiService.text_of r) = true.
Proof.
  intros Hpre. pose proof (nonempty_truthy _ Hpre) as Hp.
  unfold GeminiService.analyzePosterImage. cbv zeta.
  unfold generateContent. exec_step.
  destruct (llm w 0 _) as [err | [[body | ]]]; exec_step; try discriminate.
  destruct (truthy (str_value (Some body))); cbn [negb]; exec_step;
    try discriminate.
  destruct (JSON_parse _) as [err | parsed]; exec_step; try discriminate.
  cbn [str_value] in *. rewrite Hp.
  destruct parsed as [ | b | n | s | items | fields];
    cbn [get_prop]; exec_step; try discriminate;
    cbn [truthy negb GeminiService.assign_text]; exec_step; try discriminate.
  - intros H. injection H as _ <-. exact Hp.
  - destruct (truthy (lookup "text" fields)) eqn:Ht; cbn [negb]; exec_step;
      intros H; injection H as _ <-; cbn [GeminiService.text_of].
    + exact Ht.
    + cbn [to_string json_to_string]. now rewrite lookup_obj_set.
Qed.

Lemma supplied_text_always_in_result_witness :
  truthy (GeminiService.text_of
            (GeminiService.Plain
               (JObj (obj_set "text" (JStr "4K NVR") sample_analysis))))
  = true.
Proof.
  apply (supplied_text_always_in_result sample_env sample_image [] "4K NVR"
           (scripted [] [inr (GenResponse (Some sample_analysis_text))])
           [EGenerate
              (GenRequest (env_value (sample_env "API_KEY"))
                 "gemini-3-pro-preview"
                 (Parts [InlineData "image/png" sample_image;
                         TextPart (GeminiService.analysis_prompt []
                                     (Some "4K NVR"))])
                 GeminiService.analysis_config)]).
  - discriminate.
  - vm_compute. reflexivity.
Defined.

(** ** The text of the one-text vendors *)

(** X28.  Aliyun and Gemini answer with one text.  When the response
    carries no error code and that text is truthy, the adapter's text is
    that value as it came, the raw result is the whole response, and the
    adapter has made exactly one call. *)
Theorem recognised_text_is_passed_on
    (p : OcrProvider) (e : env) (image : json) (language prompt : value)
    (w : world) (data : json) :
  uses_token_exchange p = false ->
  configured p e = true ->
  answers w 0 data ->
  has_no_error_code p data = true ->
  truthy (text_field p data) = true ->
  exists call,
    run w 0 (adapter p e image language prompt) =
    ([EFetch call],
     Returned {| result_text := text_field p data;
                 result_provider := provider_name p;
                 Dispatcher.rawResult := data |}).
Proof.
  intros Hp Hc Hd Herr Htext.
  assert (data <> JNull) as Hdn
      by (intros ->; destruct p; try discriminate; vm_compute in Htext;
          discriminate).
  destruct p; try discriminate;
    cbn [has_no_error_code text_field adapter provider_name] in *;
    unfold configured in Hc.
  - apply andb_true_iff in Hc as [Hc1 Hc2].
    unfold callAliyunOcr. rewrite Hc1, Hc2. cbn [negb orb].
    answer Hd.
    rewrite !(get_prop_member data) by assumption. exec_step. rewrite Herr.
    cbn [negb]. exec_step. unfold or_else. rewrite Htext. eauto.
  - apply negb_true_iff in Herr.
    unfold callGeminiOcr. rewrite Hc. cbn [negb].
    answer Hd.
    rewrite !(get_prop_member data) by assumption. exec_step. rewrite Herr.
    exec_step. unfold or_else. fold (gemini_text_path data).
    rewrite Htext. eauto.
Qed.

Lemma recognised_text_is_passed_on_witness :
  exists call,
    run (scripted
           [json_reply (JObj [("Code", JStr "200");
                              ("Data", JObj [("Content", JStr "IP67 4K NVR")])])]
           []) 0
        (adapter aliyun sample_env (JStr sample_image) undefined undefined) =
    ([EFetch call],
     Returned {| result_text := Some (JStr "IP67 4K NVR");
                 result_provider := "aliyun";
                 Dispatcher.rawResult :=
                   JObj [("Code", JStr "200");
                         ("Data", JObj [("Content", JStr "IP67 4K NVR")])] |}).
Proof.
  exact (recognised_text_is_passed_on aliyun sample_env (JStr sample_image)
           undefined undefined
           (scripted
              [json_reply (JObj [("Code", JStr "200");
                                 ("Data", JObj [("Content", JStr "IP67 4K NVR")])])]
              [])
           (JObj [("Code", JStr "200");
                  ("Data", JObj [("Content", JStr "IP67 4K NVR")])])
           eq_refl eq_refl (fun _ => eq_refl) eq_refl eq_refl).
Defined.
